(** * runnr: race prediction and training-plan engine

    A shallow embedding of the prediction module (calculateRacePredictions,
    calculateDistancePrediction, estimatePaceFromTraining,
    generatePacingStrategy) and of lib/training-plan.ts
    (calculateDetailedMetrics, generateWorkout, generateWeeklyPlan,
    generateTrainingPlan), followed by the properties the specification
    states about them.  The embedding also covers analyzeTrainingLoad,
    the formatters of lib/utils.ts, the paging of getAllActivities, the
    historical trend of the predictions route (calculateHistoricalPredictions,
    filterOutliers) and shouldRegeneratePlan, with further properties of
    each at the end.

    Conventions of the embedding.
    - A JavaScript number is an exact rational [Q]; equality of numbers is
      [Qeq].  IEEE-754 rounding error, NaN and the infinities are outside the
      model, so a division is only meaningful where the source divides by a
      non-zero number (the specification's contract: positive distances and
      durations).
    - A [Date] is its epoch time in milliseconds, a [Z]; the ambient clock
      [new Date()] is the explicit parameter [now].
    - [null]/[undefined] is [None]; JavaScript truthiness of an optional
      number is [JS.truthy]. *)

From Stdlib Require Import String Ascii DecimalString.
From Stdlib Require Import QArith Qround Qminmax Qabs Lqa ZArith Lia.
From Stdlib Require Import List Bool.
From Stdlib Require Import Sorting.Permutation Sorting.Sorted.
Import ListNotations.

Local Open Scope Q_scope.

(** ** JavaScript primitives used by the source *)

Module JS.

(** [x < y], [x <= y], [x > y], [x >= y] on numbers. *)
Definition ltb (x y : Q) : bool := (Qnum x * QDen y <? Qnum y * QDen x)%Z.
Definition leb (x y : Q) : bool := Qle_bool x y.
Definition gtb (x y : Q) : bool := ltb y x.
Definition geb (x y : Q) : bool := leb y x.

Definition Math_floor (x : Q) : Z := Qfloor x.
Definition Math_ceil (x : Q) : Z := Qceiling x.
(** [Math.round] rounds to the nearest integer, ties towards +infinity. *)
Definition Math_round (x : Q) : Z := Qfloor (x + 0.5).
Definition Math_min (x y : Q) : Q := if ltb y x then y else x.
Definition Math_max (x y : Q) : Q := if ltb x y then y else x.

(** The idiom [Math.round(x * 10) / 10]. *)
Definition round1 (x : Q) : Q := inject_Z (Math_round (x * 10)) / 10.

(** Truthiness of an optional number: [undefined] and [0] are falsy. *)
Definition truthy (x : option Q) : bool :=
  match x with
  | Some q => negb (Qeq_bool q 0)
  | None => false
  end.

(** [l.reduce((sum, r) => sum + f(r), 0)]. *)
Definition sumOf {A : Type} (f : A -> Q) (l : list A) : Q :=
  fold_left (fun sum r => sum + f r) l 0.

(** [l.reduce((best, cur) => pick(best, cur))] without an initial value:
    [None] stands for the TypeError on an empty array. *)
Definition reduce1 {A : Type} (pick : A -> A -> A) (l : list A) : option A :=
  match l with
  | [] => None
  | x :: xs => Some (fold_left pick xs x)
  end.

(** [l.sort((a, b) => cmp(a, b))]: a stable sort (ECMAScript 2019). *)
Fixpoint insertBy {A : Type} (cmp : A -> A -> Q) (x : A) (l : list A)
  : list A :=
  match l with
  | [] => [x]
  | y :: ys => if leb (cmp x y) 0 then x :: y :: ys
               else y :: insertBy cmp x ys
  end.

Definition sortBy {A : Type} (cmp : A -> A -> Q) (l : list A) : list A :=
  fold_right (insertBy cmp) [] l.

(** [l.slice(0, n)] and [l.slice(-n)] for a non-negative integer [n];
    [slice(-0)] is [slice(0)], the whole array. *)
Definition sliceTo {A : Type} (n : nat) (l : list A) : list A := firstn n l.
Definition sliceLast {A : Type} (n : nat) (l : list A) : list A :=
  match n with
  | O => l
  | _ => skipn (length l - n) l
  end.
Definition sliceFrom {A : Type} (n : nat) (l : list A) : list A := skipn n l.

(** [l[i] = v] for an index inside the array. *)
Fixpoint setAt {A : Type} (i : nat) (v : A) (l : list A) : list A :=
  match l, i with
  | [], _ => []
  | _ :: xs, O => v :: xs
  | x :: xs, S j => x :: setAt j v xs
  end.

(** Template interpolation of a non-negative integer. *)
Definition showNat (n : nat) : string :=
  NilEmpty.string_of_uint (Nat.to_uint n).

(** [x % y]: the remainder has the sign of the dividend. *)
Definition trunc (x : Q) : Z :=
  if ltb x 0 then Qceiling x else Qfloor x.
Definition rem (x y : Q) : Q := x - y * inject_Z (trunc (x / y)).

(** [n.toString()] of an integer and [s.padStart(2, '0')]. *)
Definition showInt (z : Z) : string :=
  if (z <? 0)%Z then String "-" (showNat (Z.to_nat (- z)))
  else showNat (Z.to_nat z).
Definition padStart2 (s : string) : string :=
  if (String.length s <? 2)%nat then String "0" s else s.

(** [a || b] on optional strings: the empty string is falsy. *)
Definition orElse (a : option string) (b : option string) : option string :=
  match a with
  | Some s => if String.eqb s EmptyString then b else Some s
  | None => b
  end.

End JS.

(** ** The activity record (StravaActivity), reduced to the fields read *)

Module Strava.

Record Activity : Type := mkActivity {
  distance : Q;        (* metres *)
  moving_time : Q;     (* seconds *)
  type : string;
  start_date : Z       (* epoch milliseconds of the ISO date string *)
}.

Definition DAY_MS : Z := 24 * 60 * 60 * 1000.

(** [(moving_time / 60) / (distance / 1000)], minutes per kilometre. *)
Definition paceOf (a : Activity) : Q :=
  (moving_time a / 60) / (distance a / 1000).

End Strava.

(** ** lib/training-plan.ts *)

Module TrainingPlan.

Import Strava.

Inductive RaceDistance : Type := D5K | D10K | HalfMarathon | Marathon.

Inductive WorkoutType : Type :=
| EasyRun | LongRun | TempoRun | Intervals | RecoveryRun | Rest
| CrossTraining | RaceDay.

Inductive Intensity : Type := Low | Medium | High.

Inductive Phase : Type := base | build | peak | taper.

Inductive Trend : Type := increasing | stable | decreasing.

Record PaceRange : Type := mkRange { min : Q; max : Q }.

Record PaceZones : Type := mkZones {
  easy : PaceRange;
  tempo : PaceRange;
  threshold : PaceRange;
  interval : PaceRange;
  long : PaceRange
}.

Record DetailedTrainingMetrics : Type := mkMetrics {
  activities : list Activity;
  recentRunCount : Q;
  weeklyKilometers : Q;
  avgPace : Q;
  longestRun : Q;
  paceZones : PaceZones;
  weeklyTrend : Trend;
  consistencyScore : Q;
  avgLongRun : Q;
  recentPaceImprovement : Q
}.

(** The free text of a workout, kept as the template that produced it
    together with the numbers and the pace range it interpolates. *)
Inductive Description : Type :=
| RestText
| LongRunText (km : Q) (pace : PaceRange)
| BaseQualityText (km : Q) (pace : PaceRange)
| TempoText (km tempoKm : Q) (pace : PaceRange)
| IntervalsText (km : Q) (rep : string) (pace : PaceRange)
| TaperQualityText (km : Q) (pace : PaceRange)
| EasyText (km : Q) (pace : PaceRange)
| RaceDayText.

Record Workout : Type := mkWorkout {
  day : string;
  type : WorkoutType;
  distance : option Q;
  description : Description;
  intensity : Intensity
}.

Record WeeklyPlan : Type := mkWeek {
  weekNumber : Z;
  weekStartDate : Z;          (* the calendar day, in days since the epoch *)
  focus : string;
  totalKilometers : Q;
  workouts : list Workout;
  notes : string
}.

Record RaceGoal : Type := mkGoal {
  date : Z;
  startDate : option Z;
  goalDistance : RaceDistance;
  targetTime : option string;
  runsPerWeek : nat;
  trainingDays : option (list nat)
}.

(** The conditional coaching strings, one constructor per template. *)
Inductive Recommendation : Type :=
| LessThan8Weeks
| BuildLongRun (longest target : Q)
| IncreaseVolume (current target : Q)
| RunMoreOften
| FitnessExcellent
| BuildBaseGradually
| PaceImproving (pct : Q)
| PaceSlowed
| WorkOnConsistency (score : Z)
| ExcellentConsistency (score : Z)
| StayHydrated
| PrioritizeSleep.

Record TrainingPlan : Type := mkPlan {
  raceGoal : RaceGoal;
  weeksUntilRace : Z;
  currentFitness : string;
  estimatedRaceTime : string;
  plan : list WeeklyPlan;
  recommendations : list Recommendation;
  generatedDate : Z
}.

Definition RACE_DISTANCES (d : RaceDistance) : Q :=
  match d with
  | D5K => 5
  | D10K => 10
  | HalfMarathon => 21.1
  | Marathon => 42.2
  end.

Section Clock.

Variable now : Z.

Definition calculateDetailedMetrics (activities : list Activity)
    (weeklyKilometers avgPace longestRun recentRunCount : Q)
  : DetailedTrainingMetrics :=
  let fourWeeksAgo := (now - 28 * DAY_MS)%Z in
  let eightWeeksAgo := (now - 56 * DAY_MS)%Z in
  let recentRuns :=
    filter (fun a => (fourWeeksAgo <=? start_date a)%Z) activities in
  let olderRuns :=
    filter (fun a => (eightWeeksAgo <=? start_date a)%Z
                     && (start_date a <? fourWeeksAgo)%Z) activities in
  let recentAvgPace :=
    if (0 <? length recentRuns)%nat
    then JS.sumOf paceOf recentRuns / inject_Z (Z.of_nat (length recentRuns))
    else avgPace in
  let olderAvgPace :=
    if (0 <? length olderRuns)%nat
    then JS.sumOf paceOf olderRuns / inject_Z (Z.of_nat (length olderRuns))
    else recentAvgPace in
  let paceImprovement :=
    if JS.gtb olderAvgPace 0
    then ((olderAvgPace - recentAvgPace) / olderAvgPace) * 100
    else 0 in
  let km := fun r : Activity => Strava.distance r / 1000 in
  let week1km :=
    JS.sumOf km (JS.sliceTo (length recentRuns / 4) recentRuns) in
  let week4km :=
    JS.sumOf km (JS.sliceLast (length recentRuns / 4) recentRuns) in
  let weeklyTrend :=
    if JS.gtb week4km (week1km * 1.1) then increasing
    else if JS.ltb week4km (week1km * 0.9) then decreasing
    else stable in
  let consistencyScore := JS.Math_min 100 ((recentRunCount / 16) * 100) in
  let sortedByDistance :=
    JS.sortBy (fun a b => Strava.distance b - Strava.distance a) recentRuns in
  let longRuns :=
    JS.sliceTo (Nat.max 1 ((length sortedByDistance + 3) / 4))
               sortedByDistance in
  let avgLongRun :=
    if (0 <? length longRuns)%nat
    then JS.sumOf km longRuns / inject_Z (Z.of_nat (length longRuns))
    else longestRun in
  let easyPaceMin := recentAvgPace * 1.15 in
  let easyPaceMax := recentAvgPace * 1.3 in
  let tempoPaceMin := recentAvgPace * 0.9 in
  let tempoPaceMax := recentAvgPace * 0.95 in
  let thresholdPaceMin := recentAvgPace * 0.85 in
  let thresholdPaceMax := recentAvgPace * 0.9 in
  let intervalPaceMin := recentAvgPace * 0.75 in
  let intervalPaceMax := recentAvgPace * 0.85 in
  let longPaceMin := recentAvgPace * 1.1 in
  let longPaceMax := recentAvgPace * 1.2 in
  let paceZones :=
    {| easy := mkRange easyPaceMin easyPaceMax;
       tempo := mkRange tempoPaceMin tempoPaceMax;
       threshold := mkRange thresholdPaceMin thresholdPaceMax;
       interval := mkRange intervalPaceMin intervalPaceMax;
       long := mkRange longPaceMin longPaceMax |} in
  {| activities := activities;
     recentRunCount := recentRunCount;
     weeklyKilometers := weeklyKilometers;
     avgPace := recentAvgPace;
     longestRun := longestRun;
     paceZones := paceZones;
     weeklyTrend := weeklyTrend;
     consistencyScore := consistencyScore;
     avgLongRun := avgLongRun;
     recentPaceImprovement := paceImprovement |}.

(** The trailing-4-week average pace that [calculateDetailedMetrics]
    derives the zones from (its local [recentAvgPace], returned as
    [avgPace]). *)
Definition recentAvgPace (activities : list Activity) (avgPace : Q) : Q :=
  TrainingPlan.avgPace
    (calculateDetailedMetrics activities 0 avgPace 0 0).

(** [Math.ceil(a / b)] on integers. *)
Definition ceilDiv (a b : Z) : Z :=
  JS.Math_ceil (inject_Z a / inject_Z b).

Definition getWeeksUntilRace (raceDate : Z) (startDate : option Z) : Z :=
  let start := match startDate with Some s => s | None => now end in
  let diffTime := (raceDate - start)%Z in
  let diffDays := ceilDiv diffTime (1000 * 60 * 60 * 24) in
  ceilDiv diffDays 7.

End Clock.

Definition assessFitnessLevel (metrics : DetailedTrainingMetrics)
    (raceDistance : RaceDistance) : string :=
  let targetDistance := RACE_DISTANCES raceDistance in
  let weeklyToRaceRatio := weeklyKilometers metrics / targetDistance in
  let longRunRatio := avgLongRun metrics / targetDistance in
  let consistency := consistencyScore metrics / 100 in
  let score := 0 in
  let score :=
    if JS.geb weeklyToRaceRatio 2.5 then score + 40
    else if JS.geb weeklyToRaceRatio 1.8 then score + 30
    else if JS.geb weeklyToRaceRatio 1.2 then score + 20
    else score + 10 in
  let score :=
    if JS.geb longRunRatio 0.7 then score + 25
    else if JS.geb longRunRatio 0.5 then score + 18
    else if JS.geb longRunRatio 0.3 then score + 10
    else score + 5 in
  let score := score + consistency * 20 in
  let score :=
    if JS.geb (recentRunCount metrics) 16 then score + 15
    else if JS.geb (recentRunCount metrics) 12 then score + 10
    else if JS.geb (recentRunCount metrics) 8 then score + 5
    else score in
  let score :=
    score + JS.Math_max (-5) (JS.Math_min 10 (recentPaceImprovement metrics)) in
  if JS.geb score 75 then "Advanced"%string
  else if JS.geb score 50 then "Intermediate"%string
  else "Beginner"%string.

Definition days : list string :=
  ["Monday"; "Tuesday"; "Wednesday"; "Thursday"; "Friday"; "Saturday";
   "Sunday"]%string.

(** [customTrainingDays && customTrainingDays.length > 0]. *)
Definition hasCustomDays (customTrainingDays : option (list nat)) : bool :=
  match customTrainingDays with
  | Some (_ :: _) => true
  | _ => false
  end.

(** The local [runDays] of [generateWorkout]. *)
Definition runDaysOf (runsPerWeek : nat)
    (customTrainingDays : option (list nat)) : list nat :=
  match customTrainingDays with
  | Some (d :: ds) => d :: ds
  | _ =>
      match runsPerWeek with
      | 2 => [2; 6]
      | 3 => [1; 4; 6]
      | 4 => [1; 2; 5; 6]
      | 5 => [1; 2; 3; 5; 6]
      | 6 => [1; 2; 3; 4; 5; 6]
      | _ => [0; 1; 2; 3; 4; 5; 6]
      end
  end%nat.

(** [runDays.includes(dayOfWeek)]. *)
Definition includes (l : list nat) (d : nat) : bool := existsb (Nat.eqb d) l.

(** [runDays[runDays.length - 1]]; [runDays] is never empty. *)
Definition longRunDayOf (runDays : list nat) : nat := last runDays 0%nat.

(** The local [isQualityDay] of [generateWorkout].  An index outside
    [runDays] reads [undefined], which no day equals. *)
Definition isQualityDayOf (runsPerWeek : nat)
    (customTrainingDays : option (list nat)) (dayOfWeek : nat) : bool :=
  let runDays := runDaysOf runsPerWeek customTrainingDays in
  if hasCustomDays customTrainingDays then
    let qualityIndices :=
      if (runsPerWeek =? 2)%nat then [0%nat]
      else if (runsPerWeek =? 3)%nat then [1%nat]
      else if (4 <=? runsPerWeek)%nat
           then [(length runDays / 3)%nat; (length runDays * 2 / 3)%nat]
           else [] in
    let qualityDays := map (fun i => nth_error runDays i) qualityIndices in
    existsb (fun q => match q with
                      | Some d => Nat.eqb d dayOfWeek
                      | None => false
                      end) qualityDays
  else
    if (runsPerWeek =? 2)%nat && (dayOfWeek =? 2)%nat then true
    else if (runsPerWeek =? 3)%nat && (dayOfWeek =? 4)%nat then true
    else if (4 <=? runsPerWeek)%nat
            && ((dayOfWeek =? 2)%nat || (dayOfWeek =? 5)%nat) then true
    else false.

(** The distance of a quality or easy day: the kilometres left after the
    long run, spread over the other run days. *)
Definition otherDayDistance (weekKilometers : Q) (runDays : list nat) : Q :=
  let longRunKm := weekKilometers * 0.35 in
  let remainingKm := weekKilometers - longRunKm in
  let otherRunDays := (length runDays - 1)%nat in
  if (0 <? otherRunDays)%nat
  then JS.round1 (remainingKm / inject_Z (Z.of_nat otherRunDays))
  else 0.

Definition generateWorkout (phase : Phase) (dayOfWeek : nat)
    (weekKilometers : Q) (metrics : DetailedTrainingMetrics)
    (raceDistance : RaceDistance) (runsPerWeek : nat)
    (customTrainingDays : option (list nat)) : Workout :=
  let dayName := nth dayOfWeek days "undefined"%string in
  let paceZones := paceZones metrics in
  let runDays := runDaysOf runsPerWeek customTrainingDays in
  if negb (includes runDays dayOfWeek) then
    {| day := dayName; type := Rest; distance := None;
       description := RestText; intensity := Low |}
  else if (dayOfWeek =? longRunDayOf runDays)%nat then
    let longRunDistance := JS.round1 (weekKilometers * 0.35) in
    {| day := dayName; type := LongRun; distance := Some longRunDistance;
       description := LongRunText longRunDistance (long paceZones);
       intensity := match phase with peak => Medium | _ => Low end |}
  else if isQualityDayOf runsPerWeek customTrainingDays dayOfWeek then
    let qualityDistance := otherDayDistance weekKilometers runDays in
    match phase with
    | base =>
        {| day := dayName; type := EasyRun; distance := Some qualityDistance;
           description := BaseQualityText qualityDistance (easy paceZones);
           intensity := Low |}
    | build =>
        let tempoKm := JS.round1 (qualityDistance * 0.6) in
        {| day := dayName; type := TempoRun; distance := Some qualityDistance;
           description :=
             TempoText qualityDistance tempoKm (tempo paceZones);
           intensity := High |}
    | peak =>
        let targetDistance := RACE_DISTANCES raceDistance in
        let intervalDistance :=
          if JS.leb targetDistance 10 then "800m"%string
          else "1km"%string in
        {| day := dayName; type := Intervals; distance := Some qualityDistance;
           description :=
             IntervalsText qualityDistance intervalDistance
                           (interval paceZones);
           intensity := High |}
    | taper =>
        {| day := dayName; type := EasyRun; distance := Some qualityDistance;
           description := TaperQualityText qualityDistance (easy paceZones);
           intensity := Low |}
    end
  else
    let easyDistance := otherDayDistance weekKilometers runDays in
    {| day := dayName; type := EasyRun; distance := Some easyDistance;
       description := EasyText easyDistance (easy paceZones);
       intensity := Low |}.

(** The phase block of [generateWeeklyPlan]: phase, phase target, focus and
    notes from the week's position in the plan. *)
Definition classifyPhase (weekNumber weeksUntilRace : Z)
    (baseWeeklyKilometers : Q) : Phase * Q * string * string :=
  let weeksRemaining := (weeksUntilRace - weekNumber + 1)%Z in
  if (weeksRemaining <=? 2)%Z then
    (taper,
     baseWeeklyKilometers * (if (weeksRemaining =? 2)%Z then 0.7 else 0.5),
     "Taper & Recovery",
     if (weeksRemaining =? 1)%Z
     then "Final week! Reduce volume significantly, focus on rest and race prep."
     else "Begin taper. Reduce volume but maintain some intensity to stay sharp.")%string
  else if (weeksRemaining <=? JS.Math_ceil (inject_Z weeksUntilRace * 0.3))%Z
  then
    (peak, baseWeeklyKilometers * 1.2,
     "Race-Specific Training",
     "Peak training volume. Include race-pace efforts and longer tempo runs.")%string
  else if (weeksRemaining <=? JS.Math_ceil (inject_Z weeksUntilRace * 0.6))%Z
  then
    let buildProgress :=
      (inject_Z weeksUntilRace * 0.6 - inject_Z weeksRemaining)
      / (inject_Z weeksUntilRace * 0.3) in
    (build, baseWeeklyKilometers * (1.0 + 0.2 * buildProgress),
     "Building Endurance & Speed",
     "Increase volume gradually. Add tempo runs and hill work.")%string
  else
    let baseProgress :=
      inject_Z (weekNumber - 1)
      / inject_Z (JS.Math_ceil (inject_Z weeksUntilRace * 0.4)) in
    (base, baseWeeklyKilometers * (0.8 + 0.2 * baseProgress),
     "Building Base Fitness",
     "Focus on easy kilometers and building aerobic base. No hard efforts yet.")%string.

Definition maxWeeklyKm (raceDistance : RaceDistance) : Q :=
  match raceDistance with
  | D5K => 45
  | D10K => 65
  | HalfMarathon => 85
  | Marathon => 110
  end.

(** [weekNumber % 4 === 0 && weeksRemaining > 3]. *)
Definition isRecoveryWeek (weekNumber weeksUntilRace : Z) : bool :=
  (Z.rem weekNumber 4 =? 0)%Z && (3 <? weeksUntilRace - weekNumber + 1)%Z.

(** The local [weeklyKilometers] of [generateWeeklyPlan] after its rounding:
    the volume handed to the per-day split. *)
Definition assignedWeeklyKilometers (weekNumber weeksUntilRace : Z)
    (baseWeeklyKilometers : Q) (raceDistance : RaceDistance)
    (previousWeekKilometers : option Q) : Q :=
  let '(phase, targetWeeklyKilometers, _, _) :=
    classifyPhase weekNumber weeksUntilRace baseWeeklyKilometers in
  let prev := match previousWeekKilometers with Some p => p | None => 0 end in
  let weeklyKilometers :=
    if isRecoveryWeek weekNumber weeksUntilRace
       && JS.truthy previousWeekKilometers
    then prev * 0.85
    else match phase with
         | taper => targetWeeklyKilometers
         | _ =>
             if JS.truthy previousWeekKilometers
             then JS.Math_min (prev * 1.10) (maxWeeklyKm raceDistance)
             else baseWeeklyKilometers * 0.80
         end in
  JS.round1 weeklyKilometers.

Definition raceDayWorkout (raceDistance : RaceDistance) : Workout :=
  {| day := "Sunday"; type := RaceDay;
     distance := Some (RACE_DISTANCES raceDistance);
     description := RaceDayText; intensity := High |}.

(** [workout.distance || 0]. *)
Definition distanceOrZero (w : Workout) : Q :=
  match distance w with
  | Some d => d
  | None => 0
  end.

Section Clock.

Variable now : Z.

Definition generateWeeklyPlan (weekNumber weeksUntilRace : Z)
    (baseWeeklyKilometers : Q) (metrics : DetailedTrainingMetrics)
    (raceDistance : RaceDistance) (runsPerWeek : nat)
    (customTrainingDays : option (list nat))
    (previousWeekKilometers : option Q) (planStartDate : option Z)
  : WeeklyPlan :=
  let weeksRemaining := (weeksUntilRace - weekNumber + 1)%Z in
  let startDate := match planStartDate with Some s => s | None => now end in
  let weekStartDate := (startDate + (weekNumber - 1) * 7 * DAY_MS)%Z in
  let '(phase, _, focus, notes) :=
    classifyPhase weekNumber weeksUntilRace baseWeeklyKilometers in
  let recovery :=
    isRecoveryWeek weekNumber weeksUntilRace
    && JS.truthy previousWeekKilometers in
  let focus := if recovery then "Recovery Week"%string else focus in
  let notes :=
    if recovery
    then "Recovery week: Reduced volume for recovery. All easy pace."%string
    else notes in
  let weeklyKilometers :=
    assignedWeeklyKilometers weekNumber weeksUntilRace baseWeeklyKilometers
                             raceDistance previousWeekKilometers in
  let workouts :=
    map (fun day => generateWorkout phase day weeklyKilometers metrics
                      raceDistance runsPerWeek customTrainingDays)
        (seq 0 7) in
  let workouts :=
    if (weeksRemaining =? 1)%Z
    then JS.setAt 6 (raceDayWorkout raceDistance) workouts
    else workouts in
  let actualTotalKilometers := JS.sumOf distanceOrZero workouts in
  let roundedTotalKm := JS.round1 actualTotalKilometers in
  {| weekNumber := weekNumber;
     weekStartDate := (weekStartDate / DAY_MS)%Z;
     focus := focus;
     totalKilometers := roundedTotalKm;
     workouts := workouts;
     notes := notes |}.

Definition reasonableMax (raceDistance : RaceDistance) : Q :=
  match raceDistance with
  | D5K => 35
  | D10K => 50
  | HalfMarathon => 70
  | Marathon => 90
  end.

(** The local [baseWeeklyKilometers] of [generateTrainingPlan]. *)
Definition baseWeeklyKilometersOf (trainingMetrics : DetailedTrainingMetrics)
    (raceDistance : RaceDistance) : Q :=
  let b := weeklyKilometers trainingMetrics in
  let b := if JS.ltb b 10 then 12 else b in
  if JS.gtb b (reasonableMax raceDistance) then reasonableMax raceDistance
  else b.

(** One iteration of the loop over [week]: reads [plan[week - 2]] and
    pushes the new week. *)
Definition pushWeek (raceGoal : RaceGoal)
    (trainingMetrics : DetailedTrainingMetrics) (weeksToGenerate : Z)
    (plan : list WeeklyPlan) (week : nat) : list WeeklyPlan :=
  let previousWeekKm :=
    if (1 <? week)%nat
    then option_map totalKilometers (nth_error plan (week - 2))
    else None in
  plan ++ [generateWeeklyPlan (Z.of_nat week) weeksToGenerate
             (baseWeeklyKilometersOf trainingMetrics (goalDistance raceGoal))
             trainingMetrics (goalDistance raceGoal) (runsPerWeek raceGoal)
             (trainingDays raceGoal) previousWeekKm (startDate raceGoal)].

(** The plan after the loop has run for [week = 1 .. n]. *)
Definition weeksLoop (raceGoal : RaceGoal)
    (trainingMetrics : DetailedTrainingMetrics) (weeksToGenerate : Z)
    (n : nat) : list WeeklyPlan :=
  fold_left (pushWeek raceGoal trainingMetrics weeksToGenerate) (seq 1 n) [].

Definition generateRecommendations (weeksUntilRace : Z)
    (trainingMetrics : DetailedTrainingMetrics) (raceDistanceKm : Q)
    (baseWeeklyKilometers : Q) (fitnessLevel : string)
  : list Recommendation :=
  (if (weeksUntilRace <? 8)%Z then [LessThan8Weeks] else [])
  ++ (if JS.ltb (longestRun trainingMetrics) (raceDistanceKm * 0.6)
      then [BuildLongRun (longestRun trainingMetrics) (raceDistanceKm * 0.75)]
      else [])
  ++ (if JS.ltb (weeklyKilometers trainingMetrics) (baseWeeklyKilometers * 0.8)
      then [IncreaseVolume (weeklyKilometers trainingMetrics)
                           baseWeeklyKilometers]
      else [])
  ++ (if JS.ltb (recentRunCount trainingMetrics) 12 then [RunMoreOften]
      else [])
  ++ (if String.eqb fitnessLevel "Advanced" then [FitnessExcellent]
      else if String.eqb fitnessLevel "Beginner" then [BuildBaseGradually]
      else [])
  ++ (if JS.gtb (recentPaceImprovement trainingMetrics) 5
      then [PaceImproving (recentPaceImprovement trainingMetrics)]
      else if JS.ltb (recentPaceImprovement trainingMetrics) (-5)
      then [PaceSlowed]
      else [])
  ++ (if JS.ltb (consistencyScore trainingMetrics) 50
      then [WorkOnConsistency
              (JS.Math_round (consistencyScore trainingMetrics))]
      else if JS.geb (consistencyScore trainingMetrics) 80
      then [ExcellentConsistency
              (JS.Math_round (consistencyScore trainingMetrics))]
      else [])
  ++ [StayHydrated; PrioritizeSleep].

Definition generateTrainingPlan (raceGoal : RaceGoal)
    (trainingMetrics : DetailedTrainingMetrics)
    (formattedTime : option string) : TrainingPlan :=
  let weeksUntilRace :=
    getWeeksUntilRace now (date raceGoal) (startDate raceGoal) in
  let fitnessLevel :=
    assessFitnessLevel trainingMetrics (goalDistance raceGoal) in
  let raceDistanceKm := RACE_DISTANCES (goalDistance raceGoal) in
  let baseWeeklyKilometers :=
    baseWeeklyKilometersOf trainingMetrics (goalDistance raceGoal) in
  let weeksToGenerate := weeksUntilRace in
  let plan :=
    weeksLoop raceGoal trainingMetrics weeksToGenerate
              (Z.to_nat weeksToGenerate) in
  {| raceGoal := raceGoal;
     weeksUntilRace := weeksUntilRace;
     currentFitness := fitnessLevel;
     estimatedRaceTime :=
       match JS.orElse (JS.orElse formattedTime (targetTime raceGoal))
                       (Some "Not available"%string) with
       | Some s => s
       | None => "Not available"%string
       end;
     plan := plan;
     recommendations :=
       generateRecommendations weeksUntilRace trainingMetrics raceDistanceKm
                               baseWeeklyKilometers fitnessLevel;
     generatedDate := (now / DAY_MS)%Z |}.

End Clock.

End TrainingPlan.

(** ** lib/utils.ts: the two formatters the predictor calls *)

Module Utils.

Definition formatRaceTime (totalMinutes : Q) : string :=
  let hours := JS.Math_floor (totalMinutes / 60) in
  let minutes := JS.Math_floor (JS.rem totalMinutes 60) in
  let seconds := JS.Math_round (JS.rem totalMinutes 1 * 60) in
  if (0 <? hours)%Z
  then JS.showInt hours ++ ":" ++ JS.padStart2 (JS.showInt minutes)
       ++ ":" ++ JS.padStart2 (JS.showInt seconds)
  else JS.showInt minutes ++ ":" ++ JS.padStart2 (JS.showInt seconds).

Definition formatPaceFromMinKm (paceMinPerKm : Q) : string :=
  let minutes := JS.Math_floor paceMinPerKm in
  let seconds := JS.Math_round ((paceMinPerKm - inject_Z minutes) * 60) in
  JS.showInt minutes ++ ":" ++ JS.padStart2 (JS.showInt seconds)
  ++ " min/km".

End Utils.

(** ** The prediction module (predictions): race predictions and pacing *)

Module Predictions.

Import Strava.

(** A call either returns or throws (the TypeError of [reduce] on an empty
    array without initial value). *)
Inductive Outcome (A : Type) : Type :=
| Returned (a : A)
| Threw.
Arguments Returned {A} a.
Arguments Threw {A}.

Definition bind {A B : Type} (m : Outcome A) (k : A -> Outcome B)
  : Outcome B :=
  match m with
  | Returned a => k a
  | Threw => Threw
  end.

Notation "x <- m ;; k" := (bind m (fun x => k))
  (at level 61, m at next level, right associativity).

Definition reduceOrThrow {A : Type} (pick : A -> A -> A) (l : list A)
  : Outcome A :=
  match JS.reduce1 pick l with
  | Some a => Returned a
  | None => Threw
  end.

Record Prediction : Type := mkPrediction {
  available : bool;
  time : option Q;
  pace : option Q;
  reason : string;
  formattedTime : option string;
  formattedPace : option string
}.

Record RacePredictions : Type := mkPredictions {
  _5K : Prediction;
  _10K : Prediction;
  halfMarathon : Prediction;
  marathon : Prediction
}.

Record TrainingLoad : Type := mkLoad {
  weeklyKilometers : Q;
  trainingFrequency : Q;
  formTrend : Z;
  trainingStress : Q;
  recentRunCount : nat
}.

(** The objects built by the two [map] calls of
    [estimatePaceFromTraining]; [weight] and [weightedPace] are added by the
    second one. *)
Record Run : Type := mkRun {
  runDistance : Q;     (* kilometres *)
  runPace : Q;
  runTime : Q;
  runDate : Z;
  daysAgo : Z
}.

Record WeightedRun : Type := mkWeighted {
  run : Run;
  weight : Q;
  weightedPace : Q
}.

Definition isRun (a : Activity) : bool := String.eqb (type a) "Run".

Definition getSimilarDistanceRange (targetDistance : Q) : Q * Q :=
  if JS.leb targetDistance 5
  then (targetDistance * 0.8, targetDistance * 1.2)
  else if JS.leb targetDistance 10
  then (targetDistance * 0.7, targetDistance * 1.3)
  else if JS.leb targetDistance 21.1
  then (targetDistance * 0.6, targetDistance * 1.4)
  else (targetDistance * 0.5, targetDistance * 1.5).

Section Ambient.

(** The clock, and the two transcendental library functions. *)
Variable now : Z.
Variable Math_pow : Q -> Q -> Q.
Variable Math_log : Q -> Q.

Definition getDistanceAdjustmentFactor (fromDistance toDistance : Q) : Q :=
  let ratio := toDistance / fromDistance in
  let baseAdjustment := Math_pow ratio 0.06 in
  let extrapolationPenalty :=
    if JS.gtb ratio 4
    then 1 + (Math_log ratio - Math_log 4) * 0.02
    else 1 in
  baseAdjustment * extrapolationPenalty.

(** The first chain of [estimatePaceFromTraining]: the valid runs, most
    recent first. *)
Definition validRunsOf (activities : list Activity) : list Run :=
  JS.sortBy (fun a b => inject_Z (daysAgo a - daysAgo b))
    (filter (fun run => JS.gtb (runPace run) 2.5 && JS.ltb (runPace run) 12)
       (map (fun activity =>
               {| runDistance := distance activity / 1000;
                  runPace := paceOf activity;
                  runTime := moving_time activity;
                  runDate := start_date activity;
                  daysAgo := ((now - start_date activity) / DAY_MS)%Z |})
          (filter (fun activity =>
                     JS.gtb (distance activity) 1000
                     && JS.gtb (moving_time activity) 0
                     && JS.ltb (distance activity) 50000)
             activities))).

Definition weigh (run : Run) : WeightedRun :=
  let ageWeight :=
    JS.Math_max 0.3 (1 - (inject_Z (daysAgo run) / 90) * 0.7) in
  {| run := run; weight := ageWeight;
     weightedPace := runPace run * ageWeight |}.

(** The bounds of the outlier filter from the sorted paces. *)
Definition iqrBounds (paces : list Q) : Q * Q :=
  let q1 := nth (length paces / 4) paces 0 in
  let q3 := nth (length paces * 3 / 4) paces 0 in
  let iqr := q3 - q1 in
  (q1 - 1.5 * iqr, q3 + 1.5 * iqr).

(** [weightedRuns.filter(...)], before the fallback. *)
Definition iqrFilter (weightedRuns : list WeightedRun) : list WeightedRun :=
  let paces :=
    JS.sortBy (fun a b => a - b) (map (fun r => runPace (run r)) weightedRuns)
  in
  let '(lowerBound, upperBound) := iqrBounds paces in
  filter (fun r => JS.geb (runPace (run r)) lowerBound
                   && JS.leb (runPace (run r)) upperBound)
         weightedRuns.

Definition estimatePaceFromTraining (activities : list Activity)
    (targetDistance : Q) : Outcome (option Q) :=
  let validRuns := validRunsOf activities in
  if (length validRuns =? 0)%nat then Returned None
  else
    let weightedRuns := map weigh validRuns in
    let filteredRuns := iqrFilter weightedRuns in
    let filteredRuns :=
      if (length filteredRuns =? 0)%nat
      then filteredRuns ++ JS.sliceTo 5 weightedRuns
      else filteredRuns in
    bestRun <- reduceOrThrow
                 (fun best current =>
                    if JS.ltb (runPace (run current)) (runPace (run best))
                    then current else best)
                 filteredRuns ;;
    let adjustmentFactor :=
      getDistanceAdjustmentFactor (runDistance (run bestRun)) targetDistance
    in
    Returned (Some (runPace (run bestRun) * adjustmentFactor)).

(** [getDay()] and the start of the week, read in UTC: 1 January 1970 was
    a Thursday. *)
Definition getDay (t : Z) : Z := ((t / DAY_MS + 4) mod 7)%Z.
Definition weekStartOf (t : Z) : Z := (t - getDay t * DAY_MS)%Z.

Definition analyzeTrainingLoad (activities : list Activity) : TrainingLoad :=
  let fourWeeksAgo := (now - 28 * DAY_MS)%Z in
  let twelveWeeksAgo := (now - 84 * DAY_MS)%Z in
  let recentRuns :=
    filter (fun a => (fourWeeksAgo <=? start_date a)%Z && isRun a)
           activities in
  let longerTermRuns :=
    filter (fun a => (twelveWeeksAgo <=? start_date a)%Z && isRun a)
           activities in
  let weeklyKilometers :=
    JS.sumOf (fun run => distance run / 1000) recentRuns / 4 in
  let totalWeeks := 4 in
  let weeksWithRuns :=
    nodup Z.eq_dec (map (fun run => weekStartOf (start_date run)) recentRuns)
  in
  let trainingFrequency :=
    inject_Z (Z.of_nat (length weeksWithRuns)) / totalWeeks in
  let sortedByDate :=
    JS.sliceLast 10
      (JS.sortBy (fun a b => inject_Z (start_date a - start_date b))
                 longerTermRuns) in
  let formTrend :=
    if (6 <=? length sortedByDate)%nat then
      let firstHalf := JS.sliceTo (length sortedByDate / 2) sortedByDate in
      let secondHalf := JS.sliceFrom (length sortedByDate / 2) sortedByDate in
      let firstHalfAvgPace :=
        JS.sumOf paceOf firstHalf / inject_Z (Z.of_nat (length firstHalf)) in
      let secondHalfAvgPace :=
        JS.sumOf paceOf secondHalf / inject_Z (Z.of_nat (length secondHalf))
      in
      let improvement :=
        (firstHalfAvgPace - secondHalfAvgPace) / firstHalfAvgPace in
      if JS.gtb improvement 0.05 then 1%Z
      else if JS.ltb improvement (-0.05) then (-1)%Z
      else 0%Z
    else 0%Z in
  let avgWeeklyVolume := weeklyKilometers in
  let consistencyBonus := trainingFrequency * 0.2 in
  let formBonus := inject_Z formTrend * 0.1 in
  let trainingStress :=
    JS.Math_min 1.0 ((avgWeeklyVolume / 30) + consistencyBonus + formBonus) in
  {| weeklyKilometers := weeklyKilometers;
     trainingFrequency := trainingFrequency;
     formTrend := formTrend;
     trainingStress := trainingStress;
     recentRunCount := length recentRuns |}.

Definition insufficientData : Prediction :=
  {| available := false; time := None; pace := None;
     reason := "Insufficient data for prediction";
     formattedTime := None; formattedPace := None |}.

Definition calculateDistancePrediction (activities : list Activity)
    (distanceKm : Q) : Outcome Prediction :=
  let trainingLoad := analyzeTrainingLoad activities in
  let similarDistances := getSimilarDistanceRange distanceKm in
  let similarRuns :=
    filter (fun activity =>
              JS.geb (distance activity) (fst similarDistances * 1000)
              && JS.leb (distance activity) (snd similarDistances * 1000)
              && JS.gtb (moving_time activity) 0)
           activities in
  predictedPace <-
    (if (0 <? length similarRuns)%nat then
       bestRun <- reduceOrThrow
                    (fun best current =>
                       if JS.ltb
                            (moving_time current / (distance current / 1000))
                            (moving_time best / (distance best / 1000))
                       then current else best)
                    similarRuns ;;
       Returned (Some (paceOf bestRun))
     else estimatePaceFromTraining activities distanceKm) ;;
  match predictedPace with
  | None => Returned insufficientData
  | Some p =>
      if Qeq_bool p 0 then Returned insufficientData
      else
        let trainingAdjustment :=
          1 + (trainingStress trainingLoad - 0.5) * 0.05 in
        let predictedPace := p * trainingAdjustment in
        let formAdjustment :=
          if (formTrend trainingLoad =? 1)%Z then 0.98
          else if (formTrend trainingLoad =? -1)%Z then 1.02
          else 1.0 in
        let predictedPace := predictedPace * formAdjustment in
        let predictedTime := predictedPace * distanceKm in
        let timeFormatted := Utils.formatRaceTime predictedTime in
        Returned
          {| available := true;
             time := Some predictedTime;
             pace := Some predictedPace;
             reason := "";
             formattedTime := Some timeFormatted;
             formattedPace := Some (Utils.formatPaceFromMinKm predictedPace) |}
  end.

Definition setAvailable (p : Prediction) : Prediction :=
  {| available := true; time := time p; pace := pace p; reason := reason p;
     formattedTime := formattedTime p; formattedPace := formattedPace p |}.

Definition setReason (r : string) (p : Prediction) : Prediction :=
  {| available := available p; time := time p; pace := pace p; reason := r;
     formattedTime := formattedTime p; formattedPace := formattedPace p |}.

Definition emptyPrediction : Prediction :=
  {| available := false; time := None; pace := None; reason := "";
     formattedTime := None; formattedPace := None |}.

(** [recentActivities] of [calculateRacePredictions]: the qualifying runs. *)
Definition recentActivitiesOf (activities : list Activity) : list Activity :=
  let twentyFourWeeksAgo := (now - 24 * 7 * 24 * 60 * 60 * 1000)%Z in
  filter (fun activity =>
            (twentyFourWeeksAgo <=? start_date activity)%Z && isRun activity)
         activities.

Definition calculateRacePredictions (activities : list Activity)
  : Outcome RacePredictions :=
  let recentActivities := recentActivitiesOf activities in
  let minRuns5K := 5%nat in
  let minRuns10K := 10%nat in
  let minRunsLong := 20%nat in
  if (length recentActivities <? minRuns5K)%nat then
    let reason :=
      ("Need at least " ++ JS.showNat minRuns5K
       ++ " runs in the last 24 weeks. Currently have "
       ++ JS.showNat (length recentActivities) ++ ".")%string in
    Returned
      {| _5K := setReason reason emptyPrediction;
         _10K := setReason reason emptyPrediction;
         halfMarathon := setReason reason emptyPrediction;
         marathon := setReason reason emptyPrediction |}
  else
    p5 <- calculateDistancePrediction recentActivities 5 ;;
    p10 <- calculateDistancePrediction recentActivities 10 ;;
    pHalf <- calculateDistancePrediction recentActivities 21.1 ;;
    pFull <- calculateDistancePrediction recentActivities 42.2 ;;
    let p5 :=
      if (minRuns5K <=? length recentActivities)%nat then setAvailable p5
      else setReason ("Need " ++ JS.showNat minRuns5K
                      ++ " runs for 5K prediction")%string p5 in
    let p10 :=
      if (minRuns10K <=? length recentActivities)%nat then setAvailable p10
      else setReason ("Need " ++ JS.showNat minRuns10K
                      ++ " runs for 10K prediction")%string p10 in
    let '(pHalf, pFull) :=
      if (minRunsLong <=? length recentActivities)%nat
      then (setAvailable pHalf, setAvailable pFull)
      else (setReason ("Need " ++ JS.showNat minRunsLong
                       ++ " runs for half marathon prediction")%string pHalf,
            setReason ("Need " ++ JS.showNat minRunsLong
                       ++ " runs for marathon prediction")%string pFull) in
    Returned {| _5K := p5; _10K := p10;
                halfMarathon := pHalf; marathon := pFull |}.

End Ambient.

End Predictions.

(** ** The pacing-strategy generator of the prediction module *)

Module Pacing.

Inductive Strategy : Type := even | negative | positive.

Module Split.

Record PacingSplit : Type := mkSplit {
  splitNumber : nat;
  distance : Q;
  targetPace : Q;
  targetTime : Q;
  cumulativeDistance : Q;
  cumulativeTime : Q;
  paceFormatted : string;
  splitTimeFormatted : string;
  cumulativeTimeFormatted : string;
  strategy : string
}.

End Split.

Record PacingStrategy : Type := mkStrategy {
  raceDistance : Q;
  targetTime : Q;
  averagePace : Q;
  strategy : Strategy;
  splits : list Split.PacingSplit;
  recommendations : list string
}.

(** [i <= Math.floor(raceDistanceKm) ? 1 : raceDistanceKm % 1]. *)
Definition splitDistanceOf (raceDistanceKm : Q) (i : nat) : Q :=
  if (Z.of_nat i <=? JS.Math_floor raceDistanceKm)%Z then 1
  else JS.rem raceDistanceKm 1.

(** The pace and the note of split [i]: strategy modulation, then the
    fatigue factor of the long races. *)
Definition splitPaceOf (raceDistanceKm predictedPace : Q)
    (strategy : Strategy) (i : nat) : Q * string :=
  let progressRatio :=
    inject_Z (Z.of_nat i) / inject_Z (JS.Math_ceil raceDistanceKm) in
  let '(targetPace, strategyNote) :=
    match strategy with
    | even => (predictedPace, "Even pace"%string)
    | negative =>
        if JS.leb progressRatio 0.5
        then (predictedPace * 1.02, "Start conservative"%string)
        else (predictedPace * 0.98, "Push harder"%string)
    | positive =>
        if JS.leb progressRatio 0.5
        then (predictedPace * 0.98, "Fast start"%string)
        else (predictedPace * 1.02, "Maintain effort"%string)
    end in
  if JS.geb raceDistanceKm 21.1 then
    let fatigueRatio := progressRatio in
    if JS.gtb fatigueRatio 0.75 then
      let fatigueFactor := 1 + (fatigueRatio - 0.75) * 0.04 in
      (targetPace * fatigueFactor,
       match strategy with
       | even => "Manage fatigue"%string
       | _ => strategyNote
       end)
    else (targetPace, strategyNote)
  else (targetPace, strategyNote).

(** One iteration of the loop: the state is [cumulativeDistance],
    [cumulativeTime] and the splits pushed so far. *)
Definition pushSplit (raceDistanceKm predictedPace : Q) (strategy : Strategy)
    (st : Q * Q * list Split.PacingSplit) (i : nat)
  : Q * Q * list Split.PacingSplit :=
  let '(cumulativeDistance, cumulativeTime, splits) := st in
  let splitDistance := splitDistanceOf raceDistanceKm i in
  let '(targetPace, strategyNote) :=
    splitPaceOf raceDistanceKm predictedPace strategy i in
  let splitTime := targetPace * splitDistance in
  let cumulativeDistance := cumulativeDistance + splitDistance in
  let cumulativeTime := cumulativeTime + splitTime in
  (cumulativeDistance, cumulativeTime,
   splits ++ [ {| Split.splitNumber := i;
                  Split.distance := splitDistance;
                  Split.targetPace := targetPace;
                  Split.targetTime := splitTime;
                  Split.cumulativeDistance := cumulativeDistance;
                  Split.cumulativeTime := cumulativeTime;
                  Split.paceFormatted := Utils.formatPaceFromMinKm targetPace;
                  Split.splitTimeFormatted := Utils.formatRaceTime splitTime;
                  Split.cumulativeTimeFormatted :=
                    Utils.formatRaceTime cumulativeTime;
                  Split.strategy := strategyNote |} ]).

(** The recommendation strings, without their leading pictographs. *)
Definition pacingRecommendations (raceDistanceKm : Q) (strategy : Strategy)
  : list string :=
  (match strategy with
   | even =>
       ["Even pacing is the most efficient strategy for most runners"%string;
        "Focus on maintaining consistent effort throughout"%string]
   | negative =>
       ["Negative split strategy: Start controlled, finish strong"%string;
        "Save energy early to push harder in the second half"%string]
   | positive =>
       ["Positive split (not recommended): High injury/burnout risk"%string;
        "Only use if you know your fitness can handle it"%string]
   end
   ++ (if JS.geb raceDistanceKm 21.1
       then ["Plan hydration every 5km for optimal performance"%string;
             "Consider fuel (gel/chews) around 45-60 minutes in"%string]
       else [])
   ++ (if JS.geb raceDistanceKm 10
       then ["Mental checkpoint: Focus on form and breathing at halfway point"%string]
       else [])
   ++ ["Use your watch/app to track pace but focus on effort feel"%string;
       "Start behind the pack to avoid going out too fast"%string]).

Definition generatePacingStrategy (raceDistanceKm predictedPace : Q)
    (strategy : Strategy) : PacingStrategy :=
  let targetTime := predictedPace * raceDistanceKm in
  let '(_, _, splits) :=
    fold_left (pushSplit raceDistanceKm predictedPace strategy)
              (seq 1 (Z.to_nat (JS.Math_ceil raceDistanceKm)))
              (0, 0, []) in
  {| raceDistance := raceDistanceKm;
     targetTime := targetTime;
     averagePace := predictedPace;
     strategy := strategy;
     splits := splits;
     recommendations := pacingRecommendations raceDistanceKm strategy |}.

End Pacing.

(** ** lib/utils.ts: the pace-range formatter of the workout texts *)

Module Format.

(** The local [formatSingle] of [formatPaceRange]. *)
Definition formatSingle (pace : Q) : string :=
  let mins := JS.Math_floor pace in
  let secs := JS.Math_round (JS.rem pace 1 * 60) in
  JS.showInt mins ++ ":" ++ JS.padStart2 (JS.showInt secs).

Definition formatPaceRange (min max : Q) : string :=
  formatSingle min ++ "-" ++ formatSingle max ++ "/km".

End Format.

(** ** The strava module: paging through the activities *)

Module StravaSync.

Import Predictions.

Section Paging.

(** An activity is read through its [id] only; [getActivities page] is the
    answer of the API call for that page (already filtered to runs), which
    throws when the response is not ok. *)
Context {A : Type}.
Variable idOf : A -> Z.
Variable getActivities : nat -> Outcome (list A).

(** The loop [for (page = ...; page <= maxPages; page++)] with [remaining]
    iterations left. *)
Fixpoint fetchPages (page remaining : nat) (allActivities : list A)
  : Outcome (list A) :=
  match remaining with
  | O => Returned allActivities
  | S r =>
      batch <- getActivities page ;;
      if (length batch =? 0)%nat then Returned allActivities
      else fetchPages (S page) r (allActivities ++ batch)
  end.

(** [filter] with the [seen] set: the first activity of each id stays. *)
Fixpoint dedupe (seen : list Z) (l : list A) : list A :=
  match l with
  | [] => []
  | a :: rest =>
      if existsb (Z.eqb (idOf a)) seen then dedupe seen rest
      else a :: dedupe (idOf a :: seen) rest
  end.

Definition getAllActivities (maxPages : nat) : Outcome (list A) :=
  allActivities <- fetchPages 1 maxPages [] ;;
  Returned (dedupe [] allActivities).

End Paging.

End StravaSync.

(** ** The predictions route: historical trend and its cache *)

Module History.

Import Strava Predictions.

Inductive DistanceKey : Type := K5 | K10 | KHalf | KFull.

(** [predictions: Record<string, number | null>] with its four keys. *)
Record Times : Type := mkTimes {
  t5K : option Q;
  t10K : option Q;
  tHalf : option Q;
  tFull : option Q
}.

Record DataPoint : Type := mkPoint {
  date : Z;                   (* the calendar day, in days since the epoch *)
  predictions : Times
}.





Definition getTime (k : DistanceKey) (p : DataPoint) : option Q :=
  match k with
  | K5 => t5K (predictions p)
  | K10 => t10K (predictions p)
  | KHalf => tHalf (predictions p)
  | KFull => tFull (predictions p)
  end.

(** [dataPoint.predictions[distance] = null]. *)
Definition clearTime (k : DistanceKey) (p : DataPoint) : DataPoint :=
  let t := predictions p in
  {| date := date p;
     predictions :=
       match k with
       | K5 => mkTimes None (t10K t) (tHalf t) (tFull t)
       | K10 => mkTimes (t5K t) None (tHalf t) (tFull t)
       | KHalf => mkTimes (t5K t) (t10K t) None (tFull t)
       | KFull => mkTimes (t5K t) (t10K t) (tHalf t) None
       end |}.

(** The non-null times of one distance. *)
Fixpoint validTimes (k : DistanceKey) (data : list DataPoint) : list Q :=
  match data with
  | [] => []
  | p :: rest =>
      match getTime k p with
      | Some t => t :: validTimes k rest
      | None => validTimes k rest
      end
  end.

(** One pass of [distances.forEach] in [filterOutliers]. *)
Definition filterDistance (data : list DataPoint) (k : DistanceKey)
  : list DataPoint :=
  let times := JS.sortBy (fun a b => a - b) (validTimes k data) in
  if (length times <? 3)%nat then data
  else
    let q1Index := (length times / 4)%nat in
    let q3Index := (length times * 3 / 4)%nat in
    let q1 := nth q1Index times 0 in
    let q3 := nth q3Index times 0 in
    let iqr := q3 - q1 in
    let lowerBound := q1 - 1.5 * iqr in
    let upperBound := q3 + 1.5 * iqr in
    map (fun dataPoint =>
           match getTime k dataPoint with
           | Some time =>
               if JS.ltb time lowerBound || JS.gtb time upperBound
               then clearTime k dataPoint
               else dataPoint
           | None => dataPoint
           end) data.

Definition filterOutliers (data : list DataPoint) : list DataPoint :=
  if (length data <? 3)%nat then data
  else fold_left filterDistance [K5; K10; KHalf; KFull] data.

(** [p.available && p.time && p.time > lo && p.time < hi ? p.time : null]. *)
Definition boundedTime (p : Prediction) (lo hi : Q) : option Q :=
  match time p with
  | Some t =>
      if available p && negb (Qeq_bool t 0) && JS.gtb t lo && JS.ltb t hi
      then Some t else None
  | None => None
  end.

(** The values [0, 2, 4, ...] of [weeks] up to [maxWeeksBack]. *)
Definition weeksBack (maxWeeksBack : Z) : list Z :=
  if (maxWeeksBack <? 0)%Z then []
  else map (fun k => (2 * Z.of_nat k)%Z)
           (seq 0 (S (Z.to_nat (maxWeeksBack / 2)))).

Definition WEEK_MS : Z := 7 * 24 * 60 * 60 * 1000.

Section Ambient.

Variable now : Z.
Variable Math_pow : Q -> Q -> Q.
Variable Math_log : Q -> Q.

(** One iteration of the loop over [weeks]. *)
Definition pushDataPoint (activities : list Activity)
    (rawData : Outcome (list DataPoint)) (weeks : Z)
  : Outcome (list DataPoint) :=
  rawData <- rawData ;;
  let cutoffDate := (now - weeks * WEEK_MS)%Z in
  let windowStart := (cutoffDate - 24 * WEEK_MS)%Z in
  let activitiesAtTime :=
    filter (fun a => (start_date a <=? cutoffDate)%Z
                     && (windowStart <=? start_date a)%Z) activities in
  if (10 <=? length activitiesAtTime)%nat then
    predictions <- calculateRacePredictions now Math_pow Math_log
                     activitiesAtTime ;;
    let dataPoint :=
      {| date := (cutoffDate / DAY_MS)%Z;
         predictions :=
           {| t5K := boundedTime (_5K predictions) 10 60;
              t10K := boundedTime (_10K predictions) 20 120;
              tHalf := boundedTime (halfMarathon predictions) 60 300;
              tFull := boundedTime (marathon predictions) 120 600 |} |} in
    Returned (rawData ++ [dataPoint])
  else Returned rawData.

(** The body of [calculateHistoricalPredictions] after a cache miss, up to
    the [reverse]. *)
Definition computeHistory (activities : list Activity)
  : Outcome (list DataPoint) :=
  let oldestDate :=
    match JS.reduce1 (fun oldest a =>
                        if (start_date a <? start_date oldest)%Z
                        then a else oldest) activities with
    | Some oldestActivity => start_date oldestActivity
    | None => now
    end in
  let maxWeeksBack := Z.min 52 ((now - oldestDate) / WEEK_MS) in
  rawData <- fold_left (pushDataPoint activities) (weeksBack maxWeeksBack)
                       (Returned []) ;;
  let filteredData := filterOutliers rawData in
  Returned (rev filteredData).


End Ambient.

End History.

(** ** lib/training-plan.ts: the daily regeneration test *)

Module Regeneration.

(** [shouldRegeneratePlan]: a date string "YYYY-MM-DD" is its day number
    since the epoch, as in [generatedDate]; [None] is [null]. *)
Definition shouldRegeneratePlan (now : Z) (lastGeneratedDate : option Z)
  : bool :=
  match lastGeneratedDate with
  | None => true
  | Some last =>
      let today := (now / Strava.DAY_MS)%Z in
      negb (today =? last)%Z
  end.

End Regeneration.

(** * Vocabulary of the properties *)

(** ** Sums and orders *)

(** The sum of a list of numbers. *)
Definition Qsum (l : list Q) : Q := fold_right Qplus 0 l.

(** The comparator [(a, b) => a - b]. *)
Definition ascending : Q -> Q -> Q := fun a b => a - b.

(** A number of tenths. *)
Definition isTenths (q : Q) : Prop := exists k : Z, q == inject_Z k / 10.

(** ** Pace zones *)

Section ZoneVocabulary.

Import TrainingPlan.

(** The zones are the fixed multiples of the reference pace. *)
Definition zonesAreMultiples (z : PaceZones) (p : Q) : Prop :=
  min (easy z) = p * 1.15 /\ max (easy z) = p * 1.3 /\
  min (tempo z) = p * 0.9 /\ max (tempo z) = p * 0.95 /\
  min (threshold z) = p * 0.85 /\ max (threshold z) = p * 0.9 /\
  min (interval z) = p * 0.75 /\ max (interval z) = p * 0.85 /\
  min (long z) = p * 1.1 /\ max (long z) = p * 1.2.

(** Interval, threshold, tempo and easy, from the fastest to the slowest. *)
Definition zonesOrderedByEffort (z : PaceZones) (p : Q) : Prop :=
  max (easy z) > min (easy z) /\ min (easy z) > p /\ p > min (interval z) /\
  min (interval z) < max (interval z) /\
  max (interval z) <= min (threshold z) /\
  min (threshold z) < max (threshold z) /\
  max (threshold z) <= min (tempo z) /\
  min (tempo z) < max (tempo z) /\
  max (tempo z) < min (easy z).

(** The long zone as the specification places it: slower than the lower
    bound of the easy zone. *)
Definition longSlowerThanEasyMin (z : PaceZones) : Prop :=
  min (easy z) <= min (long z).

(** The long zone as the constants place it: it starts faster than the
    easy zone and overlaps it from below. *)
Definition longOverlapsEasy (z : PaceZones) (p : Q) : Prop :=
  p < min (long z) /\ min (long z) < min (easy z) /\
  min (easy z) < max (long z) /\ max (long z) < max (easy z).

End ZoneVocabulary.

(** ** Weeks and plans *)

Section PlanVocabulary.

Import TrainingPlan.

(** The phase of a week; it does not depend on the base volume. *)
Definition phaseOf (weekNumber weeksUntilRace : Z) : Phase :=
  fst (fst (fst (classifyPhase weekNumber weeksUntilRace 0))).

(** The seven workouts of a week from its phase and assigned volume. *)
Definition weekWorkouts (phase : Phase) (weekKilometers : Q)
    (m : DetailedTrainingMetrics) (rd : RaceDistance) (rpw : nat)
    (td : option (list nat)) (raceWeek : bool) : list Workout :=
  let generated :=
    map (fun day => generateWorkout phase day weekKilometers m rd rpw td)
        (seq 0 7) in
  if raceWeek then JS.setAt 6 (raceDayWorkout rd) generated else generated.

(** The distance of a generated day, rest days counting 0. *)
Definition dayDistance (weekKilometers : Q) (rpw : nat)
    (td : option (list nat)) (d : nat) : Q :=
  let runDays := runDaysOf rpw td in
  if negb (includes runDays d) then 0
  else if (d =? longRunDayOf runDays)%nat
       then JS.round1 (weekKilometers * 0.35)
       else otherDayDistance weekKilometers runDays.

(** A run day that is not the long-run day, and the long-run day. *)
Definition isOtherDay (rpw : nat) (td : option (list nat)) (d : nat)
  : bool :=
  includes (runDaysOf rpw td) d
  && negb (d =? longRunDayOf (runDaysOf rpw td))%nat.

Definition isLongDay (rpw : nat) (td : option (list nat)) (d : nat)
  : bool :=
  includes (runDaysOf rpw td) d
  && (d =? longRunDayOf (runDaysOf rpw td))%nat.

(** A workout of type Race Day. *)
Definition isRaceDay (x : Workout) : bool :=
  match type x with
  | RaceDay => true
  | _ => false
  end.

(** The week pushed at iteration [week = S i]. *)
Definition weekAt (now : Z) (g : RaceGoal) (m : DetailedTrainingMetrics)
    (W : Z) (i : nat) (previousWeekKm : option Q) : WeeklyPlan :=
  generateWeeklyPlan now (Z.of_nat (S i)) W
    (baseWeeklyKilometersOf m (goalDistance g)) m (goalDistance g)
    (runsPerWeek g) (trainingDays g) previousWeekKm (startDate g).

(** [plan[week - 2].totalKilometers] for [week = S i]. *)
Definition previousTotal (plan : list WeeklyPlan) (i : nat) : option Q :=
  match i with
  | O => None
  | S j => option_map totalKilometers (nth_error plan j)
  end.

(** A 10K goal [weeks] weeks after its start, on the built-in schedule for
    [runs] runs a week, and metrics with a recent volume of [km] a week. *)
Definition tenKGoal (weeks : Z) (runs : nat) : RaceGoal :=
  mkGoal (weeks * 7 * Strava.DAY_MS) (Some 0%Z) D10K None runs None.

Definition metricsWithVolume (km : Q) : DetailedTrainingMetrics :=
  calculateDetailedMetrics 0 [] km 5 0 0.

(** A goal with the custom days Monday, Wednesday and Friday and the race
    two weeks after the start: the long run of the custom list falls on
    Friday. *)
Definition fridayGoal : RaceGoal :=
  mkGoal (2 * 7 * Strava.DAY_MS) (Some 0%Z) D10K None 3
         (Some [0; 2; 4]%nat).

(** Metrics without activities: 12 km a week at 5 min/km. *)
Definition plainMetrics : DetailedTrainingMetrics :=
  calculateDetailedMetrics 0 [] 12 5 0 0.

End PlanVocabulary.

(** ** Predictions *)

Section PredictionVocabulary.

Import Strava Predictions.

(** A run qualifies when its type is 'Run' and it started within the
    trailing 24 weeks. *)
Definition qualifies (now : Z) (a : Activity) : bool :=
  (now - 14515200000 <=? start_date a)%Z && String.eqb (type a) "Run".

(** What the early return hands out for each distance. *)
Definition shortfall (n : nat) (p : Prediction) : Prop :=
  available p = false /\ time p = None /\ pace p = None /\
  reason p = ("Need at least 5 runs in the last 24 weeks. Currently have "
              ++ JS.showNat n ++ ".")%string /\
  String.prefix "Need at least 5 runs" (reason p) = true.

(** Five qualifying runs of 500 m in 3 minutes: too short for every
    similar-distance window and for the extrapolation pool. *)
Definition fiveShortRuns : list Activity :=
  repeat (mkActivity 500 180 "Run" 0) 5.

(** Five qualifying runs of 10 km in 50 minutes. *)
Definition fiveTenKmRuns : list Activity :=
  repeat (mkActivity 10000 3000 "Run" 0) 5.

(** The two filters of [validRunsOf] on one activity: distance strictly
    between 1 km and 50 km, positive moving time, pace strictly between 2.5
    and 12 min/km. *)
Definition isValidRun (a : Activity) : bool :=
  JS.gtb (distance a) 1000 && JS.gtb (moving_time a) 0
  && JS.ltb (distance a) 50000
  && (JS.gtb (paceOf a) 2.5 && JS.ltb (paceOf a) 12).

(** [q1] of the source: the pace at the first-quartile index of the sorted
    paces. *)
Definition q1Of (weightedRuns : list WeightedRun) : Q :=
  let paces :=
    JS.sortBy ascending (map (fun r => runPace (run r)) weightedRuns) in
  nth (length paces / 4) paces 0.

(** The band [q1 - 1.5 IQR, q3 + 1.5 IQR] of the source. *)
Definition bandOf (weightedRuns : list WeightedRun) : Q * Q :=
  iqrBounds
    (JS.sortBy ascending (map (fun r => runPace (run r)) weightedRuns)).

End PredictionVocabulary.

(** ** Pacing *)

Section PacingVocabulary.

Import Pacing.

(** The time of split [i]: its pace times its distance. *)
Definition splitTimeOf (d p : Q) (s : Strategy) (i : nat) : Q :=
  fst (splitPaceOf d p s i) * splitDistanceOf d i.

(** The sums the specification compares with the totals. *)
Definition totalSplitDistance (ps : PacingStrategy) : Q :=
  JS.sumOf Split.distance (splits ps).

(** The sum of the split times. *)
Definition totalSplitTime (ps : PacingStrategy) : Q :=
  JS.sumOf Split.targetTime (splits ps).

End PacingVocabulary.

(** ** Further vocabulary: plans *)

Section PlanVocabularyMore.

Import TrainingPlan.

(** The order of the phases in a plan. *)
Definition phaseRank (p : Phase) : nat :=
  match p with
  | base => 0
  | build => 1
  | peak => 2
  | taper => 3
  end.

(** The phase that [classifyPhase] returns. *)
Definition phaseIn (weekNumber weeksUntilRace : Z) (b : Q) : Phase :=
  fst (fst (fst (classifyPhase weekNumber weeksUntilRace b))).

(** The start of a plan: [startDate] when given, else the clock. *)
Definition planStart (now : Z) (g : RaceGoal) : Z :=
  match startDate g with
  | Some s => s
  | None => now
  end.

Definition isRest (x : Workout) : bool :=
  match type x with
  | Rest => true
  | _ => false
  end.

Definition isLongRun (x : Workout) : bool :=
  match type x with
  | LongRun => true
  | _ => false
  end.

Definition isHigh (x : Workout) : bool :=
  match intensity x with
  | High => true
  | _ => false
  end.

(** The order of the fitness levels. *)
Definition levelRank (level : string) : nat :=
  if String.eqb level "Advanced" then 2
  else if String.eqb level "Intermediate" then 1
  else 0.

End PlanVocabularyMore.

(** ** Further vocabulary: the fitness score *)

Section FitnessVocabulary.

Import TrainingPlan.

(** The four point tables and the clamp of [assessFitnessLevel]. *)
Definition volumePoints (weeklyToRaceRatio : Q) : Q :=
  if JS.geb weeklyToRaceRatio 2.5 then 40
  else if JS.geb weeklyToRaceRatio 1.8 then 30
  else if JS.geb weeklyToRaceRatio 1.2 then 20
  else 10.

Definition longRunPoints (longRunRatio : Q) : Q :=
  if JS.geb longRunRatio 0.7 then 25
  else if JS.geb longRunRatio 0.5 then 18
  else if JS.geb longRunRatio 0.3 then 10
  else 5.

Definition frequencyPoints (recentRunCount : Q) : Q :=
  if JS.geb recentRunCount 16 then 15
  else if JS.geb recentRunCount 12 then 10
  else if JS.geb recentRunCount 8 then 5
  else 0.

Definition improvementPoints (recentPaceImprovement : Q) : Q :=
  JS.Math_max (-5) (JS.Math_min 10 recentPaceImprovement).

(** The local [score] of [assessFitnessLevel] before the classification. *)
Definition fitnessScore (metrics : DetailedTrainingMetrics)
    (raceDistance : RaceDistance) : Q :=
  volumePoints (weeklyKilometers metrics / RACE_DISTANCES raceDistance)
  + longRunPoints (avgLongRun metrics / RACE_DISTANCES raceDistance)
  + consistencyScore metrics / 100 * 20
  + frequencyPoints (recentRunCount metrics)
  + improvementPoints (recentPaceImprovement metrics).

Definition classifyScore (score : Q) : string :=
  if JS.geb score 75 then "Advanced"%string
  else if JS.geb score 50 then "Intermediate"%string
  else "Beginner"%string.

(** The runs of the trailing 4 weeks and of the 4 weeks before, as
    [calculateDetailedMetrics] selects them. *)
Definition recentRunsOf (now : Z) (acts : list Strava.Activity)
  : list Strava.Activity :=
  filter (fun a => (now - 28 * Strava.DAY_MS <=? Strava.start_date a)%Z) acts.

Definition olderRunsOf (now : Z) (acts : list Strava.Activity)
  : list Strava.Activity :=
  filter (fun a => (now - 56 * Strava.DAY_MS <=? Strava.start_date a)%Z
                   && (Strava.start_date a <? now - 28 * Strava.DAY_MS)%Z)
         acts.

End FitnessVocabulary.

(** ** Further vocabulary: predictions *)

Section PredictionVocabularyMore.

Import Strava Predictions.

(** [recentRuns] of [analyzeTrainingLoad]. *)
Definition loadRunsOf (now : Z) (acts : list Activity) : list Activity :=
  filter (fun a => (now - 28 * DAY_MS <=? start_date a)%Z && isRun a) acts.

(** The predicate of [similarRuns] in [calculateDistancePrediction]. *)
Definition isSimilar (distanceKm : Q) (activity : Activity) : bool :=
  JS.geb (distance activity) (fst (getSimilarDistanceRange distanceKm) * 1000)
  && JS.leb (distance activity)
            (snd (getSimilarDistanceRange distanceKm) * 1000)
  && JS.gtb (moving_time activity) 0.

Definition timeOfDay (t : Z) : Z := (t mod DAY_MS)%Z.

(** The object [calculateDistancePrediction] returns once it has a pace. *)
Definition fullPrediction (distanceKm predictedPace : Q) : Prediction :=
  {| available := true;
     time := Some (predictedPace * distanceKm);
     pace := Some predictedPace;
     reason := "";
     formattedTime := Some (Utils.formatRaceTime (predictedPace * distanceKm));
     formattedPace := Some (Utils.formatPaceFromMinKm predictedPace) |}.

(** A prediction either carries no figure at all, or a time that is its
    pace times the distance, both formatted, and is flagged available. *)
Definition figuresAgree (distanceKm : Q) (p : Prediction) : Prop :=
  match time p, pace p with
  | None, None => formattedTime p = None /\ formattedPace p = None
  | Some t, Some q =>
      t = q * distanceKm /\ available p = true /\
      formattedTime p = Some (Utils.formatRaceTime t) /\
      formattedPace p = Some (Utils.formatPaceFromMinKm q)
  | _, _ => False
  end.

End PredictionVocabularyMore.

(** ** Further vocabulary: the historical trend *)

Section HistoryVocabulary.

Import History.

(** A data point without any time. *)
Definition noTimes : Times := mkTimes None None None None.

(** [p'] is [p] with some of its times set to null. *)
Definition onlyClears (p p' : DataPoint) : Prop :=
  date p' = date p /\
  forall k, getTime k p' = getTime k p \/ getTime k p' = None.

(** Today's calendar day, and the day 24 weeks before it. *)
Definition today (now : Z) : Z := (now / Strava.DAY_MS)%Z.

End HistoryVocabulary.

(** * Properties *)

(** ** Facts about the JavaScript primitives *)

Section JSFacts.

Lemma ltb_lt (x y : Q) : JS.ltb x y = true <-> x < y.
Proof. unfold JS.ltb, Qlt. apply Z.ltb_lt. Qed.

Lemma ltb_ge (x y : Q) : JS.ltb x y = false <-> y <= x.
Proof. unfold JS.ltb, Qle. apply Z.ltb_ge. Qed.

Lemma leb_le (x y : Q) : JS.leb x y = true <-> x <= y.
Proof. unfold JS.leb. apply Qle_bool_iff. Qed.

Lemma leb_gt (x y : Q) : JS.leb x y = false <-> y < x.
Proof.
  unfold JS.leb. split; intros H.
  - apply Qnot_le_lt. intros Hle. apply Qle_bool_iff in Hle. congruence.
  - destruct (Qle_bool x y) eqn:E; [|reflexivity].
    apply Qle_bool_iff in E. exfalso. apply (Qlt_not_le _ _ H E).
Qed.

Lemma Math_min_le_l (x y : Q) : JS.Math_min x y <= x.
Proof.
  unfold JS.Math_min. destruct (JS.ltb y x) eqn:E.
  - apply ltb_lt in E. apply Qlt_le_weak, E.
  - apply Qle_refl.
Qed.

Lemma Math_min_le_r (x y : Q) : JS.Math_min x y <= y.
Proof.
  unfold JS.Math_min. destruct (JS.ltb y x) eqn:E.
  - apply Qle_refl.
  - apply ltb_ge in E. exact E.
Qed.

Lemma Math_min_glb (x y z : Q) : z <= x -> z <= y -> z <= JS.Math_min x y.
Proof. intros Hx Hy. unfold JS.Math_min. destruct (JS.ltb y x); assumption. Qed.


Lemma Math_round_upper (x : Q) : inject_Z (JS.Math_round x) <= x + 0.5.
Proof. unfold JS.Math_round. apply Qfloor_le. Qed.


Lemma round1_upper (x : Q) : JS.round1 x <= x + 0.05.
Proof.
  unfold JS.round1. pose proof (Math_round_upper (x * 10)) as H.
  apply Qle_shift_div_r; lra.
Qed.

Lemma round1_nonneg (x : Q) : 0 <= x -> 0 <= JS.round1 x.
Proof.
  intros Hx. unfold JS.round1, JS.Math_round.
  apply Qle_shift_div_l; [lra|].
  rewrite Qmult_0_l. change 0 with (inject_Z 0). rewrite <- Zle_Qle.
  change 0%Z with (Qfloor (inject_Z 0)) at 1.
  apply Qfloor_resp_le. change (inject_Z 0) with 0. lra.
Qed.

Lemma round1_comp (x y : Q) : x == y -> JS.round1 x = JS.round1 y.
Proof.
  intros H. unfold JS.round1, JS.Math_round.
  assert (E : x * 10 + 0.5 == y * 10 + 0.5) by (rewrite H; reflexivity).
  rewrite (Qfloor_comp _ _ E). reflexivity.
Qed.

(** A number of tenths is a fixed point of the rounding. *)
Lemma round1_tenths (k : Z) : JS.round1 (inject_Z k / 10) == inject_Z k / 10.
Proof.
  unfold JS.round1, JS.Math_round.
  assert (E : Qfloor (inject_Z k / 10 * 10 + 0.5) = k).
  { assert (H1 : inject_Z k / 10 * 10 + 0.5 == inject_Z k + 0.5) by field.
    rewrite (Qfloor_comp _ _ H1).
    apply Z.le_antisymm.
    - apply Z.lt_succ_r. rewrite Zlt_Qlt.
      eapply Qle_lt_trans; [apply Qfloor_le|].
      unfold Z.succ. rewrite inject_Z_plus. change (inject_Z 1) with 1. lra.
    - rewrite <- (Qfloor_Z k) at 1. apply Qfloor_resp_le. lra. }
  rewrite E. reflexivity.
Qed.

Lemma truthy_Some (q : Q) : JS.truthy (Some q) = true <-> ~ q == 0.
Proof.
  simpl. destruct (Qeq_bool q 0) eqn:E; simpl.
  - apply Qeq_bool_iff in E. split; [discriminate | tauto].
  - split; [|reflexivity]. intros _ H. apply Qeq_bool_iff in H. congruence.
Qed.

End JSFacts.

(** ** Pace zones (calculateDetailedMetrics) *)

Section PaceZoneFacts.

Import TrainingPlan.

Lemma zones_multiples (now : Z) (acts : list Strava.Activity)
    (wk avgP lr rc : Q) :
  zonesAreMultiples (paceZones (calculateDetailedMetrics now acts wk avgP lr rc))
                    (recentAvgPace now acts avgP).
Proof. unfold zonesAreMultiples; repeat split; reflexivity. Qed.

Lemma multiples_ordered (z : PaceZones) (p : Q) :
  0 < p -> zonesAreMultiples z p -> zonesOrderedByEffort z p.
Proof.
  intros Hp (E1 & E2 & E3 & E4 & E5 & E6 & E7 & E8 & _ & _).
  unfold zonesOrderedByEffort.
  rewrite E1, E2, E3, E4, E5, E6, E7, E8. repeat split; lra.
Qed.

Lemma multiples_long (z : PaceZones) (p : Q) :
  0 < p -> zonesAreMultiples z p -> longOverlapsEasy z p.
Proof.
  intros Hp (E1 & E2 & _ & _ & _ & _ & _ & _ & E9 & E10).
  unfold longOverlapsEasy. rewrite E1, E2, E9, E10. repeat split; lra.
Qed.

(** C4, as stated, fails: with no recent run and an average pace of
    5 min/km the long zone starts at 5.5 min/km, faster than the 5.75 min/km
    lower bound of the easy zone. *)
Lemma C4_long_zone_counterexample :
  let z := paceZones (calculateDetailedMetrics 0 [] 0 5 0 0) in
  0 < recentAvgPace 0 [] 5 /\
  ~ (zonesAreMultiples z (recentAvgPace 0 [] 5) /\
     zonesOrderedByEffort z (recentAvgPace 0 [] 5) /\
     longSlowerThanEasyMin z).
Proof.
  split; [reflexivity|].
  intros (_ & _ & H). vm_compute in H. apply H. reflexivity.
Qed.

(** C4, amended: for every positive recentAvgPace the zones are the fixed
    multiples of it, interval < threshold < tempo < recentAvgPace < easy in
    min/km with easy.max > easy.min > recentAvgPace > interval.min, and the
    long zone lies above recentAvgPace but starts below the lower bound of
    the easy zone and ends inside the easy zone. *)
Theorem C4_pace_zones (now : Z) (acts : list Strava.Activity)
    (wk avgP lr rc : Q) :
  let z := paceZones (calculateDetailedMetrics now acts wk avgP lr rc) in
  let p := recentAvgPace now acts avgP in
  0 < p ->
  zonesAreMultiples z p /\ zonesOrderedByEffort z p /\ longOverlapsEasy z p.
Proof.
  intros z p Hp.
  pose proof (zones_multiples now acts wk avgP lr rc) as Hm.
  fold z p in Hm.
  split; [exact Hm|]. split.
  - apply multiples_ordered; assumption.
  - apply multiples_long; assumption.
Qed.

Lemma C4_pace_zones_witness :
  let z := paceZones (calculateDetailedMetrics 0 [] 0 5 0 0) in
  0 < recentAvgPace 0 [] 5 /\
  zonesAreMultiples z (recentAvgPace 0 [] 5) /\
  zonesOrderedByEffort z (recentAvgPace 0 [] 5) /\
  longOverlapsEasy z (recentAvgPace 0 [] 5).
Proof.
  split; [reflexivity|].
  apply (C4_pace_zones 0 [] 0 5 0 0). reflexivity.
Defined.

End PaceZoneFacts.

(** ** A race date that is not after the plan start *)

Section EmptyPlanFacts.

Import TrainingPlan.

Lemma Math_ceil_nonpos (x : Q) : (JS.Math_ceil x <= 0)%Z <-> x <= 0.
Proof.
  unfold JS.Math_ceil. split; intros H.
  - eapply Qle_trans; [apply Qle_ceiling|].
    change 0 with (inject_Z 0). rewrite <- Zle_Qle. exact H.
  - pose proof (Qceiling_lt x) as Hc.
    assert (Hlt : inject_Z (Qceiling x - 1) < inject_Z 0)
      by (eapply Qlt_le_trans; [exact Hc | exact H]).
    rewrite <- Zlt_Qlt in Hlt. lia.
Qed.

Lemma ceilDiv_nonpos (a b : Z) :
  (0 < b)%Z -> ((ceilDiv a b <= 0)%Z <-> (a <= 0)%Z).
Proof.
  intros Hb. unfold ceilDiv. rewrite Math_ceil_nonpos.
  assert (Hq : 0 < inject_Z b)
    by (change 0 with (inject_Z 0); rewrite <- Zlt_Qlt; exact Hb).
  split; intros H.
  - apply (Qmult_le_compat_r _ _ (inject_Z b)) in H; [|lra].
    rewrite Qmult_0_l in H.
    assert (E : inject_Z a / inject_Z b * inject_Z b == inject_Z a)
      by (field; lra).
    rewrite E in H. change 0 with (inject_Z 0) in H.
    rewrite <- Zle_Qle in H. exact H.
  - apply Qle_shift_div_r; [exact Hq|]. rewrite Qmult_0_l.
    change 0 with (inject_Z 0). rewrite <- Zle_Qle. exact H.
Qed.

(** [getWeeksUntilRace] is zero or negative exactly when the race date is
    on or before the start date. *)
Lemma getWeeksUntilRace_nonpos (now raceDate : Z) (startDate : option Z) :
  (getWeeksUntilRace now raceDate startDate <= 0)%Z <->
  (raceDate <= match startDate with Some s => s | None => now end)%Z.
Proof.
  unfold getWeeksUntilRace.
  rewrite ceilDiv_nonpos by lia. rewrite ceilDiv_nonpos by lia. lia.
Qed.

Lemma orElse_nonempty (a : option string) (s : string) :
  s <> EmptyString ->
  exists r, JS.orElse a (Some s) = Some r /\ r <> EmptyString.
Proof.
  intros Hs. destruct a as [x|]; simpl.
  - destruct (String.eqb x EmptyString) eqn:E.
    + exists s. split; [reflexivity | exact Hs].
    + exists x. split; [reflexivity|]. apply String.eqb_neq. exact E.
  - exists s. split; [reflexivity | exact Hs].
Qed.

Lemma assessFitnessLevel_cases (m : DetailedTrainingMetrics)
    (d : RaceDistance) :
  assessFitnessLevel m d = "Advanced"%string \/
  assessFitnessLevel m d = "Intermediate"%string \/
  assessFitnessLevel m d = "Beginner"%string.
Proof.
  unfold assessFitnessLevel.
  repeat match goal with
         | |- context [if ?b then _ else _] => destruct b
         end; auto.
Qed.

(** C10: when the race date is on or before the plan start date,
    getWeeksUntilRace is zero or negative and generateTrainingPlan returns an
    empty plan list (so no week and no Race Day workout), while it still
    reports weeksUntilRace, one of the three fitness levels, a non-empty
    estimated race time and a recommendation list that holds the
    under-8-weeks warning and the two closing reminders. *)
Theorem C10_empty_plan_when_race_not_after_start (now : Z) (g : RaceGoal)
    (m : DetailedTrainingMetrics) (formattedTime : option string) :
  (date g <= match startDate g with Some s => s | None => now end)%Z ->
  let tp := generateTrainingPlan now g m formattedTime in
  (weeksUntilRace tp <= 0)%Z /\
  weeksUntilRace tp = getWeeksUntilRace now (date g) (startDate g) /\
  plan tp = [] /\
  (forall w x, In w (plan tp) -> In x (workouts w) -> type x <> RaceDay) /\
  (currentFitness tp = "Advanced"%string \/
   currentFitness tp = "Intermediate"%string \/
   currentFitness tp = "Beginner"%string) /\
  estimatedRaceTime tp <> EmptyString /\
  In LessThan8Weeks (recommendations tp) /\
  In StayHydrated (recommendations tp) /\
  In PrioritizeSleep (recommendations tp).
Proof.
  intros Hdate tp.
  assert (Hw : (getWeeksUntilRace now (date g) (startDate g) <= 0)%Z)
    by (apply getWeeksUntilRace_nonpos; exact Hdate).
  assert (Hplan : plan tp = []).
  { unfold tp, generateTrainingPlan, weeksLoop; simpl.
    replace (Z.to_nat (getWeeksUntilRace now (date g) (startDate g)))
      with 0%nat by lia.
    reflexivity. }
  split; [exact Hw|]. split; [reflexivity|]. split; [exact Hplan|].
  split; [intros w x Hin; rewrite Hplan in Hin; destruct Hin|].
  split; [apply assessFitnessLevel_cases|].
  split.
  { unfold tp, generateTrainingPlan; simpl.
    destruct (orElse_nonempty
                (JS.orElse formattedTime (targetTime g)) "Not available")
      as (r & -> & Hr); [discriminate | exact Hr]. }
  unfold tp, generateTrainingPlan, generateRecommendations; simpl.
  assert (E : (getWeeksUntilRace now (date g) (startDate g) <? 8)%Z = true)
    by (apply Z.ltb_lt; lia).
  rewrite E.
  repeat split.
  - simpl. left. reflexivity.
  - rewrite !in_app_iff. do 7 right. simpl. auto.
  - rewrite !in_app_iff. do 7 right. simpl. auto.
Qed.

Lemma C10_empty_plan_witness :
  let g := mkGoal 0 (Some 86400000%Z) D10K None 3 None in
  let m := mkMetrics [] 0 12 5 0
             (paceZones (calculateDetailedMetrics 0 [] 0 5 0 0))
             stable 0 0 0 in
  plan (generateTrainingPlan 0 g m None) = [] /\
  weeksUntilRace (generateTrainingPlan 0 g m None) = 0%Z.
Proof.
  intros g m.
  destruct (C10_empty_plan_when_race_not_after_start 0 g m None)
    as (_ & _ & Hp & _); [simpl; lia|].
  split; [exact Hp | reflexivity].
Defined.

End EmptyPlanFacts.

(** ** The overall gate of calculateRacePredictions *)

Section GateFacts.

Import Strava Predictions.

Variable now : Z.
Variable Math_pow : Q -> Q -> Q.
Variable Math_log : Q -> Q.

Lemma recentActivitiesOf_qualifies (acts : list Activity) :
  recentActivitiesOf now acts = filter (qualifies now) acts.
Proof. reflexivity. Qed.

(** C7: with fewer than 5 qualifying runs (type 'Run', started within the
    trailing 24 weeks) calculateRacePredictions returns, and all four
    predictions are unavailable with null time and pace and the reason
    "Need at least 5 runs in the last 24 weeks. Currently have n.". *)
Theorem C7_fewer_than_five_runs (acts : list Activity) :
  (length (filter (qualifies now) acts) < 5)%nat ->
  exists ps,
    calculateRacePredictions now Math_pow Math_log acts = Returned ps /\
    shortfall (length (filter (qualifies now) acts)) (_5K ps) /\
    shortfall (length (filter (qualifies now) acts)) (_10K ps) /\
    shortfall (length (filter (qualifies now) acts)) (halfMarathon ps) /\
    shortfall (length (filter (qualifies now) acts)) (marathon ps).
Proof.
  intros Hlt. unfold calculateRacePredictions.
  rewrite recentActivitiesOf_qualifies.
  assert (E : (length (filter (qualifies now) acts) <? 5)%nat = true)
    by (apply Nat.ltb_lt; exact Hlt).
  rewrite E. eexists. split; [reflexivity|].
  unfold shortfall; simpl. repeat split; reflexivity.
Qed.

End GateFacts.

(** The scenario of the specification: no activity at all. *)
Lemma C7_fewer_than_five_runs_witness :
  exists ps,
    Predictions.calculateRacePredictions 0 (fun _ _ => 1) (fun _ => 0) []
    = Predictions.Returned ps /\
    Predictions.reason (Predictions._5K ps)
    = "Need at least 5 runs in the last 24 weeks. Currently have 0."%string /\
    Predictions.available (Predictions.marathon ps) = false.
Proof.
  destruct (C7_fewer_than_five_runs 0 (fun _ _ => 1) (fun _ => 0) [])
    as (ps & E & (_ & _ & _ & Hr & _) & _ & _ & (Ha & _)); [simpl; lia|].
  exists ps. split; [exact E|]. split; [exact Hr | exact Ha].
Defined.

(** ** Availability after the per-distance gates *)

Section AvailabilityFacts.

Import Strava Predictions.

(** C1 at its failing input: calculateDistancePrediction answers
    "Insufficient data for prediction" with available = false for the five
    short runs, and the 5-run gate of calculateRacePredictions then sets
    available = true on that very object: the 5K prediction is returned
    available with null time and pace and a non-empty reason. *)
Theorem C1_available_without_pace (Math_pow : Q -> Q -> Q)
    (Math_log : Q -> Q) :
  calculateDistancePrediction 0 Math_pow Math_log fiveShortRuns 5
  = Returned insufficientData /\
  exists ps,
    calculateRacePredictions 0 Math_pow Math_log fiveShortRuns = Returned ps /\
    available (_5K ps) = true /\
    time (_5K ps) = None /\ pace (_5K ps) = None /\
    reason (_5K ps) = "Insufficient data for prediction"%string.
Proof.
  split; [vm_compute; reflexivity|].
  eexists. split; [vm_compute; reflexivity|].
  repeat split; reflexivity.
Qed.

(** The gates below their threshold only write the reason: a 10K prediction
    computed from five 10 km runs stays available while its reason says that
    10 runs are needed. *)
Lemma available_with_reason :
  exists ps,
    calculateRacePredictions 0 (fun _ _ => 1) (fun _ => 0) fiveTenKmRuns
    = Returned ps /\
    available (_10K ps) = true /\
    reason (_10K ps) = "Need 10 runs for 10K prediction"%string.
Proof.
  eexists. split; [vm_compute; reflexivity|]. split; reflexivity.
Qed.

End AvailabilityFacts.

(** ** The outlier filter of estimatePaceFromTraining *)

Section SortFacts.

Context {A : Type} (cmp : A -> A -> Q).

Lemma insertBy_perm (x : A) (l : list A) :
  Permutation (JS.insertBy cmp x l) (x :: l).
Proof.
  induction l as [|y ys IH]; simpl.
  - apply Permutation_refl.
  - destruct (JS.leb (cmp x y) 0).
    + apply Permutation_refl.
    + eapply Permutation_trans; [apply perm_skip, IH | apply perm_swap].
Qed.

Lemma sortBy_perm (l : list A) : Permutation (JS.sortBy cmp l) l.
Proof.
  induction l as [|x xs IH]; simpl.
  - apply perm_nil.
  - eapply Permutation_trans; [apply insertBy_perm | apply perm_skip, IH].
Qed.

Lemma sortBy_length (l : list A) : length (JS.sortBy cmp l) = length l.
Proof. apply Permutation_length, sortBy_perm. Qed.

Lemma sortBy_nil_iff (l : list A) : JS.sortBy cmp l = [] <-> l = [].
Proof.
  split; intros H.
  - apply length_zero_iff_nil. rewrite <- sortBy_length, H. reflexivity.
  - subst. reflexivity.
Qed.

End SortFacts.

Section AscendingFacts.

Lemma insert_ascending (x : Q) (l : list Q) :
  StronglySorted Qle l -> StronglySorted Qle (JS.insertBy ascending x l).
Proof.
  induction l as [|y ys IH]; intros Hs; simpl.
  - constructor; constructor.
  - inversion Hs as [|? ? Hys Hall]; subst.
    destruct (JS.leb (ascending x y) 0) eqn:E.
    + apply leb_le in E. unfold ascending in E.
      constructor; [exact Hs|].
      constructor; [lra|].
      eapply Forall_impl; [|exact Hall].
      intros z Hz. simpl in Hz. lra.
    + apply leb_gt in E. unfold ascending in E.
      constructor; [apply IH, Hys|].
      eapply Permutation_Forall;
        [apply Permutation_sym, insertBy_perm|].
      constructor; [lra | exact Hall].
Qed.

Lemma sortBy_ascending (l : list Q) :
  StronglySorted Qle (JS.sortBy ascending l).
Proof.
  induction l as [|x xs IH]; simpl.
  - constructor.
  - apply insert_ascending, IH.
Qed.

Lemma sorted_nth_le (l : list Q) :
  StronglySorted Qle l ->
  forall i j, (i <= j)%nat -> (j < length l)%nat -> nth i l 0 <= nth j l 0.
Proof.
  induction 1 as [|x xs Hs IH Hall]; intros i j Hij Hj; simpl in Hj.
  - lia.
  - destruct i as [|i], j as [|j]; simpl; try lia.
    + apply Qle_refl.
    + rewrite Forall_forall in Hall. apply Hall, nth_In. lia.
    + apply IH; lia.
Qed.

End AscendingFacts.

Section OutlierFacts.

Import Strava Predictions.

Lemma quartile_indices (n : nat) :
  (0 < n)%nat -> (n / 4 <= n * 3 / 4)%nat /\ (n * 3 / 4 < n)%nat.
Proof.
  intros Hn. split.
  - apply Nat.Div0.div_le_mono. lia.
  - apply Nat.Div0.div_lt_upper_bound. lia.
Qed.

Lemma band_contains_q1 (ws : list WeightedRun) :
  ws <> [] -> fst (bandOf ws) <= q1Of ws /\ q1Of ws <= snd (bandOf ws).
Proof.
  intros Hne. unfold bandOf, q1Of, iqrBounds.
  set (paces := JS.sortBy ascending (map (fun r => runPace (run r)) ws)).
  assert (Hlen : (0 < length paces)%nat).
  { unfold paces. rewrite sortBy_length, length_map.
    destruct ws; [congruence | simpl; lia]. }
  destruct (quartile_indices _ Hlen) as [Hle Hlt].
  pose proof (sorted_nth_le paces (sortBy_ascending _) _ _ Hle Hlt) as Hq.
  cbn [fst snd].
  set (q1 := nth (length paces / 4) paces 0) in *.
  set (q3 := nth (length paces * 3 / 4) paces 0) in *.
  split; lra.
Qed.

Lemma q1_is_a_pace (ws : list WeightedRun) :
  ws <> [] -> exists r, In r ws /\ runPace (run r) = q1Of ws.
Proof.
  intros Hne. unfold q1Of.
  set (paces := JS.sortBy ascending (map (fun r => runPace (run r)) ws)).
  assert (Hlen : (0 < length paces)%nat).
  { unfold paces. rewrite sortBy_length, length_map.
    destruct ws; [congruence | simpl; lia]. }
  assert (Hin : In (nth (length paces / 4) paces 0) paces).
  { apply nth_In. destruct (quartile_indices _ Hlen). lia. }
  apply (Permutation_in _ (sortBy_perm ascending _)) in Hin.
  apply in_map_iff in Hin. destruct Hin as (r & Hr & Hin).
  exists r. split; assumption.
Qed.

Lemma iqrFilter_unfold (ws : list WeightedRun) :
  iqrFilter ws =
  filter (fun r => JS.geb (runPace (run r)) (fst (bandOf ws))
                   && JS.leb (runPace (run r)) (snd (bandOf ws))) ws.
Proof.
  unfold iqrFilter, bandOf.
  destruct (iqrBounds _) as [lo hi]. reflexivity.
Qed.

(** The filter keeps the run that attains [q1]. *)
Lemma iqrFilter_keeps_q1 (ws : list WeightedRun) :
  ws <> [] ->
  exists r, In r (iqrFilter ws) /\ runPace (run r) = q1Of ws.
Proof.
  intros Hne.
  destruct (q1_is_a_pace ws Hne) as (r & Hin & Hp).
  destruct (band_contains_q1 ws Hne) as [Hlo Hhi].
  exists r. split; [|exact Hp].
  rewrite iqrFilter_unfold. apply filter_In. split; [exact Hin|].
  rewrite Hp. apply andb_true_intro. split.
  - unfold JS.geb. apply leb_le. exact Hlo.
  - apply leb_le. exact Hhi.
Qed.

Lemma reduceOrThrow_returns {B : Type} (pick : B -> B -> B) (l : list B) :
  l <> [] -> exists b, reduceOrThrow pick l = Returned b.
Proof.
  intros Hne. destruct l as [|x xs]; [congruence|].
  eexists. reflexivity.
Qed.

Lemma filter_nil_iff {B : Type} (f : B -> bool) (l : list B) :
  filter f l = [] <-> forall x, In x l -> f x = false.
Proof.
  induction l as [|x xs IH]; simpl.
  - split; [intros _ y [] | reflexivity].
  - destruct (f x) eqn:E.
    + split; [discriminate|]. intros H.
      specialize (H x (or_introl eq_refl)). congruence.
    + rewrite IH. split.
      * intros H y [<-|Hy]; [exact E | apply H, Hy].
      * intros H y Hy. apply H. right. exact Hy.
Qed.

(** The pool is empty exactly when no activity passes the two filters. *)
Lemma pool_empty_iff (now : Z) (acts : list Activity) :
  validRunsOf now acts = [] <-> forall a, In a acts -> isValidRun a = false.
Proof.
  unfold validRunsOf. rewrite sortBy_nil_iff, filter_nil_iff. split.
  - intros H a Ha. unfold isValidRun.
    destruct (JS.gtb (distance a) 1000 && JS.gtb (moving_time a) 0
              && JS.ltb (distance a) 50000) eqn:E1; [|reflexivity].
    simpl. apply (H (mkRun (distance a / 1000) (paceOf a) (moving_time a)
                           (start_date a)
                           ((now - start_date a) / DAY_MS)%Z)).
    apply in_map_iff. exists a. split; [reflexivity|].
    apply filter_In. split; assumption.
  - intros H r Hr. apply in_map_iff in Hr. destruct Hr as (a & <- & Ha).
    apply filter_In in Ha. destruct Ha as [Ha E1].
    specialize (H a Ha). unfold isValidRun in H. rewrite E1 in H.
    simpl in H. simpl. exact H.
Qed.

(** Either the pool is empty and null comes back, or the filter keeps the
    run at [q1], the fallback is skipped and a number comes back. *)
Lemma estimatePaceFromTraining_cases (now : Z) (Math_pow : Q -> Q -> Q)
    (Math_log : Q -> Q) (acts : list Activity) (target : Q) :
  let pool := validRunsOf now acts in
  let weightedRuns := map weigh pool in
  (pool = [] /\
   estimatePaceFromTraining now Math_pow Math_log acts target
   = Returned None)
  \/
  (pool <> [] /\
   fst (bandOf weightedRuns) <= q1Of weightedRuns /\
   q1Of weightedRuns <= snd (bandOf weightedRuns) /\
   (exists r, In r (iqrFilter weightedRuns)
              /\ runPace (run r) = q1Of weightedRuns) /\
   (length (iqrFilter weightedRuns) =? 0)%nat = false /\
   exists q,
     estimatePaceFromTraining now Math_pow Math_log acts target
     = Returned (Some q)).
Proof.
  intros pool weightedRuns.
  destruct pool as [|r0 rest] eqn:Epool.
  - left. split; [reflexivity|].
    unfold estimatePaceFromTraining. fold pool. rewrite Epool. reflexivity.
  - right. split; [discriminate|].
    assert (Hne : weightedRuns <> []) by (unfold weightedRuns; discriminate).
    destruct (band_contains_q1 _ Hne) as [Hlo Hhi].
    destruct (iqrFilter_keeps_q1 _ Hne) as (r & Hin & Hp).
    assert (Hlen : (length (iqrFilter weightedRuns) =? 0)%nat = false).
    { apply Nat.eqb_neq. intros H0. apply length_zero_iff_nil in H0.
      rewrite H0 in Hin. destruct Hin. }
    repeat split; try assumption.
    + exists r. split; assumption.
    + unfold estimatePaceFromTraining. fold pool. rewrite Epool.
      change (map weigh (r0 :: rest)) with weightedRuns.
      simpl (length (r0 :: rest) =? 0)%nat. cbv iota.
      rewrite Hlen.
      destruct (reduceOrThrow_returns
                  (fun best current =>
                     if JS.ltb (runPace (run current)) (runPace (run best))
                     then current else best)
                  (iqrFilter weightedRuns)) as (b & Eb).
      { intros H0. rewrite H0 in Hin. destruct Hin. }
      rewrite Eb. simpl. eexists. reflexivity.
Qed.


(** C9: either the pool of valid runs is empty and estimatePaceFromTraining
    returns null, or the pool is not empty and then the outlier band
    contains q1, the filter keeps a run whose pace is q1, the fallback that
    re-adds the 5 most recent runs is not taken, and the function returns a
    number: it returns null exactly when the pool is empty, and never
    throws.  The pool is empty exactly when no activity has a distance
    strictly between 1 km and 50 km, a positive moving time and a pace
    strictly between 2.5 and 12 min/km. *)
Theorem C9_iqr_filter_never_empties (now : Z) (Math_pow : Q -> Q -> Q)
    (Math_log : Q -> Q) (acts : list Activity) (target : Q) :
  let pool := validRunsOf now acts in
  let weightedRuns := map weigh pool in
  (pool = [] <-> forall a, In a acts -> isValidRun a = false) /\
  ((pool = [] /\
    estimatePaceFromTraining now Math_pow Math_log acts target
    = Returned None)
   \/
  (pool <> [] /\
   fst (bandOf weightedRuns) <= q1Of weightedRuns /\
   q1Of weightedRuns <= snd (bandOf weightedRuns) /\
   (exists r, In r (iqrFilter weightedRuns)
              /\ runPace (run r) = q1Of weightedRuns) /\
   (length (iqrFilter weightedRuns) =? 0)%nat = false /\
   exists q,
     estimatePaceFromTraining now Math_pow Math_log acts target
     = Returned (Some q))).
Proof.
  intros pool weightedRuns.
  split; [apply pool_empty_iff | apply estimatePaceFromTraining_cases].
Qed.

(** Three runs of 5, 8 and 3 km: the pool is not empty and a pace comes
    back. *)
Lemma C9_iqr_filter_witness :
  let acts := [mkActivity 5000 1500 "Run" 0; mkActivity 8000 2600 "Run" 0;
               mkActivity 3000 1000 "Run" 0] in
  exists q,
    estimatePaceFromTraining 0 (fun _ _ => 1) (fun _ => 0) acts 21.1
    = Returned (Some q).
Proof.
  intros acts.
  destruct (C9_iqr_filter_never_empties 0 (fun _ _ => 1) (fun _ => 0)
              acts 21.1) as [_ [[Hnil _]|(_ & _ & _ & _ & _ & Hq)]].
  - vm_compute in Hnil. discriminate Hnil.
  - exact Hq.
Defined.

Lemma bind_returns {B C : Type} (m : Outcome B) (k : B -> Outcome C) :
  (exists b, m = Returned b) ->
  (forall b, exists c, k b = Returned c) ->
  exists c, bind m k = Returned c.
Proof. intros (b & ->) Hk. apply Hk. Qed.

(** The predictor never throws: both [reduce] calls run on non-empty
    arrays. *)
Lemma calculateDistancePrediction_returns (now : Z) (Math_pow : Q -> Q -> Q)
    (Math_log : Q -> Q) (acts : list Activity) (distanceKm : Q) :
  exists p,
    calculateDistancePrediction now Math_pow Math_log acts distanceKm
    = Returned p.
Proof.
  unfold calculateDistancePrediction.
  set (similarRuns := filter _ acts).
  apply bind_returns.
  - destruct (0 <? length similarRuns)%nat eqn:E.
    + apply bind_returns; [|intros b; eexists; reflexivity].
      apply reduceOrThrow_returns.
      intros H0. rewrite H0 in E. discriminate E.
    + destruct (estimatePaceFromTraining_cases now Math_pow Math_log acts
                  distanceKm) as [[_ Er]|(_ & _ & _ & _ & _ & q & Er)];
        rewrite Er; eexists; reflexivity.
  - intros [q|]; [destruct (Qeq_bool q 0)|]; eexists; reflexivity.
Qed.

Lemma calculateRacePredictions_returns (now : Z) (Math_pow : Q -> Q -> Q)
    (Math_log : Q -> Q) (acts : list Activity) :
  exists ps, calculateRacePredictions now Math_pow Math_log acts = Returned ps.
Proof.
  unfold calculateRacePredictions.
  destruct (length (recentActivitiesOf now acts) <? 5)%nat;
    [eexists; reflexivity|].
  destruct (calculateDistancePrediction_returns now Math_pow Math_log
              (recentActivitiesOf now acts) 5) as (p5 & ->).
  destruct (calculateDistancePrediction_returns now Math_pow Math_log
              (recentActivitiesOf now acts) 10) as (p10 & ->).
  destruct (calculateDistancePrediction_returns now Math_pow Math_log
              (recentActivitiesOf now acts) 21.1) as (pH & ->).
  destruct (calculateDistancePrediction_returns now Math_pow Math_log
              (recentActivitiesOf now acts) 42.2) as (pF & ->).
  cbn [bind].
  destruct (20 <=? length (recentActivitiesOf now acts))%nat;
    eexists; reflexivity.
Qed.

End OutlierFacts.

(** ** Pacing splits (generatePacingStrategy) *)

Section SumFacts.

Lemma Qsum_app (l1 l2 : list Q) : Qsum (l1 ++ l2) == Qsum l1 + Qsum l2.
Proof.
  induction l1 as [|x xs IH]; simpl.
  - ring.
  - rewrite IH. ring.
Qed.

Lemma sumOf_from {A : Type} (f : A -> Q) (l : list A) (a : Q) :
  fold_left (fun sum r => sum + f r) l a == a + Qsum (map f l).
Proof.
  revert a. induction l as [|x xs IH]; intros a; simpl.
  - ring.
  - rewrite IH. ring.
Qed.

Lemma sumOf_Qsum {A : Type} (f : A -> Q) (l : list A) :
  JS.sumOf f l == Qsum (map f l).
Proof. unfold JS.sumOf. rewrite sumOf_from. ring. Qed.

Lemma Qsum_const (c : Q) (l : list Q) :
  (forall x, In x l -> x == c) -> Qsum l == inject_Z (Z.of_nat (length l)) * c.
Proof.
  induction l as [|x xs IH]; intros H.
  - simpl. ring.
  - cbn [Qsum fold_right length]. fold (Qsum xs).
    rewrite IH by (intros y Hy; apply H; right; exact Hy).
    rewrite (H x) by (left; reflexivity).
    rewrite Nat2Z.inj_succ. unfold Z.succ. rewrite inject_Z_plus.
    change (inject_Z 1) with 1. ring.
Qed.

(** A weighted sum lies between the extreme weights times the plain sum. *)
Lemma Qsum_scaled_bounds {A : Type} (w x : A -> Q) (lo hi : Q) (l : list A) :
  (forall i, In i l -> 0 <= x i /\ lo <= w i /\ w i <= hi) ->
  lo * Qsum (map x l) <= Qsum (map (fun i => w i * x i) l) /\
  Qsum (map (fun i => w i * x i) l) <= hi * Qsum (map x l).
Proof.
  induction l as [|i rest IH]; intros H.
  - simpl. split; lra.
  - cbn [map Qsum fold_right].
    fold (Qsum (map x rest)). fold (Qsum (map (fun i => w i * x i) rest)).
    destruct IH as [IHlo IHhi]; [intros j Hj; apply H; right; exact Hj|].
    destruct (H i (or_introl eq_refl)) as (Hx & Hlo & Hhi).
    assert (H1 : lo * x i <= w i * x i)
      by (apply Qmult_le_compat_r; assumption).
    assert (H2 : w i * x i <= hi * x i)
      by (apply Qmult_le_compat_r; assumption).
    split; lra.
Qed.

End SumFacts.

Section PacingFacts.

Import Pacing.

Lemma fold_pushSplit_map {B : Type} (proj : Split.PacingSplit -> B)
    (g : nat -> B) (d p : Q) (s : Strategy) :
  (forall st i,
     map proj (snd (pushSplit d p s st i)) = map proj (snd st) ++ [g i]) ->
  forall l st,
    map proj (snd (fold_left (pushSplit d p s) l st))
    = map proj (snd st) ++ map g l.
Proof.
  intros Hstep. induction l as [|i rest IH]; intros st; simpl.
  - rewrite app_nil_r. reflexivity.
  - rewrite IH, Hstep, <- app_assoc. reflexivity.
Qed.

Lemma pushSplit_distance (d p : Q) (s : Strategy) st i :
  map Split.distance (snd (pushSplit d p s st i))
  = map Split.distance (snd st) ++ [splitDistanceOf d i].
Proof.
  destruct st as [[cd ct] sp]. unfold pushSplit.
  destruct (splitPaceOf d p s i) as [tp note]. simpl.
  rewrite map_app. reflexivity.
Qed.

Lemma pushSplit_time (d p : Q) (s : Strategy) st i :
  map Split.targetTime (snd (pushSplit d p s st i))
  = map Split.targetTime (snd st) ++ [splitTimeOf d p s i].
Proof.
  destruct st as [[cd ct] sp]. unfold pushSplit, splitTimeOf.
  destruct (splitPaceOf d p s i) as [tp note]. simpl.
  rewrite map_app. reflexivity.
Qed.

Lemma splits_unfold (d p : Q) (s : Strategy) :
  splits (generatePacingStrategy d p s)
  = snd (fold_left (pushSplit d p s)
                   (seq 1 (Z.to_nat (JS.Math_ceil d))) (0, 0, [])).
Proof.
  unfold generatePacingStrategy.
  destruct (fold_left _ _ _) as [[cd ct] sp]. reflexivity.
Qed.

Lemma targetTime_unfold (d p : Q) (s : Strategy) :
  targetTime (generatePacingStrategy d p s) = p * d.
Proof.
  unfold generatePacingStrategy.
  destruct (fold_left _ _ _) as [[cd ct] sp]. reflexivity.
Qed.

Lemma splits_distances (d p : Q) (s : Strategy) :
  map Split.distance (splits (generatePacingStrategy d p s))
  = map (splitDistanceOf d) (seq 1 (Z.to_nat (JS.Math_ceil d))).
Proof.
  rewrite splits_unfold.
  rewrite (fold_pushSplit_map _ _ d p s (pushSplit_distance d p s)).
  reflexivity.
Qed.

Lemma splits_times (d p : Q) (s : Strategy) :
  map Split.targetTime (splits (generatePacingStrategy d p s))
  = map (splitTimeOf d p s) (seq 1 (Z.to_nat (JS.Math_ceil d))).
Proof.
  rewrite splits_unfold.
  rewrite (fold_pushSplit_map _ _ d p s (pushSplit_time d p s)).
  reflexivity.
Qed.

Lemma floor_ceil_cases (d : Q) :
  (Qceiling d = Qfloor d /\ d == inject_Z (Qfloor d)) \/
  (Qceiling d = Qfloor d + 1)%Z.
Proof.
  pose proof (Qle_ceiling d) as H1. pose proof (Qceiling_lt d) as H2.
  pose proof (Qfloor_le d) as H3. pose proof (Qlt_floor d) as H4.
  assert (Hlo : (Qfloor d <= Qceiling d)%Z)
    by (rewrite Zle_Qle; lra).
  assert (Hhi : (Qceiling d - 1 < Qfloor d + 1)%Z)
    by (rewrite Zlt_Qlt; lra).
  destruct (Z.eq_dec (Qceiling d) (Qfloor d)) as [E|N].
  - left. split; [exact E|]. rewrite E in H1. lra.
  - right. lia.
Qed.

Lemma splitDistance_whole (d : Q) (i : nat) :
  (Z.of_nat i <= Qfloor d)%Z -> splitDistanceOf d i = 1.
Proof.
  intros H. unfold splitDistanceOf, JS.Math_floor.
  apply Z.leb_le in H. rewrite H. reflexivity.
Qed.

Lemma splitDistance_last (d : Q) (i : nat) :
  0 < d -> (Qfloor d < Z.of_nat i)%Z ->
  splitDistanceOf d i == d - inject_Z (Qfloor d).
Proof.
  intros Hd H. unfold splitDistanceOf, JS.Math_floor.
  apply Z.leb_gt in H. rewrite H.
  unfold JS.rem, JS.trunc.
  assert (E : d / 1 == d) by (field).
  assert (Hlt : JS.ltb (d / 1) 0 = false) by (apply ltb_ge; lra).
  rewrite Hlt, (Qfloor_comp _ _ E). ring.
Qed.

Lemma splitDistance_nonneg (d : Q) (i : nat) :
  0 < d -> 0 <= splitDistanceOf d i.
Proof.
  intros Hd.
  destruct (Z_le_gt_dec (Z.of_nat i) (Qfloor d)) as [H|H].
  - rewrite splitDistance_whole by exact H. lra.
  - rewrite splitDistance_last by (try assumption; lia).
    pose proof (Qfloor_le d). lra.
Qed.

(** The split distances add up to the race distance. *)
Lemma split_distances_sum (d : Q) :
  0 < d ->
  Qsum (map (splitDistanceOf d) (seq 1 (Z.to_nat (JS.Math_ceil d)))) == d.
Proof.
  intros Hd. unfold JS.Math_ceil.
  assert (Hf : (0 <= Qfloor d)%Z).
  { change 0%Z with (Qfloor (inject_Z 0)). apply Qfloor_resp_le.
    change (inject_Z 0) with 0. lra. }
  assert (Hwhole : Qsum (map (splitDistanceOf d)
                             (seq 1 (Z.to_nat (Qfloor d))))
                   == inject_Z (Qfloor d)).
  { rewrite (Qsum_const 1).
    - rewrite length_map, length_seq, Z2Nat.id by exact Hf. ring.
    - intros x Hx. apply in_map_iff in Hx. destruct Hx as (i & <- & Hi).
      apply in_seq in Hi. rewrite splitDistance_whole by lia. reflexivity. }
  destruct (floor_ceil_cases d) as [[E Hint]|E]; rewrite E.
  - rewrite Hwhole. symmetry. exact Hint.
  - rewrite Z2Nat.inj_add by lia. change (Z.to_nat 1) with 1%nat.
    rewrite Nat.add_1_r, seq_S, map_app, Qsum_app, Hwhole.
    cbn [map Qsum fold_right].
    rewrite splitDistance_last by (try assumption; lia). ring.
Qed.

Lemma splitPace_even_short (d p : Q) (i : nat) :
  d < 21.1 -> fst (splitPaceOf d p even i) = p.
Proof.
  intros Hd. unfold splitPaceOf.
  assert (E : JS.geb d 21.1 = false) by (apply leb_gt; exact Hd).
  rewrite E. reflexivity.
Qed.

Lemma progressRatio_le_1 (c : Z) (i : nat) :
  (0 < c)%Z -> (Z.of_nat i <= c)%Z ->
  inject_Z (Z.of_nat i) / inject_Z c <= 1.
Proof.
  intros Hc Hi.
  assert (Hq : 0 < inject_Z c)
    by (change 0 with (inject_Z 0); rewrite <- Zlt_Qlt; exact Hc).
  apply Qle_shift_div_r; [exact Hq|]. rewrite Qmult_1_l.
  rewrite <- Zle_Qle. exact Hi.
Qed.

(** The fatigue factor never exceeds 1 %: a pace boosted by it stays below
    1.01 times the pace. *)
Lemma fatigue_bounds (t r : Q) :
  0 <= t -> 0.75 < r -> r <= 1 ->
  t <= t * (1 + (r - 0.75) * 0.04) /\ t * (1 + (r - 0.75) * 0.04) <= 1.01 * t.
Proof.
  intros Ht Hlo Hhi.
  assert (H1 : 0.75 * t <= r * t) by (apply Qmult_le_compat_r; lra).
  assert (H2 : r * t <= 1 * t) by (apply Qmult_le_compat_r; lra).
  split; lra.
Qed.

(** Every split pace lies between 0.98 and 1.02 x 1.01 times the base
    pace. *)
Lemma splitPace_bounds (d p : Q) (s : Strategy) (i : nat) :
  0 <= p -> (0 < JS.Math_ceil d)%Z -> (Z.of_nat i <= JS.Math_ceil d)%Z ->
  0.98 * p <= fst (splitPaceOf d p s i) /\
  fst (splitPaceOf d p s i) <= 1.0302 * p.
Proof.
  intros Hp Hc Hi. unfold splitPaceOf.
  pose proof (progressRatio_le_1 _ _ Hc Hi) as Hr.
  set (r := inject_Z (Z.of_nat i) / inject_Z (JS.Math_ceil d)) in *.
  assert (Hcase :
            forall (t : Q) (note note' : string),
              0.98 * p <= t -> t <= 1.02 * p ->
              0.98 * p <=
                fst (if JS.geb d 21.1
                     then if JS.gtb r 0.75
                          then (t * (1 + (r - 0.75) * 0.04), note')
                          else (t, note)
                     else (t, note)) /\
              fst (if JS.geb d 21.1
                   then if JS.gtb r 0.75
                        then (t * (1 + (r - 0.75) * 0.04), note')
                        else (t, note)
                   else (t, note)) <= 1.0302 * p).
  { intros t note note' Hlo Hhi.
    destruct (JS.geb d 21.1); [|simpl; split; lra].
    destruct (JS.gtb r 0.75) eqn:Eg; [|simpl; split; lra].
    apply ltb_lt in Eg. cbn [fst].
    assert (Ht : 0 <= t) by lra.
    destruct (fatigue_bounds t r Ht Eg Hr) as [F1 F2]. split; lra. }
  destruct s.
  - apply Hcase; lra.
  - destruct (JS.leb r 0.5); apply Hcase; lra.
  - destruct (JS.leb r 0.5); apply Hcase; lra.
Qed.

Lemma Math_ceil_pos (d : Q) : 0 < d -> (0 < JS.Math_ceil d)%Z.
Proof.
  intros Hd. unfold JS.Math_ceil. rewrite Zlt_Qlt.
  eapply Qlt_le_trans; [exact Hd | apply Qle_ceiling].
Qed.

(** The scenario of the specification: 10 km at 5 min/km, even pacing, gives
    10 splits of 1 km at pace 5 and a target of 50 minutes. *)
Example even_10k_scenario :
  let ps := generatePacingStrategy 10 5 even in
  length (splits ps) = 10%nat /\
  Forall (fun sp => Split.distance sp == 1 /\ Split.targetPace sp == 5)
         (splits ps) /\
  targetTime ps == 50.
Proof.
  split; [reflexivity|]. split; [|reflexivity].
  vm_compute. repeat constructor.
Qed.

(** C5, as stated, fails: a 5 km race at 5 min/km with the negative-split
    strategy has splits of 5.1, 5.1, 4.9, 4.9 and 4.9 minutes, 24.9 minutes
    in all against a target of 25; a marathon with even pacing exceeds its
    target by the fatigue surcharge of the last quarter.  Nothing is rounded
    on the way, and both gaps are above one second. *)
Lemma C5_split_times_counterexample :
  totalSplitTime (generatePacingStrategy 5 5 negative) == 24.9 /\
  targetTime (generatePacingStrategy 5 5 negative) == 25 /\
  targetTime (generatePacingStrategy 42.2 5 even) + (1 # 4)
  < totalSplitTime (generatePacingStrategy 42.2 5 even) /\
  ~ (forall d p s, 0 < d -> 0 < p ->
       Qabs (totalSplitTime (generatePacingStrategy d p s)
             - targetTime (generatePacingStrategy d p s)) <= 1 # 60).
Proof.
  split; [vm_compute; reflexivity|].
  split; [vm_compute; reflexivity|].
  split; [vm_compute; reflexivity|].
  intros H. specialize (H 5 5 negative eq_refl eq_refl).
  vm_compute in H. apply H. reflexivity.
Qed.

(** C5, amended: for a positive race distance and base pace, the split
    distances sum to the race distance for every strategy; the split times
    sum to targetTime = basePace x distance for the even strategy on races
    shorter than 21.1 km; with the negative or positive modulation or the
    fatigue multiplier of the long races the sum of the split times lies
    between 0.98 and 1.0302 (= 1.02 x 1.01) times targetTime. *)
Theorem C5_split_reconstruction (d p : Q) (s : Strategy) :
  0 < d -> 0 < p ->
  let ps := generatePacingStrategy d p s in
  targetTime ps = p * d /\
  totalSplitDistance ps == d /\
  (s = even -> d < 21.1 -> totalSplitTime ps == targetTime ps) /\
  0.98 * targetTime ps <= totalSplitTime ps /\
  totalSplitTime ps <= 1.0302 * targetTime ps.
Proof.
  intros Hd Hp ps.
  assert (HD : totalSplitDistance ps == d).
  { unfold totalSplitDistance, ps.
    rewrite sumOf_Qsum, splits_distances. apply split_distances_sum, Hd. }
  assert (HT : totalSplitTime ps
               == Qsum (map (splitTimeOf d p s)
                            (seq 1 (Z.to_nat (JS.Math_ceil d))))).
  { unfold totalSplitTime, ps. rewrite sumOf_Qsum, splits_times. reflexivity. }
  pose proof (split_distances_sum d Hd) as Hsum.
  pose proof (Math_ceil_pos d Hd) as Hc.
  destruct (Qsum_scaled_bounds
              (fun i => fst (splitPaceOf d p s i)) (splitDistanceOf d)
              (0.98 * p) (1.0302 * p)
              (seq 1 (Z.to_nat (JS.Math_ceil d)))) as [Blo Bhi].
  { intros i Hi. apply in_seq in Hi. split.
    - apply splitDistance_nonneg, Hd.
    - apply splitPace_bounds; [lra | exact Hc | lia]. }
  fold (splitTimeOf d p s) in Blo, Bhi.
  rewrite Hsum in Blo, Bhi. rewrite <- HT in Blo, Bhi.
  assert (Htt : targetTime ps = p * d) by apply targetTime_unfold.
  rewrite Htt.
  split; [reflexivity|]. split; [exact HD|]. split; [|split; lra].
  intros -> Hshort. rewrite HT.
  destruct (Qsum_scaled_bounds
              (fun i => fst (splitPaceOf d p even i)) (splitDistanceOf d)
              p p (seq 1 (Z.to_nat (JS.Math_ceil d)))) as [Elo Ehi].
  { intros i Hi. rewrite splitPace_even_short by exact Hshort. split.
    - apply splitDistance_nonneg, Hd.
    - split; apply Qle_refl. }
  fold (splitTimeOf d p even) in Elo, Ehi.
  rewrite Hsum in Elo, Ehi. apply Qle_antisym; assumption.
Qed.

Lemma C5_split_reconstruction_witness :
  totalSplitDistance (generatePacingStrategy 10 5 even) == 10 /\
  totalSplitTime (generatePacingStrategy 10 5 even) == 50.
Proof.
  destruct (C5_split_reconstruction 10 5 even) as (Ht & Hd & He & _);
    [reflexivity | reflexivity |].
  split; [exact Hd|].
  rewrite He; [rewrite Ht; reflexivity | reflexivity | reflexivity].
Defined.

End PacingFacts.

(** ** Weekly plans (generateWeeklyPlan) *)

Section WeekFacts.

Import TrainingPlan.

Lemma classifyPhase_phase (n W : Z) (b : Q) :
  fst (fst (fst (classifyPhase n W b))) = phaseOf n W.
Proof.
  unfold phaseOf, classifyPhase.
  repeat match goal with
         | |- context [if ?c then _ else _] => destruct c
         end; reflexivity.
Qed.

Lemma phaseOf_taper (n W : Z) :
  phaseOf n W = taper <-> (W - n + 1 <= 2)%Z.
Proof.
  unfold phaseOf, classifyPhase.
  destruct (W - n + 1 <=? 2)%Z eqn:E.
  - apply Z.leb_le in E. simpl. tauto.
  - apply Z.leb_gt in E.
    repeat match goal with
           | |- context [if ?c then _ else _] => destruct c
           end; simpl; split; intros H; try discriminate; lia.
Qed.

Lemma week_workouts (now n W : Z) (b : Q) (m : DetailedTrainingMetrics)
    (rd : RaceDistance) (rpw : nat) (td : option (list nat))
    (prev : option Q) (sd : option Z) :
  workouts (generateWeeklyPlan now n W b m rd rpw td prev sd)
  = weekWorkouts (phaseOf n W) (assignedWeeklyKilometers n W b rd prev)
                 m rd rpw td (W - n + 1 =? 1)%Z.
Proof.
  unfold generateWeeklyPlan, weekWorkouts.
  rewrite <- (classifyPhase_phase n W b).
  destruct (classifyPhase n W b) as [[[ph tg] fo] no]. reflexivity.
Qed.

Lemma week_total (now n W : Z) (b : Q) (m : DetailedTrainingMetrics)
    (rd : RaceDistance) (rpw : nat) (td : option (list nat))
    (prev : option Q) (sd : option Z) :
  totalKilometers (generateWeeklyPlan now n W b m rd rpw td prev sd)
  = JS.round1
      (JS.sumOf distanceOrZero
         (workouts (generateWeeklyPlan now n W b m rd rpw td prev sd))).
Proof.
  unfold generateWeeklyPlan.
  destruct (classifyPhase n W b) as [[[ph tg] fo] no]. reflexivity.
Qed.

Lemma week_number (now n W : Z) (b : Q) (m : DetailedTrainingMetrics)
    (rd : RaceDistance) (rpw : nat) (td : option (list nat))
    (prev : option Q) (sd : option Z) :
  weekNumber (generateWeeklyPlan now n W b m rd rpw td prev sd) = n.
Proof.
  unfold generateWeeklyPlan.
  destruct (classifyPhase n W b) as [[[ph tg] fo] no]. reflexivity.
Qed.

Lemma generateWorkout_distance (ph : Phase) (d : nat) (wk : Q)
    (m : DetailedTrainingMetrics) (rd : RaceDistance) (rpw : nat)
    (td : option (list nat)) :
  distanceOrZero (generateWorkout ph d wk m rd rpw td)
  = dayDistance wk rpw td d.
Proof.
  unfold generateWorkout, dayDistance, distanceOrZero.
  destruct (negb (includes (runDaysOf rpw td) d)); [reflexivity|].
  destruct (d =? longRunDayOf (runDaysOf rpw td))%nat; [reflexivity|].
  destruct (isQualityDayOf rpw td d); [destruct ph|]; reflexivity.
Qed.

Lemma generateWorkout_not_race (ph : Phase) (d : nat) (wk : Q)
    (m : DetailedTrainingMetrics) (rd : RaceDistance) (rpw : nat)
    (td : option (list nat)) :
  type (generateWorkout ph d wk m rd rpw td) <> RaceDay.
Proof.
  unfold generateWorkout.
  destruct (negb (includes (runDaysOf rpw td) d)); [discriminate|].
  destruct (d =? longRunDayOf (runDaysOf rpw td))%nat; [discriminate|].
  destruct (isQualityDayOf rpw td d); [destruct ph|]; discriminate.
Qed.

Lemma generateWorkout_rest (ph : Phase) (d : nat) (wk : Q)
    (m : DetailedTrainingMetrics) (rd : RaceDistance) (rpw : nat)
    (td : option (list nat)) :
  type (generateWorkout ph d wk m rd rpw td) = Rest ->
  distance (generateWorkout ph d wk m rd rpw td) = None.
Proof.
  unfold generateWorkout.
  destruct (negb (includes (runDaysOf rpw td) d)); [reflexivity|].
  destruct (d =? longRunDayOf (runDaysOf rpw td))%nat; [discriminate|].
  destruct (isQualityDayOf rpw td d); [destruct ph|]; discriminate.
Qed.

Lemma weekWorkouts_length (ph : Phase) (wk : Q) (m : DetailedTrainingMetrics)
    (rd : RaceDistance) (rpw : nat) (td : option (list nat)) (race : bool) :
  length (weekWorkouts ph wk m rd rpw td race) = 7%nat.
Proof. destruct race; reflexivity. Qed.

(** *** Tenths *)

Lemma isTenths_comp (x y : Q) : x == y -> isTenths x -> isTenths y.
Proof. intros E [k Hk]. exists k. rewrite <- E. exact Hk. Qed.

Lemma isTenths_0 : isTenths 0.
Proof. exists 0%Z. reflexivity. Qed.

Lemma isTenths_round1 (x : Q) : isTenths (JS.round1 x).
Proof. exists (JS.Math_round (x * 10)). reflexivity. Qed.

Lemma isTenths_plus (x y : Q) : isTenths x -> isTenths y -> isTenths (x + y).
Proof.
  intros [k Hk] [j Hj]. exists (k + j)%Z.
  rewrite Hk, Hj, inject_Z_plus. field.
Qed.

Lemma isTenths_race (rd : RaceDistance) : isTenths (RACE_DISTANCES rd).
Proof.
  destruct rd; [exists 50%Z | exists 100%Z | exists 211%Z | exists 422%Z];
    reflexivity.
Qed.

Lemma isTenths_Qsum (l : list Q) : Forall isTenths l -> isTenths (Qsum l).
Proof.
  induction 1 as [|x xs Hx _ IH]; simpl.
  - apply isTenths_0.
  - apply isTenths_plus; assumption.
Qed.

Lemma round1_of_tenths (x : Q) : isTenths x -> JS.round1 x == x.
Proof.
  intros [k Hk]. rewrite (round1_comp _ _ Hk), Hk. apply round1_tenths.
Qed.

Lemma dayDistance_tenths (wk : Q) (rpw : nat) (td : option (list nat))
    (d : nat) : isTenths (dayDistance wk rpw td d).
Proof.
  unfold dayDistance, otherDayDistance.
  repeat match goal with
         | |- context [if ?c then _ else _] => destruct c
         end; auto using isTenths_0, isTenths_round1.
Qed.

Lemma weekWorkouts_tenths (ph : Phase) (wk : Q) (m : DetailedTrainingMetrics)
    (rd : RaceDistance) (rpw : nat) (td : option (list nat)) (race : bool) :
  Forall isTenths (map distanceOrZero (weekWorkouts ph wk m rd rpw td race)).
Proof.
  unfold weekWorkouts.
  assert (H : forall d, isTenths
                (distanceOrZero (generateWorkout ph d wk m rd rpw td)))
    by (intros d; rewrite generateWorkout_distance; apply dayDistance_tenths).
  destruct race; simpl; repeat constructor; auto.
  apply isTenths_race.
Qed.

End WeekFacts.

(** ** The loop of generateTrainingPlan *)

Section LoopFacts.

Import TrainingPlan.

Variable now : Z.
Variable g : RaceGoal.
Variable m : DetailedTrainingMetrics.
Variable W : Z.

Lemma weeksLoop_S (n : nat) :
  weeksLoop now g m W (S n)
  = weeksLoop now g m W n
    ++ [weekAt now g m W n (previousTotal (weeksLoop now g m W n) n)].
Proof.
  unfold weeksLoop. rewrite seq_S, fold_left_app. simpl.
  unfold pushWeek at 1, weekAt, previousTotal.
  destruct n as [|j]; [reflexivity|].
  replace (S (S j) - 2)%nat with j by lia. reflexivity.
Qed.

Lemma weeksLoop_length (n : nat) : length (weeksLoop now g m W n) = n.
Proof.
  induction n as [|n IH]; [reflexivity|].
  rewrite weeksLoop_S, length_app, IH. simpl. lia.
Qed.

Lemma weeksLoop_prefix (n n' i : nat) :
  (i < n)%nat -> (n <= n')%nat ->
  nth_error (weeksLoop now g m W n') i = nth_error (weeksLoop now g m W n) i.
Proof.
  intros Hi Hn. induction Hn as [|n' Hn IH]; [reflexivity|].
  rewrite weeksLoop_S, nth_error_app1; [exact IH|].
  rewrite weeksLoop_length. lia.
Qed.

(** Week [S i] of the finished plan is the call of generateWeeklyPlan with
    the reported total of week [i] as previous volume. *)
Lemma weeksLoop_nth (n i : nat) :
  (i < n)%nat ->
  nth_error (weeksLoop now g m W n) i
  = Some (weekAt now g m W i (previousTotal (weeksLoop now g m W n) i)).
Proof.
  intros Hi.
  rewrite (weeksLoop_prefix (S i) n i) by lia.
  rewrite weeksLoop_S, nth_error_app2 by (rewrite weeksLoop_length; lia).
  rewrite weeksLoop_length, Nat.sub_diag. simpl.
  f_equal. f_equal. destruct i as [|j]; [reflexivity|]. simpl.
  rewrite (weeksLoop_prefix (S j) n j) by lia. reflexivity.
Qed.

Lemma weeksLoop_In (n : nat) (w : WeeklyPlan) :
  In w (weeksLoop now g m W n) ->
  exists i prev, (i < n)%nat /\ w = weekAt now g m W i prev.
Proof.
  intros Hin. apply In_nth_error in Hin. destruct Hin as (i & Hi).
  assert (Hlt : (i < n)%nat).
  { rewrite <- (weeksLoop_length n). apply nth_error_Some. congruence. }
  rewrite weeksLoop_nth in Hi by exact Hlt.
  exists i, (previousTotal (weeksLoop now g m W n) i).
  split; [exact Hlt | congruence].
Qed.

End LoopFacts.

(** ** The reported weekly total *)

Section TotalFacts.

Import TrainingPlan.

Lemma week_total_is_sum (now n W : Z) (b : Q) (m : DetailedTrainingMetrics)
    (rd : RaceDistance) (rpw : nat) (td : option (list nat))
    (prev : option Q) (sd : option Z) :
  let w := generateWeeklyPlan now n W b m rd rpw td prev sd in
  totalKilometers w == Qsum (map distanceOrZero (workouts w)).
Proof.
  intros w. unfold w. rewrite week_total.
  rewrite (round1_comp _ _ (sumOf_Qsum distanceOrZero _)).
  apply round1_of_tenths, isTenths_Qsum.
  rewrite week_workouts. apply weekWorkouts_tenths.
Qed.

(** C6: every WeeklyPlan that generateWeeklyPlan returns has 7 workouts,
    and its totalKilometers is the sum of their distance fields rounded to
    one decimal, rest days counting 0; that sum is a number of tenths, so the
    total equals it, and it equals no figure (phase target, intermediate
    weekly volume) that differs from the per-day sum. *)
Theorem C6_total_is_sum_of_workouts (now n W : Z) (b : Q)
    (m : DetailedTrainingMetrics) (rd : RaceDistance) (rpw : nat)
    (td : option (list nat)) (prev : option Q) (sd : option Z) :
  let w := generateWeeklyPlan now n W b m rd rpw td prev sd in
  let perDaySum := Qsum (map distanceOrZero (workouts w)) in
  length (workouts w) = 7%nat /\
  totalKilometers w = JS.round1 (JS.sumOf distanceOrZero (workouts w)) /\
  JS.sumOf distanceOrZero (workouts w) == perDaySum /\
  totalKilometers w == perDaySum /\
  (forall x, In x (workouts w) -> type x = Rest -> distanceOrZero x = 0) /\
  (forall figure, ~ figure == perDaySum -> ~ totalKilometers w == figure).
Proof.
  intros w perDaySum.
  pose proof (week_total_is_sum now n W b m rd rpw td prev sd) as Hsum.
  fold w perDaySum in Hsum.
  split; [unfold w; rewrite week_workouts; apply weekWorkouts_length|].
  split; [apply week_total|].
  split; [apply sumOf_Qsum|].
  split; [exact Hsum|].
  split.
  - intros x Hin Hrest. unfold w in Hin. rewrite week_workouts in Hin.
    unfold weekWorkouts in Hin.
    assert (Hgen : forall y,
               In y (map (fun day =>
                            generateWorkout (phaseOf n W) day
                              (assignedWeeklyKilometers n W b rd prev)
                              m rd rpw td) (seq 0 7)) ->
               type y = Rest -> distanceOrZero y = 0).
    { intros y Hy Hr. apply in_map_iff in Hy. destruct Hy as (d & <- & _).
      unfold distanceOrZero. rewrite generateWorkout_rest by exact Hr.
      reflexivity. }
    destruct (W - n + 1 =? 1)%Z; [|apply Hgen; assumption].
    simpl in Hin.
    destruct Hin as [<-|[<-|[<-|[<-|[<-|[<-|[<-|[]]]]]]]];
      try (apply Hgen; [simpl; tauto | exact Hrest]).
    discriminate Hrest.
  - intros figure Hne Heq. apply Hne. rewrite <- Heq. exact Hsum.
Qed.

(** The last week of a 16-week 10K plan: the reported total is 14.0 km, the
    per-day sum with the race, where the volume handed to the split was
    6.0 km. *)
Lemma C6_total_is_sum_witness :
  let m := mkMetrics [] 0 12 5 0
             (paceZones (calculateDetailedMetrics 0 [] 0 5 0 0))
             stable 0 0 0 in
  let w := generateWeeklyPlan 0 16 16 12 m D10K 3 None (Some 8.3) None in
  totalKilometers w == 14 /\ ~ totalKilometers w == 6.
Proof.
  intros m w.
  destruct (C6_total_is_sum_of_workouts 0 16 16 12 m D10K 3 None (Some 8.3)
              None) as (_ & _ & _ & Hsum & _ & Hne).
  fold w in Hsum, Hne. split.
  - rewrite Hsum. vm_compute. reflexivity.
  - apply Hne. vm_compute. discriminate.
Defined.

End TotalFacts.

(** ** The race week *)

Section RaceWeekFacts.

Import TrainingPlan.

Lemma weekWorkouts_race (ph : Phase) (wk : Q) (m : DetailedTrainingMetrics)
    (rd : RaceDistance) (rpw : nat) (td : option (list nat)) :
  weekWorkouts ph wk m rd rpw td true
  = map (fun day => generateWorkout ph day wk m rd rpw td) (seq 0 6)
    ++ [raceDayWorkout rd].
Proof. reflexivity. Qed.

Lemma isRaceDay_generated (ph : Phase) (wk : Q) (m : DetailedTrainingMetrics)
    (rd : RaceDistance) (rpw : nat) (td : option (list nat)) (l : list nat) :
  filter isRaceDay
    (map (fun day => generateWorkout ph day wk m rd rpw td) l) = [].
Proof.
  induction l as [|d l IH]; [reflexivity|]. simpl.
  pose proof (generateWorkout_not_race ph d wk m rd rpw td) as H.
  unfold isRaceDay at 1.
  destruct (type (generateWorkout ph d wk m rd rpw td));
    try exact IH. congruence.
Qed.

Lemma generateWorkout_long (ph : Phase) (d : nat) (wk : Q)
    (m : DetailedTrainingMetrics) (rd : RaceDistance) (rpw : nat)
    (td : option (list nat)) :
  type (generateWorkout ph d wk m rd rpw td) = LongRun <->
  includes (runDaysOf rpw td) d = true /\
  d = longRunDayOf (runDaysOf rpw td).
Proof.
  unfold generateWorkout.
  destruct (includes (runDaysOf rpw td) d); simpl.
  - destruct (d =? longRunDayOf (runDaysOf rpw td))%nat eqn:E.
    + apply Nat.eqb_eq in E. simpl. tauto.
    + apply Nat.eqb_neq in E.
      destruct (isQualityDayOf rpw td d); [destruct ph|]; simpl;
        split; intros H; try discriminate; tauto.
  - split; [discriminate | intros [H _]; discriminate].
Qed.

Lemma includes_In (l : list nat) (d : nat) :
  includes l d = true <-> In d l.
Proof.
  unfold includes. rewrite existsb_exists. split.
  - intros (x & Hx & E). apply Nat.eqb_eq in E. subst. exact Hx.
  - intros H. exists d. split; [exact H | apply Nat.eqb_refl].
Qed.

Lemma runDaysOf_nonempty (rpw : nat) (td : option (list nat)) :
  runDaysOf rpw td <> [].
Proof.
  unfold runDaysOf. destruct td as [[|d ds]|]; try discriminate;
    do 7 (try destruct rpw as [|rpw]); discriminate.
Qed.

Lemma longRunDay_In (rpw : nat) (td : option (list nat)) :
  In (longRunDayOf (runDaysOf rpw td)) (runDaysOf rpw td).
Proof.
  pose proof (runDaysOf_nonempty rpw td) as Hne.
  destruct (exists_last Hne) as (l' & a & E). rewrite E.
  unfold longRunDayOf. rewrite last_last. apply in_or_app. right. left.
  reflexivity.
Qed.

(** The built-in schedules all end on Sunday. *)
Lemma builtin_long_run_on_sunday (rpw : nat) (td : option (list nat)) :
  hasCustomDays td = false -> longRunDayOf (runDaysOf rpw td) = 6%nat.
Proof.
  intros H. unfold runDaysOf. destruct td as [[|d ds]|]; try discriminate;
    do 7 (try destruct rpw as [|rpw]); reflexivity.
Qed.

(** The race week of one call of generateWeeklyPlan. *)
Lemma race_week (now n W : Z) (b : Q) (m : DetailedTrainingMetrics)
    (rd : RaceDistance) (rpw : nat) (td : option (list nat))
    (prev : option Q) (sd : option Z) :
  (W - n + 1 = 1)%Z ->
  let w := generateWeeklyPlan now n W b m rd rpw td prev sd in
  let longDay := longRunDayOf (runDaysOf rpw td) in
  length (workouts w) = 7%nat /\
  length (filter isRaceDay (workouts w)) = 1%nat /\
  nth_error (workouts w) 6 = Some (raceDayWorkout rd) /\
  (forall i x, nth_error (workouts w) i = Some x ->
               type x = LongRun -> i = longDay /\ (longDay < 6)%nat) /\
  (forall x, (longDay < 6)%nat ->
             nth_error (workouts w) longDay = Some x -> type x = LongRun).
Proof.
  intros Hrem w longDay.
  assert (Ew : workouts w
               = map (fun day =>
                        generateWorkout (phaseOf n W) day
                          (assignedWeeklyKilometers n W b rd prev)
                          m rd rpw td) (seq 0 6)
                 ++ [raceDayWorkout rd]).
  { unfold w. rewrite week_workouts.
    replace (W - n + 1 =? 1)%Z with true by (symmetry; apply Z.eqb_eq; lia).
    apply weekWorkouts_race. }
  rewrite Ew.
  split; [reflexivity|].
  split; [rewrite filter_app, isRaceDay_generated; reflexivity|].
  split; [reflexivity|].
  split.
  - intros i x Hnth Hlong.
    do 6 (destruct i as [|i];
          [injection Hnth as <-; apply generateWorkout_long in Hlong;
           destruct Hlong as [_ Hd]; fold longDay in Hd; split; lia|]).
    destruct i as [|i]; [injection Hnth as <-; discriminate Hlong|].
    simpl in Hnth. destruct i; discriminate Hnth.
  - intros x Hlt Hnth.
    pose proof (longRunDay_In rpw td) as Hin. fold longDay in Hin.
    apply includes_In in Hin.
    assert (Hx : x = generateWorkout (phaseOf n W) longDay
                       (assignedWeeklyKilometers n W b rd prev) m rd rpw td).
    { do 6 (destruct longDay as [|longDay];
            [injection Hnth as <-; reflexivity|]). lia. }
    rewrite Hx. apply generateWorkout_long. split; [exact Hin | reflexivity].
Qed.

Lemma plan_In (now : Z) (g : RaceGoal) (m : DetailedTrainingMetrics)
    (ft : option string) (w : WeeklyPlan) :
  let tp := generateTrainingPlan now g m ft in
  In w (plan tp) ->
  exists i prev,
    (Z.of_nat i < weeksUntilRace tp)%Z /\
    w = weekAt now g m (weeksUntilRace tp) i prev.
Proof.
  intros tp Hin. unfold tp, generateTrainingPlan in Hin. simpl in Hin.
  apply weeksLoop_In in Hin. destruct Hin as (i & prev & Hi & Hw).
  exists i, prev. split; [|exact Hw].
  unfold tp, generateTrainingPlan. simpl. lia.
Qed.

(** C2, as stated, fails: with the custom days Monday, Wednesday, Friday the
    designated long-run day of the race week is Friday; the Race Day workout
    is written on Sunday and Friday keeps its Long Run. *)
Lemma C2_race_day_counterexample :
  let tp := generateTrainingPlan 0 fridayGoal plainMetrics None in
  exists w x,
    nth_error (plan tp) 1 = Some w /\
    (weeksUntilRace tp - weekNumber w + 1 = 1)%Z /\
    longRunDayOf (runDaysOf (runsPerWeek fridayGoal)
                            (trainingDays fridayGoal)) = 4%nat /\
    nth_error (workouts w) 4 = Some x /\
    type x = LongRun /\ day x = "Friday"%string /\
    nth_error (workouts w) 6 = Some (raceDayWorkout D10K).
Proof.
  eexists. eexists.
  split; [vm_compute; reflexivity|].
  split; [reflexivity|]. split; [reflexivity|].
  split; [vm_compute; reflexivity|].
  repeat split.
Qed.

(** C2, amended: in the week where weeksRemaining = 1 exactly one of the 7
    workouts has type Race Day, with intensity High and the canonical race
    distance (5, 10, 21.1 or 42.2 km); it stands on Sunday, the last position
    of the week.  It replaces the long run exactly when the run-day list
    ends on Sunday, which every built-in schedule does; a custom list that
    ends on an earlier day keeps its Long Run on that day. *)
Theorem C2_race_week (now : Z) (g : RaceGoal) (m : DetailedTrainingMetrics)
    (ft : option string) (w : WeeklyPlan) :
  let tp := generateTrainingPlan now g m ft in
  let longDay := longRunDayOf (runDaysOf (runsPerWeek g) (trainingDays g)) in
  let race := raceDayWorkout (goalDistance g) in
  In w (plan tp) ->
  (weeksUntilRace tp - weekNumber w + 1 = 1)%Z ->
  length (workouts w) = 7%nat /\
  length (filter isRaceDay (workouts w)) = 1%nat /\
  nth_error (workouts w) 6 = Some race /\
  type race = RaceDay /\ intensity race = High /\
  day race = "Sunday"%string /\
  distance race = Some (RACE_DISTANCES (goalDistance g)) /\
  (RACE_DISTANCES (goalDistance g) = 5 \/
   RACE_DISTANCES (goalDistance g) = 10 \/
   RACE_DISTANCES (goalDistance g) = 21.1 \/
   RACE_DISTANCES (goalDistance g) = 42.2) /\
  (hasCustomDays (trainingDays g) = false -> longDay = 6%nat) /\
  (longDay = 6%nat -> forall x, In x (workouts w) -> type x <> LongRun) /\
  ((longDay < 6)%nat ->
   exists x, nth_error (workouts w) longDay = Some x /\ type x = LongRun).
Proof.
  intros tp longDay race Hin Hrem.
  destruct (plan_In now g m ft w Hin) as (i & prev & Hi & Hw).
  fold tp in Hi, Hw.
  assert (Hn : weekNumber w = Z.of_nat (S i))
    by (rewrite Hw; apply week_number).
  rewrite Hn in Hrem.
  destruct (race_week now (Z.of_nat (S i)) (weeksUntilRace tp)
              (baseWeeklyKilometersOf m (goalDistance g)) m (goalDistance g)
              (runsPerWeek g) (trainingDays g) prev (startDate g) Hrem)
    as (Hlen & Hone & Hsun & Hlong & Hkeep).
  fold (weekAt now g m (weeksUntilRace tp) i prev) in Hlen, Hone, Hsun,
    Hlong, Hkeep.
  rewrite <- Hw in Hlen, Hone, Hsun, Hlong, Hkeep. fold longDay in Hlong, Hkeep.
  split; [exact Hlen|]. split; [exact Hone|]. split; [exact Hsun|].
  split; [reflexivity|]. split; [reflexivity|]. split; [reflexivity|].
  split; [reflexivity|].
  split; [destruct (goalDistance g); simpl; tauto|].
  split; [apply builtin_long_run_on_sunday|].
  split.
  - intros H6 x Hx Hl. apply In_nth_error in Hx. destruct Hx as (j & Hj).
    destruct (Hlong j x Hj Hl) as [_ Hlt]. lia.
  - intros Hlt.
    destruct (nth_error (workouts w) longDay) as [x|] eqn:E.
    + exists x. split; [reflexivity|]. apply Hkeep; [exact Hlt | reflexivity].
    + apply nth_error_None in E. lia.
Qed.

Lemma C2_race_week_witness :
  let tp := generateTrainingPlan 0 fridayGoal plainMetrics None in
  exists w,
    nth_error (plan tp) 1 = Some w /\
    length (filter isRaceDay (workouts w)) = 1%nat /\
    nth_error (workouts w) 6 = Some (raceDayWorkout D10K).
Proof.
  intros tp.
  assert (E : nth_error (plan tp) 1
              = Some (weekAt 0 fridayGoal plainMetrics 2 1 (Some 8.3)))
    by (vm_compute; reflexivity).
  exists (weekAt 0 fridayGoal plainMetrics 2 1 (Some 8.3)).
  split; [exact E|].
  destruct (C2_race_week 0 fridayGoal plainMetrics None
              (weekAt 0 fridayGoal plainMetrics 2 1 (Some 8.3)))
    as (_ & Hone & Hsun & _).
  - fold tp. apply (nth_error_In _ _ E).
  - reflexivity.
  - split; [exact Hone | exact Hsun].
Defined.

End RaceWeekFacts.

(** ** The per-day split and the weekly volume *)

Section SplitFacts.

Import TrainingPlan.

Variable weekKilometers : Q.
Variable rpw : nat.
Variable td : option (list nat).

Let runDays := runDaysOf rpw td.
Let longDay := longRunDayOf runDays.
Let longKm := JS.round1 (weekKilometers * 0.35).
Let otherKm := otherDayDistance weekKilometers runDays.

Lemma dayDistance_class (d : nat) :
  dayDistance weekKilometers rpw td d
  = if isOtherDay rpw td d then otherKm else if isLongDay rpw td d then longKm else 0.
Proof.
  unfold dayDistance, isOtherDay, isLongDay, otherKm, longKm, runDays.
  destruct (includes (runDaysOf rpw td) d); simpl; [|reflexivity].
  destruct (d =? longRunDayOf (runDaysOf rpw td))%nat; reflexivity.
Qed.

Lemma Qsum_by_class (l : list nat) :
  Qsum (map (dayDistance weekKilometers rpw td) l)
  == inject_Z (Z.of_nat (length (filter (isOtherDay rpw td) l))) * otherKm
     + inject_Z (Z.of_nat (length (filter (isLongDay rpw td) l))) * longKm.
Proof.
  induction l as [|d l IH].
  - simpl. ring.
  - cbn [map Qsum fold_right filter].
    fold (Qsum (map (dayDistance weekKilometers rpw td) l)).
    rewrite IH, dayDistance_class.
    assert (Hex : isOtherDay rpw td d = true -> isLongDay rpw td d = false).
    { unfold isOtherDay, isLongDay.
      destruct (includes _ d), (d =? _)%nat; simpl; congruence. }
    destruct (isOtherDay rpw td d) eqn:Eo.
    + rewrite (Hex eq_refl). cbn [length].
      rewrite Nat2Z.inj_succ. unfold Z.succ. rewrite inject_Z_plus.
      change (inject_Z 1) with 1. ring.
    + destruct (isLongDay rpw td d) eqn:El; cbn [length].
      * rewrite Nat2Z.inj_succ. unfold Z.succ. rewrite inject_Z_plus.
        change (inject_Z 1) with 1. ring.
      * ring.
Qed.

Lemma count_classes (l : list nat) :
  (length (filter (isOtherDay rpw td) l) + length (filter (isLongDay rpw td) l)
   <= length l)%nat.
Proof.
  induction l as [|d l IH]; [simpl; lia|].
  cbn [filter length].
  assert (Hex : isOtherDay rpw td d = true -> isLongDay rpw td d = false).
  { unfold isOtherDay, isLongDay.
    destruct (includes _ d), (d =? _)%nat; simpl; congruence. }
  destruct (isOtherDay rpw td d) eqn:Eo.
  - rewrite (Hex eq_refl). simpl. lia.
  - destruct (isLongDay rpw td d); simpl; lia.
Qed.

Lemma count_long (l : list nat) :
  NoDup l -> (length (filter (isLongDay rpw td) l) <= 1)%nat.
Proof.
  intros Hnd.
  change 1%nat with (length [longDay]).
  apply NoDup_incl_length; [apply NoDup_filter, Hnd|].
  intros d Hd. apply filter_In in Hd. destruct Hd as [_ Hd].
  unfold isLongDay in Hd. apply andb_prop in Hd. destruct Hd as [_ Hd].
  apply Nat.eqb_eq in Hd. left. symmetry. exact Hd.
Qed.

(** The other run days are distinct entries of the run-day list before its
    last one. *)
Lemma count_other (l : list nat) :
  NoDup l -> (length (filter (isOtherDay rpw td) l) <= length runDays - 1)%nat.
Proof.
  intros Hnd.
  assert (Hne : runDays <> []) by apply runDaysOf_nonempty.
  pose proof (app_removelast_last 0%nat Hne) as Hsplit.
  assert (Hlen : length (removelast runDays) = (length runDays - 1)%nat).
  { rewrite Hsplit at 2. rewrite length_app. simpl. lia. }
  rewrite <- Hlen.
  apply NoDup_incl_length; [apply NoDup_filter, Hnd|].
  intros d Hd. apply filter_In in Hd. destruct Hd as [_ Hd].
  unfold isOtherDay in Hd. apply andb_prop in Hd. destruct Hd as [Hin Hneq].
  apply includes_In in Hin. fold runDays in Hin.
  rewrite Hsplit in Hin. apply in_app_or in Hin.
  destruct Hin as [Hin|[Heq|[]]]; [exact Hin|].
  apply negb_true_iff, Nat.eqb_neq in Hneq. exfalso. apply Hneq.
  unfold longRunDayOf. fold runDays. symmetry. exact Heq.
Qed.

Hypothesis volume_nonneg : 0 <= weekKilometers.

Lemma longKm_bounds : 0 <= longKm /\ longKm <= weekKilometers * 0.35 + 0.05.
Proof.
  unfold longKm. split; [apply round1_nonneg; lra | apply round1_upper].
Qed.

Lemma otherKm_nonneg : 0 <= otherKm.
Proof.
  unfold otherKm, otherDayDistance.
  destruct (0 <? length runDays - 1)%nat eqn:E; [|apply Qle_refl].
  apply Nat.ltb_lt in E. apply round1_nonneg.
  apply Qle_shift_div_l.
  - change 0 with (inject_Z 0). rewrite <- Zlt_Qlt. lia.
  - lra.
Qed.

(** Spread over at most [length runDays - 1] days, the other runs add up to
    at most the kilometres left after the long run, plus one rounding step
    per day. *)
Lemma other_days_bound (c : nat) :
  (c <= length runDays - 1)%nat ->
  inject_Z (Z.of_nat c) * otherKm
  <= weekKilometers * 0.65 + 0.05 * inject_Z (Z.of_nat c).
Proof.
  intros Hc. unfold otherKm, otherDayDistance.
  assert (Hc0 : 0 <= inject_Z (Z.of_nat c))
    by (change 0 with (inject_Z 0); rewrite <- Zle_Qle; lia).
  destruct (0 <? length runDays - 1)%nat eqn:E.
  - apply Nat.ltb_lt in E.
    set (k := inject_Z (Z.of_nat (length runDays - 1))).
    assert (Hk : 0 < k)
      by (unfold k; change 0 with (inject_Z 0); rewrite <- Zlt_Qlt; lia).
    assert (Hck : inject_Z (Z.of_nat c) <= k)
      by (unfold k; rewrite <- Zle_Qle; lia).
    set (x := (weekKilometers - weekKilometers * 0.35) / k).
    assert (Hx : 0 <= x) by (unfold x; apply Qle_shift_div_l; lra).
    assert (Hkx : k * x == weekKilometers * 0.65)
      by (unfold x; field; lra).
    pose proof (round1_upper x) as Hr.
    assert (H1 : inject_Z (Z.of_nat c) * JS.round1 x
                 <= inject_Z (Z.of_nat c) * (x + 0.05)).
    { rewrite !(Qmult_comm (inject_Z (Z.of_nat c))).
      apply Qmult_le_compat_r; assumption. }
    assert (H2 : inject_Z (Z.of_nat c) * x <= k * x)
      by (apply Qmult_le_compat_r; assumption).
    lra.
  - lra.
Qed.

(** The seven generated distances exceed the week volume by at most 0.05 km
    per run day. *)
Lemma split_sum_upper :
  Qsum (map (dayDistance weekKilometers rpw td) (seq 0 7))
  <= weekKilometers + 0.35.
Proof.
  rewrite Qsum_by_class.
  pose proof (count_classes (seq 0 7)) as Hall. rewrite length_seq in Hall.
  pose proof (count_long (seq 0 7) (seq_NoDup 7 0)) as Hl.
  pose proof (count_other (seq 0 7) (seq_NoDup 7 0)) as Ho.
  pose proof (other_days_bound _ Ho) as Hb.
  destruct longKm_bounds as [Hl0 Hl1].
  set (cO := length (filter (isOtherDay rpw td) (seq 0 7))) in *.
  set (cL := length (filter (isLongDay rpw td) (seq 0 7))) in *.
  assert (HcO : inject_Z (Z.of_nat cO) + inject_Z (Z.of_nat cL) <= 7).
  { rewrite <- inject_Z_plus. change 7 with (inject_Z 7).
    rewrite <- Zle_Qle. lia. }
  destruct cL as [|[|cL]]; [| |lia].
  - change (inject_Z (Z.of_nat 0)) with 0 in *. lra.
  - change (inject_Z (Z.of_nat 1)) with 1 in *. lra.
Qed.

Lemma split_sum_nonneg (l : list nat) :
  0 <= Qsum (map (dayDistance weekKilometers rpw td) l).
Proof.
  induction l as [|d l IH]; [apply Qle_refl|].
  cbn [map Qsum fold_right].
  fold (Qsum (map (dayDistance weekKilometers rpw td) l)).
  rewrite dayDistance_class.
  pose proof otherKm_nonneg. destruct longKm_bounds as [Hl0 _].
  destruct (isOtherDay rpw td d); [lra|]. destruct (isLongDay rpw td d); lra.
Qed.

End SplitFacts.

(** ** Week-to-week progression *)

Section ProgressionFacts.

Import TrainingPlan.

Lemma maxWeeklyKm_pos (rd : RaceDistance) : 0 < maxWeeklyKm rd.
Proof. destruct rd; reflexivity. Qed.

Lemma assigned_nonneg (n W : Z) (b : Q) (rd : RaceDistance)
    (prev : option Q) :
  0 <= b -> (forall p, prev = Some p -> 0 <= p) ->
  0 <= assignedWeeklyKilometers n W b rd prev.
Proof.
  intros Hb Hprev.
  assert (Hp : 0 <= match prev with Some p => p | None => 0 end)
    by (destruct prev as [p|]; [apply Hprev; reflexivity | apply Qle_refl]).
  pose proof (maxWeeklyKm_pos rd) as Hcap.
  unfold assignedWeeklyKilometers, classifyPhase.
  repeat match goal with
         | |- context [if ?c then _ else _] => destruct c
         end; cbn [fst snd]; apply round1_nonneg;
    try (apply Math_min_glb); lra.
Qed.

(** A week after the first that is neither a recovery week nor in the taper
    is assigned the previous total plus 10 %, capped, rounded to one
    decimal. *)
Lemma assigned_normal (n W : Z) (b p : Q) (rd : RaceDistance) :
  ~ p == 0 -> isRecoveryWeek n W = false -> (2 < W - n + 1)%Z ->
  assignedWeeklyKilometers n W b rd (Some p)
  = JS.round1 (JS.Math_min (p * 1.10) (maxWeeklyKm rd)).
Proof.
  intros Hp Hrec Hrem.
  apply truthy_Some in Hp.
  unfold assignedWeeklyKilometers. rewrite Hrec, Hp. cbn [andb].
  pose proof (proj1 (phaseOf_taper n W)) as Htaper.
  rewrite <- (classifyPhase_phase n W b) in Htaper.
  destruct (classifyPhase n W b) as [[[ph tg] fo] no]. cbn [fst] in Htaper.
  destruct ph; try reflexivity. specialize (Htaper eq_refl). lia.
Qed.

Lemma week_distances (now n W : Z) (b : Q) (m : DetailedTrainingMetrics)
    (rd : RaceDistance) (rpw : nat) (td : option (list nat))
    (prev : option Q) (sd : option Z) :
  (W - n + 1 <> 1)%Z ->
  map distanceOrZero
      (workouts (generateWeeklyPlan now n W b m rd rpw td prev sd))
  = map (dayDistance (assignedWeeklyKilometers n W b rd prev) rpw td)
        (seq 0 7).
Proof.
  intros Hrem. rewrite week_workouts. unfold weekWorkouts.
  replace (W - n + 1 =? 1)%Z with false
    by (symmetry; apply Z.eqb_neq; exact Hrem).
  rewrite map_map. apply map_ext. intros d. apply generateWorkout_distance.
Qed.

(** Outside the race week the reported total exceeds the assigned volume by
    at most 0.35 km. *)
Lemma week_total_upper (now n W : Z) (b : Q) (m : DetailedTrainingMetrics)
    (rd : RaceDistance) (rpw : nat) (td : option (list nat))
    (prev : option Q) (sd : option Z) :
  (W - n + 1 <> 1)%Z ->
  0 <= assignedWeeklyKilometers n W b rd prev ->
  totalKilometers (generateWeeklyPlan now n W b m rd rpw td prev sd)
  <= assignedWeeklyKilometers n W b rd prev + 0.35.
Proof.
  intros Hrem Hwk.
  rewrite (week_total_is_sum now n W b m rd rpw td prev sd).
  rewrite week_distances by exact Hrem.
  apply split_sum_upper. exact Hwk.
Qed.

Lemma week_total_nonneg (now n W : Z) (b : Q) (m : DetailedTrainingMetrics)
    (rd : RaceDistance) (rpw : nat) (td : option (list nat))
    (prev : option Q) (sd : option Z) :
  0 <= assignedWeeklyKilometers n W b rd prev ->
  0 <= totalKilometers (generateWeeklyPlan now n W b m rd rpw td prev sd).
Proof.
  intros Hwk.
  rewrite (week_total_is_sum now n W b m rd rpw td prev sd).
  rewrite week_workouts. unfold weekWorkouts.
  destruct (W - n + 1 =? 1)%Z.
  - change (JS.setAt 6 (raceDayWorkout rd)
              (map (fun day =>
                      generateWorkout (phaseOf n W) day
                        (assignedWeeklyKilometers n W b rd prev) m rd rpw td)
                   (seq 0 7)))
      with (map (fun day =>
                   generateWorkout (phaseOf n W) day
                     (assignedWeeklyKilometers n W b rd prev) m rd rpw td)
                (seq 0 6) ++ [raceDayWorkout rd]).
    rewrite map_app, Qsum_app, map_map.
    rewrite (map_ext _ (dayDistance (assignedWeeklyKilometers n W b rd prev)
                                    rpw td)
               (fun d => generateWorkout_distance _ d _ m rd rpw td)).
    pose proof (split_sum_nonneg _ rpw td Hwk (seq 0 6)) as H6.
    assert (Hr : 0 <= RACE_DISTANCES rd) by (destruct rd; discriminate).
    change (Qsum (map distanceOrZero [raceDayWorkout rd]))
      with (RACE_DISTANCES rd + 0).
    lra.
  - rewrite map_map.
    rewrite (map_ext _ (dayDistance (assignedWeeklyKilometers n W b rd prev)
                                    rpw td)
               (fun d => generateWorkout_distance _ d _ m rd rpw td)).
    apply split_sum_nonneg. exact Hwk.
Qed.

Lemma baseWeeklyKilometersOf_bounds (m : DetailedTrainingMetrics)
    (rd : RaceDistance) :
  10 <= baseWeeklyKilometersOf m rd /\
  baseWeeklyKilometersOf m rd <= reasonableMax rd.
Proof.
  unfold baseWeeklyKilometersOf.
  destruct (JS.ltb (weeklyKilometers m) 10) eqn:E10.
  - destruct (JS.gtb 12 (reasonableMax rd)) eqn:Emax.
    + destruct rd; vm_compute in Emax; discriminate.
    + apply ltb_ge in Emax. split; [lra | exact Emax].
  - apply ltb_ge in E10.
    destruct (JS.gtb (weeklyKilometers m) (reasonableMax rd)) eqn:Emax.
    + split; [destruct rd; discriminate | apply Qle_refl].
    + apply ltb_ge in Emax. split; assumption.
Qed.

End ProgressionFacts.

Section PlanProgression.

Import TrainingPlan.

Lemma plan_totals_nonneg (now : Z) (g : RaceGoal)
    (m : DetailedTrainingMetrics) (W : Z) (n : nat) :
  forall i w, nth_error (weeksLoop now g m W n) i = Some w ->
              0 <= totalKilometers w.
Proof.
  induction i as [i IH] using lt_wf_ind. intros w Hw.
  assert (Hlt : (i < n)%nat).
  { rewrite <- (weeksLoop_length now g m W n). apply nth_error_Some.
    congruence. }
  rewrite weeksLoop_nth in Hw by exact Hlt. injection Hw as <-.
  unfold weekAt. apply week_total_nonneg, assigned_nonneg.
  - destruct (baseWeeklyKilometersOf_bounds m (goalDistance g)). lra.
  - intros p Hp. destruct i as [|j]; [discriminate|]. simpl in Hp.
    destruct (nth_error (weeksLoop now g m W n) j) as [wj|] eqn:Ej;
      [|discriminate].
    injection Hp as <-. apply (IH j); [lia | exact Ej].
Qed.

Lemma plan_unfold (now : Z) (g : RaceGoal) (m : DetailedTrainingMetrics)
    (ft : option string) :
  let W := getWeeksUntilRace now (date g) (startDate g) in
  weeksUntilRace (generateTrainingPlan now g m ft) = W /\
  plan (generateTrainingPlan now g m ft) = weeksLoop now g m W (Z.to_nat W).
Proof. split; reflexivity. Qed.

(** Two consecutive weeks of a plan: the later one is generated from the
    reported total of the earlier one. *)
Lemma plan_consecutive (now : Z) (g : RaceGoal) (m : DetailedTrainingMetrics)
    (ft : option string) (i : nat) (prevWeek week : WeeklyPlan) :
  let tp := generateTrainingPlan now g m ft in
  nth_error (plan tp) i = Some prevWeek ->
  nth_error (plan tp) (S i) = Some week ->
  week = weekAt now g m (weeksUntilRace tp) (S i)
                (Some (totalKilometers prevWeek)) /\
  0 <= totalKilometers prevWeek.
Proof.
  intros tp Hp Hw. unfold tp in *.
  destruct (plan_unfold now g m ft) as [EW Eplan].
  rewrite Eplan in Hp, Hw. rewrite EW. clear EW Eplan.
  set (W := getWeeksUntilRace now (date g) (startDate g)) in *.
  split; [|apply (plan_totals_nonneg _ _ _ _ _ _ _ Hp)].
  assert (Hlt : (S i < Z.to_nat W)%nat).
  { rewrite <- (weeksLoop_length now g m W (Z.to_nat W)).
    apply nth_error_Some. congruence. }
  rewrite weeksLoop_nth in Hw by exact Hlt. injection Hw as <-.
  simpl. rewrite Hp. reflexivity.
Qed.

(** C3, as stated, fails.  In the 18-week 10K plan on 5 runs a week from
    50 km/week, week 15 follows a 64.1 km week, is neither a recovery nor a
    taper week, and reports 65.2 km, above the 65 km cap.  In the 8-week plan
    on 7 runs a week, week 5 follows a 40.7 km week and reports 45.1 km,
    0.33 km above 40.7 x 1.10 = 44.77. *)
Lemma C3_progression_counterexample :
  let capped := generateTrainingPlan 0 (tenKGoal 18 5)
                                     (metricsWithVolume 50) None in
  let daily := generateTrainingPlan 0 (tenKGoal 8 7)
                                    (metricsWithVolume 50) None in
  (exists w14 w15,
      nth_error (plan capped) 13 = Some w14 /\
      nth_error (plan capped) 14 = Some w15 /\
      isRecoveryWeek (weekNumber w15) (weeksUntilRace capped) = false /\
      (2 < weeksUntilRace capped - weekNumber w15 + 1)%Z /\
      totalKilometers w14 == 64.1 /\
      totalKilometers w15 == 65.2 /\
      maxWeeklyKm D10K < totalKilometers w15) /\
  (exists w4 w5,
      nth_error (plan daily) 3 = Some w4 /\
      nth_error (plan daily) 4 = Some w5 /\
      isRecoveryWeek (weekNumber w5) (weeksUntilRace daily) = false /\
      (2 < weeksUntilRace daily - weekNumber w5 + 1)%Z /\
      totalKilometers w4 == 40.7 /\
      totalKilometers w5 == 45.1 /\
      totalKilometers w4 * 1.10 + 0.3 < totalKilometers w5).
Proof.
  split.
  - eexists. eexists.
    split; [vm_compute; reflexivity|].
    split; [vm_compute; reflexivity|].
    repeat split; vm_compute; reflexivity.
  - eexists. eexists.
    split; [vm_compute; reflexivity|].
    split; [vm_compute; reflexivity|].
    repeat split; vm_compute; reflexivity.
Qed.

(** C3, amended: for consecutive weeks n-1, n of a generated plan where
    week n is neither a recovery week nor a taper week and week n-1 reported
    a non-zero total, the volume assigned to week n is
    min(previous total x 1.10, cap) rounded to one decimal, with the caps
    45/65/85/110 km, and the reported total, the sum of the rounded
    per-day distances, exceeds that volume by at most 0.35 km: it is at most
    previous total x 1.10 + 0.4 km and at most cap + 0.4 km. *)
Theorem C3_progression_ceiling (now : Z) (g : RaceGoal)
    (m : DetailedTrainingMetrics) (ft : option string) (i : nat)
    (prevWeek week : WeeklyPlan) :
  let tp := generateTrainingPlan now g m ft in
  let cap := maxWeeklyKm (goalDistance g) in
  let volume :=
    assignedWeeklyKilometers (weekNumber week) (weeksUntilRace tp)
      (baseWeeklyKilometersOf m (goalDistance g)) (goalDistance g)
      (Some (totalKilometers prevWeek)) in
  nth_error (plan tp) i = Some prevWeek ->
  nth_error (plan tp) (S i) = Some week ->
  isRecoveryWeek (weekNumber week) (weeksUntilRace tp) = false ->
  (2 < weeksUntilRace tp - weekNumber week + 1)%Z ->
  ~ totalKilometers prevWeek == 0 ->
  (cap = 45 \/ cap = 65 \/ cap = 85 \/ cap = 110) /\
  volume = JS.round1 (JS.Math_min (totalKilometers prevWeek * 1.10) cap) /\
  totalKilometers week <= volume + 0.35 /\
  totalKilometers week <= totalKilometers prevWeek * 1.10 + 0.4 /\
  totalKilometers week <= cap + 0.4.
Proof.
  intros tp cap volume Hp Hw Hrec Hrem Hdef.
  destruct (plan_consecutive now g m ft i prevWeek week Hp Hw) as [Ew Hnn].
  fold tp in Ew.
  assert (Hn : weekNumber week = Z.of_nat (S (S i)))
    by (rewrite Ew; apply week_number).
  assert (Hvol : volume
                 = JS.round1 (JS.Math_min (totalKilometers prevWeek * 1.10)
                                          cap)).
  { unfold volume. apply assigned_normal; assumption. }
  assert (Hv0 : 0 <= volume).
  { unfold volume. apply assigned_nonneg.
    - destruct (baseWeeklyKilometersOf_bounds m (goalDistance g)). lra.
    - intros p Hp'. injection Hp' as <-. exact Hnn. }
  assert (Htot : totalKilometers week <= volume + 0.35).
  { rewrite Ew at 1. unfold weekAt, volume. rewrite Hn.
    apply week_total_upper; [lia|]. fold volume in Hv0.
    unfold volume in Hv0. rewrite Hn in Hv0. exact Hv0. }
  pose proof (round1_upper
                (JS.Math_min (totalKilometers prevWeek * 1.10) cap)) as Hr.
  rewrite <- Hvol in Hr.
  pose proof (Math_min_le_l (totalKilometers prevWeek * 1.10) cap) as Hl.
  pose proof (Math_min_le_r (totalKilometers prevWeek * 1.10) cap) as Hc.
  split; [unfold cap; destruct (goalDistance g); simpl; tauto|].
  split; [exact Hvol|]. split; [exact Htot|]. split; lra.
Qed.

Lemma C3_progression_ceiling_witness :
  let tp := generateTrainingPlan 0 (tenKGoal 8 7) (metricsWithVolume 50) None in
  exists w4 w5,
    nth_error (plan tp) 3 = Some w4 /\
    nth_error (plan tp) 4 = Some w5 /\
    totalKilometers w5 <= totalKilometers w4 * 1.10 + 0.4.
Proof.
  intros tp.
  destruct (nth_error (plan tp) 3) as [w4|] eqn:E4;
    [|vm_compute in E4; discriminate E4].
  destruct (nth_error (plan tp) 4) as [w5|] eqn:E5;
    [|vm_compute in E5; discriminate E5].
  exists w4, w5. split; [reflexivity|]. split; [reflexivity|].
  destruct (C3_progression_ceiling 0 (tenKGoal 8 7) (metricsWithVolume 50)
              None 3 w4 w5 E4 E5) as (_ & _ & _ & H & _).
  - vm_compute in E5. injection E5 as <-. reflexivity.
  - vm_compute in E5. injection E5 as <-. reflexivity.
  - vm_compute in E4. injection E4 as <-. discriminate.
  - exact H.
Defined.

End PlanProgression.

(** ** The first two weeks of a 16-week 10K plan from 12 km/week *)

Section FirstWeeksFacts.

Import TrainingPlan.

Lemma sumOf_map {A : Type} (f : A -> Q) (l : list A) :
  JS.sumOf f l = JS.sumOf (fun x => x) (map f l).
Proof.
  unfold JS.sumOf. generalize 0.
  induction l as [|x xs IH]; intros a; simpl; [reflexivity | apply IH].
Qed.

(** Outside the race week the total is a function of the assigned volume
    and the run days alone. *)
Lemma week_total_days (now n W : Z) (b : Q) (m : DetailedTrainingMetrics)
    (rd : RaceDistance) (rpw : nat) (td : option (list nat))
    (prev : option Q) (sd : option Z) :
  (W - n + 1 <> 1)%Z ->
  totalKilometers (generateWeeklyPlan now n W b m rd rpw td prev sd)
  = JS.round1
      (JS.sumOf (fun x => x)
         (map (dayDistance (assignedWeeklyKilometers n W b rd prev) rpw td)
              (seq 0 7))).
Proof.
  intros Hrem. rewrite week_total, sumOf_map, week_distances by exact Hrem.
  reflexivity.
Qed.

(** The first week, outside the taper, is assigned 80 % of the base,
    rounded to one decimal. *)
Lemma assigned_first (n W : Z) (b : Q) (rd : RaceDistance) :
  (2 < W - n + 1)%Z ->
  assignedWeeklyKilometers n W b rd None = JS.round1 (b * 0.80).
Proof.
  intros Hrem. unfold assignedWeeklyKilometers. cbn [JS.truthy].
  rewrite andb_false_r.
  pose proof (proj1 (phaseOf_taper n W)) as Htaper.
  rewrite <- (classifyPhase_phase n W b) in Htaper.
  destruct (classifyPhase n W b) as [[[ph tg] fo] no]. cbn [fst] in Htaper.
  destruct ph; try reflexivity. specialize (Htaper eq_refl). lia.
Qed.

Lemma base_of_12 (m : DetailedTrainingMetrics) :
  weeklyKilometers m == 12 -> baseWeeklyKilometersOf m D10K == 12.
Proof.
  intros H. unfold baseWeeklyKilometersOf.
  assert (E1 : JS.ltb (weeklyKilometers m) 10 = false)
    by (apply ltb_ge; rewrite H; discriminate).
  rewrite E1.
  assert (E2 : JS.gtb (weeklyKilometers m) (reasonableMax D10K) = false)
    by (apply ltb_ge; rewrite H; discriminate).
  rewrite E2. exact H.
Qed.

Lemma tenths_not_10_56 (q : Q) : isTenths q -> ~ q == 10.56.
Proof.
  intros [k Hk] H. rewrite Hk in H.
  unfold Qeq in H. simpl in H. lia.
Qed.

(** C8, as stated, fails: on the built-in schedule for 3 runs a week the
    16-week 10K plan from 12 km/week reports 9.6 km for week 1 and 10.5 km
    for week 2, not 10.56; on 4 runs a week it reports 9.7 km for week 1. *)
Lemma C8_first_weeks_counterexample :
  let three := generateTrainingPlan 0 (tenKGoal 16 3)
                                    (metricsWithVolume 12) None in
  let four := generateTrainingPlan 0 (tenKGoal 16 4)
                                   (metricsWithVolume 12) None in
  weeksUntilRace three = 16%Z /\
  (exists w1 w2,
      nth_error (plan three) 0 = Some w1 /\
      nth_error (plan three) 1 = Some w2 /\
      totalKilometers w1 == 9.6 /\
      totalKilometers w2 == 10.5 /\
      ~ totalKilometers w2 == 10.56) /\
  (exists w1,
      nth_error (plan four) 0 = Some w1 /\
      totalKilometers w1 == 9.7 /\
      ~ totalKilometers w1 == 9.6).
Proof.
  split; [vm_compute; reflexivity|]. split.
  - eexists. eexists.
    split; [vm_compute; reflexivity|].
    split; [vm_compute; reflexivity|].
    split; [vm_compute; reflexivity|].
    split; [vm_compute; reflexivity|].
    vm_compute. discriminate.
  - eexists.
    split; [vm_compute; reflexivity|].
    split; [vm_compute; reflexivity|].
    vm_compute. discriminate.
Qed.

(** C8, amended: in a 16-week 10K plan from a base of 12 km/week, week 1
    is assigned 12 x 0.8 = 9.6 km and week 2, neither a recovery nor a taper
    week, is assigned min(week-1 total x 1.10, 65) rounded to one decimal.
    The totalKilometers reported are the sums of the rounded per-day
    distances: week 1 reports at most 9.95 km, week 2 never reports 10.56 km,
    and on the built-in schedule for 3 runs a week the two weeks report 9.6
    and 10.5 km, week 2 being assigned 10.6 km. *)
Theorem C8_first_two_weeks (now : Z) (g : RaceGoal)
    (m : DetailedTrainingMetrics) (ft : option string) :
  let tp := generateTrainingPlan now g m ft in
  let b := baseWeeklyKilometersOf m D10K in
  weeksUntilRace tp = 16%Z ->
  goalDistance g = D10K ->
  weeklyKilometers m == 12 ->
  exists w1 w2,
    nth_error (plan tp) 0 = Some w1 /\
    nth_error (plan tp) 1 = Some w2 /\
    b == 12 /\
    assignedWeeklyKilometers 1 16 b D10K None == 9.6 /\
    totalKilometers w1 <= 9.6 + 0.35 /\
    isRecoveryWeek 2 16 = false /\
    (~ totalKilometers w1 == 0 ->
     assignedWeeklyKilometers 2 16 b D10K (Some (totalKilometers w1))
     = JS.round1 (JS.Math_min (totalKilometers w1 * 1.10) 65)) /\
    ~ totalKilometers w2 == 10.56 /\
    (hasCustomDays (trainingDays g) = false -> runsPerWeek g = 3%nat ->
     totalKilometers w1 == 9.6 /\
     assignedWeeklyKilometers 2 16 b D10K (Some (totalKilometers w1)) == 10.6 /\
     totalKilometers w2 == 10.5).
Proof.
  intros tp b HW Hd Hkm.
  destruct (plan_unfold now g m ft) as [EW Eplan].
  fold tp in EW, Eplan. rewrite EW in HW. rewrite HW in Eplan.
  change (Z.to_nat 16) with 16%nat in Eplan.
  pose proof (weeksLoop_nth now g m 16 16 0 ltac:(lia)) as E1.
  pose proof (weeksLoop_nth now g m 16 16 1 ltac:(lia)) as E2.
  cbn [previousTotal] in E1, E2. rewrite E1 in E2. cbn [option_map] in E2.
  rewrite <- Eplan in E1, E2.
  set (w1 := weekAt now g m 16 0 None) in *.
  set (w2 := weekAt now g m 16 1 (Some (totalKilometers w1))) in *.
  exists w1, w2.
  pose proof (base_of_12 m Hkm) as Hb. fold b in Hb.
  assert (Ha1 : assignedWeeklyKilometers 1 16 b D10K None
                = JS.round1 (12 * 0.80)).
  { rewrite assigned_first by lia. apply round1_comp. rewrite Hb.
    reflexivity. }
  assert (Ht1 : totalKilometers w1
                = JS.round1
                    (JS.sumOf (fun x => x)
                       (map (dayDistance (JS.round1 (12 * 0.80))
                               (runsPerWeek g) (trainingDays g))
                            (seq 0 7)))).
  { unfold w1, weekAt. rewrite Hd. fold b.
    rewrite week_total_days by (simpl; lia).
    change (Z.of_nat 1) with 1%Z. rewrite Ha1. reflexivity. }
  assert (Ht2 : totalKilometers w2
                = JS.round1
                    (JS.sumOf (fun x => x)
                       (map (dayDistance
                               (assignedWeeklyKilometers 2 16 b D10K
                                  (Some (totalKilometers w1)))
                               (runsPerWeek g) (trainingDays g))
                            (seq 0 7)))).
  { unfold w2, weekAt. rewrite Hd. fold b.
    rewrite week_total_days by (simpl; lia). reflexivity. }
  split; [exact E1|]. split; [exact E2|]. split; [exact Hb|].
  split; [rewrite Ha1; vm_compute; reflexivity|].
  split.
  { assert (Hup : totalKilometers w1
                  <= assignedWeeklyKilometers 1 16 b D10K None + 0.35).
    { unfold w1, weekAt. rewrite Hd. fold b. change (Z.of_nat 1) with 1%Z.
      apply week_total_upper; [lia|]. rewrite Ha1. vm_compute. discriminate. }
    rewrite Ha1 in Hup.
    assert (E96 : JS.round1 (12 * 0.80) == 9.6) by (vm_compute; reflexivity).
    rewrite E96 in Hup. exact Hup. }
  split; [reflexivity|].
  split; [intros Hne; apply assigned_normal; [exact Hne | reflexivity | lia]|].
  split; [apply tenths_not_10_56; rewrite Ht2; apply isTenths_round1|].
  intros Hcustom Hruns.
  assert (Hdays : forall wk d,
             dayDistance wk (runsPerWeek g) (trainingDays g) d
             = dayDistance wk 3 None d).
  { intros wk d. unfold dayDistance. rewrite Hruns.
    destruct (trainingDays g) as [[|x xs]|]; try reflexivity.
    discriminate Hcustom. }
  assert (Hv1 : totalKilometers w1 = JS.round1 (48 # 5)).
  { rewrite Ht1. rewrite (map_ext _ _ (Hdays _)). vm_compute. reflexivity. }
  assert (Hv2 : assignedWeeklyKilometers 2 16 b D10K
                  (Some (totalKilometers w1))
                = JS.round1 (53 # 5)).
  { rewrite assigned_normal; [| |reflexivity|lia].
    - rewrite Hv1. vm_compute. reflexivity.
    - rewrite Hv1. vm_compute. discriminate. }
  split; [rewrite Hv1; vm_compute; reflexivity|].
  split; [rewrite Hv2; vm_compute; reflexivity|].
  rewrite Ht2, Hv2, (map_ext _ _ (Hdays _)). vm_compute. reflexivity.
Qed.

Lemma C8_first_two_weeks_witness :
  let tp := generateTrainingPlan 0 (tenKGoal 16 3) (metricsWithVolume 12) None in
  exists w1 w2,
    nth_error (plan tp) 0 = Some w1 /\
    nth_error (plan tp) 1 = Some w2 /\
    totalKilometers w1 == 9.6 /\ totalKilometers w2 == 10.5.
Proof.
  intros tp.
  destruct (C8_first_two_weeks 0 (tenKGoal 16 3) (metricsWithVolume 12) None)
    as (w1 & w2 & E1 & E2 & _ & _ & _ & _ & _ & _ & H3).
  - vm_compute. reflexivity.
  - reflexivity.
  - vm_compute. reflexivity.
  - exists w1, w2. destruct H3 as (H1 & _ & H2); [reflexivity | reflexivity|].
    split; [exact E1|]. split; [exact E2|]. split; [exact H1 | exact H2].
Defined.

End FirstWeeksFacts.

(** * Further properties of the plan generator *)

Section PlanShapeFacts.

Import TrainingPlan.

Lemma week_start_date (now n W : Z) (b : Q) (m : DetailedTrainingMetrics)
    (rd : RaceDistance) (rpw : nat) (td : option (list nat))
    (prev : option Q) (sd : option Z) :
  weekStartDate (generateWeeklyPlan now n W b m rd rpw td prev sd)
  = ((match sd with Some s => s | None => now end) / Strava.DAY_MS
     + 7 * (n - 1))%Z.
Proof.
  unfold generateWeeklyPlan.
  destruct (classifyPhase n W b) as [[[ph tg] fo] no]. cbn [weekStartDate].
  replace ((match sd with Some s => s | None => now end)
           + (n - 1) * 7 * Strava.DAY_MS)%Z
    with ((match sd with Some s => s | None => now end)
          + (7 * (n - 1)) * Strava.DAY_MS)%Z by ring.
  apply Z.div_add. discriminate.
Qed.

(** The plan holds one week per week number 1..weeksUntilRace, in order,
    each with 7 workouts and starting 7 days after the one before. *)
Theorem plan_weeks_are_numbered (now : Z) (g : RaceGoal)
    (m : DetailedTrainingMetrics) (ft : option string) (i : nat)
    (w : WeeklyPlan) :
  let tp := generateTrainingPlan now g m ft in
  nth_error (plan tp) i = Some w ->
  length (plan tp) = Z.to_nat (weeksUntilRace tp) /\
  weekNumber w = (Z.of_nat i + 1)%Z /\
  (weekNumber w <= weeksUntilRace tp)%Z /\
  weekStartDate w = (planStart now g / Strava.DAY_MS + 7 * Z.of_nat i)%Z /\
  length (workouts w) = 7%nat.
Proof.
  intros tp Hw.
  destruct (plan_unfold now g m ft) as [EW Eplan]. fold tp in EW, Eplan.
  rewrite Eplan in Hw. rewrite Eplan, EW.
  set (W := getWeeksUntilRace now (date g) (startDate g)) in *.
  assert (Hlt : (i < Z.to_nat W)%nat).
  { rewrite <- (weeksLoop_length now g m W (Z.to_nat W)).
    apply nth_error_Some. congruence. }
  rewrite weeksLoop_nth in Hw by exact Hlt. injection Hw as <-.
  split; [apply weeksLoop_length|].
  unfold weekAt. rewrite week_number, week_start_date, week_workouts.
  split; [lia|]. split; [lia|]. split.
  - unfold planStart. f_equal. lia.
  - apply weekWorkouts_length.
Qed.

Lemma plan_weeks_are_numbered_witness :
  let tp := generateTrainingPlan 0 (tenKGoal 16 3) (metricsWithVolume 12) None in
  exists w,
    nth_error (plan tp) 4 = Some w /\
    weekNumber w = 5%Z /\ weekStartDate w = 28%Z /\
    length (plan tp) = 16%nat.
Proof.
  intros tp.
  destruct (nth_error (plan tp) 4) as [w|] eqn:E;
    [|vm_compute in E; discriminate E].
  exists w. split; [reflexivity|].
  destruct (plan_weeks_are_numbered 0 (tenKGoal 16 3) (metricsWithVolume 12)
              None 4 w E) as (Hl & Hn & _ & Hs & _).
  split; [exact Hn|]. split; [exact Hs | exact Hl].
Defined.

(** The base volume of a plan lies between 10 km and the ceiling of the race
    distance (35/50/70/90 km): a recent volume under 10 km is replaced by
    12 km, one above the ceiling by the ceiling, and any other is kept. *)
Theorem base_volume_is_clamped (m : DetailedTrainingMetrics)
    (rd : RaceDistance) :
  let b := baseWeeklyKilometersOf m rd in
  let top := reasonableMax rd in
  (top = 35 \/ top = 50 \/ top = 70 \/ top = 90) /\
  10 <= b /\ b <= top /\
  (weeklyKilometers m < 10 -> b = 12) /\
  (10 <= weeklyKilometers m -> weeklyKilometers m <= top ->
   b = weeklyKilometers m) /\
  (top < weeklyKilometers m -> b = top).
Proof.
  intros b top.
  destruct (baseWeeklyKilometersOf_bounds m rd) as [Hlo Hhi].
  split; [unfold top; destruct rd; simpl; tauto|].
  split; [exact Hlo|]. split; [exact Hhi|].
  unfold b, top, baseWeeklyKilometersOf. split; [|split].
  - intros H. apply ltb_lt in H. rewrite H.
    destruct (JS.gtb 12 (reasonableMax rd)) eqn:E; [|reflexivity].
    destruct rd; vm_compute in E; discriminate E.
  - intros H1 H2. apply ltb_ge in H1. rewrite H1.
    apply (proj2 (ltb_ge _ _)) in H2. unfold JS.gtb. rewrite H2. reflexivity.
  - intros H.
    assert (H1 : JS.ltb (weeklyKilometers m) 10 = false).
    { apply ltb_ge. apply Qlt_le_weak. eapply Qle_lt_trans; [|exact H].
      destruct rd; discriminate. }
    rewrite H1. unfold JS.gtb. apply ltb_lt in H. rewrite H. reflexivity.
Qed.

Lemma base_volume_is_clamped_witness :
  baseWeeklyKilometersOf (metricsWithVolume 4) D10K = 12 /\
  baseWeeklyKilometersOf (metricsWithVolume 80) D10K = 50.
Proof.
  destruct (base_volume_is_clamped (metricsWithVolume 4) D10K)
    as (_ & _ & _ & H4 & _).
  destruct (base_volume_is_clamped (metricsWithVolume 80) D10K)
    as (_ & _ & _ & _ & _ & H80).
  split; [apply H4; reflexivity | apply H80; reflexivity].
Defined.

Lemma phaseIn_rank (n W : Z) (b : Q) :
  let rem := (W - n + 1)%Z in
  phaseRank (phaseIn n W b)
  = if (rem <=? 2)%Z then 3%nat
    else if (rem <=? JS.Math_ceil (inject_Z W * 0.3))%Z then 2%nat
    else if (rem <=? JS.Math_ceil (inject_Z W * 0.6))%Z then 1%nat
    else 0%nat.
Proof.
  unfold phaseIn, classifyPhase.
  repeat match goal with
         | |- context [if ?c then _ else _] => destruct c
         end; reflexivity.
Qed.

(** The phases of a plan never go back: a later week is in the same or in a
    later phase (base, build, peak, taper), whatever the base volumes; the
    taper is exactly the last two weeks, and a plan of at most 6 weeks has
    no peak week. *)
Theorem phases_never_go_back (n n' W : Z) (b b' : Q) :
  (n <= n')%Z ->
  (phaseRank (phaseIn n W b) <= phaseRank (phaseIn n' W b'))%nat /\
  (phaseIn n W b = taper <-> (W - n + 1 <= 2)%Z) /\
  ((W <= 6)%Z -> phaseIn n W b <> peak).
Proof.
  intros Hn. split; [|split].
  - rewrite !phaseIn_rank. cbv zeta.
    repeat match goal with
           | |- context [(?x <=? ?y)%Z] =>
               let E := fresh "E" in
               destruct (x <=? y)%Z eqn:E;
               [apply Z.leb_le in E | apply Z.leb_gt in E]
           end; lia.
  - unfold phaseIn. rewrite classifyPhase_phase. apply phaseOf_taper.
  - intros HW Hpeak.
    assert (Hr : phaseRank (phaseIn n W b) = 2%nat) by (rewrite Hpeak; reflexivity).
    rewrite phaseIn_rank in Hr. cbv zeta in Hr.
    destruct (W - n + 1 <=? 2)%Z eqn:E2; [discriminate Hr|].
    apply Z.leb_gt in E2.
    destruct (W - n + 1 <=? JS.Math_ceil (inject_Z W * 0.3))%Z eqn:E3.
    + apply Z.leb_le in E3.
      assert (Hc : (JS.Math_ceil (inject_Z W * 0.3) <= 2)%Z).
      { unfold JS.Math_ceil.
        change 2%Z with (Qceiling (inject_Z 2)) at 1.
        apply Qceiling_resp_le.
        assert (HQ : inject_Z W <= inject_Z 6) by (rewrite <- Zle_Qle; exact HW).
        change (inject_Z 6) with 6 in HQ. change (inject_Z 2) with 2. lra. }
      lia.
    + destruct (W - n + 1 <=? JS.Math_ceil (inject_Z W * 0.6))%Z;
        discriminate Hr.
Qed.

Lemma phases_never_go_back_witness :
  (phaseRank (phaseIn 3 16 12) <= phaseRank (phaseIn 12 16 12))%nat /\
  phaseIn 12 16 12 = peak /\ phaseIn 15 16 12 = taper.
Proof.
  destruct (phases_never_go_back 3 12 16 12 12) as (H & _); [lia|].
  split; [exact H|]. split; reflexivity.
Defined.

Lemma ceilDiv_spec (a b : Z) :
  (0 < b)%Z ->
  ((TrainingPlan.ceilDiv a b - 1) * b < a)%Z /\
  (a <= TrainingPlan.ceilDiv a b * b)%Z.
Proof.
  intros Hb. unfold ceilDiv, JS.Math_ceil.
  set (x := inject_Z a / inject_Z b).
  assert (Hq : 0 < inject_Z b)
    by (change 0 with (inject_Z 0); rewrite <- Zlt_Qlt; exact Hb).
  assert (Hx : x * inject_Z b == inject_Z a) by (unfold x; field; lra).
  pose proof (Qle_ceiling x) as H1. pose proof (Qceiling_lt x) as H2.
  split.
  - rewrite Zlt_Qlt, inject_Z_mult, <- Hx.
    apply Qmult_lt_compat_r; assumption.
  - rewrite Zle_Qle, inject_Z_mult, <- Hx.
    apply Qmult_le_compat_r; [exact H1 | lra].
Qed.

(** getWeeksUntilRace is the least number of whole weeks that reaches the
    race from the start: the race is at most that many weeks after the
    start, and more than one week less. *)
Theorem weeks_until_race_is_least (now raceDate : Z) (sd : option Z) :
  let start := match sd with Some s => s | None => now end in
  let w := getWeeksUntilRace now raceDate sd in
  (raceDate <= start + w * (7 * Strava.DAY_MS))%Z /\
  (start + (w - 1) * (7 * Strava.DAY_MS) < raceDate)%Z.
Proof.
  intros start w. unfold w, getWeeksUntilRace. fold start.
  change (1000 * 60 * 60 * 24)%Z with Strava.DAY_MS.
  destruct (ceilDiv_spec (raceDate - start) Strava.DAY_MS) as [D1 D2];
    [reflexivity|].
  set (d := ceilDiv (raceDate - start) Strava.DAY_MS) in *.
  destruct (ceilDiv_spec d 7) as [W1 W2]; [reflexivity|].
  set (k := ceilDiv d 7) in *.
  assert (HD : (0 < Strava.DAY_MS)%Z) by reflexivity.
  split; nia.
Qed.

End PlanShapeFacts.

Section WorkoutKindFacts.

Import TrainingPlan.

Lemma filter_map_comm {B C : Type} (p : C -> bool) (f : B -> C)
    (l : list B) :
  filter p (map f l) = map f (filter (fun x => p (f x)) l).
Proof.
  induction l as [|x xs IH]; [reflexivity|]. simpl.
  destruct (p (f x)); simpl; rewrite IH; reflexivity.
Qed.

Lemma isRest_generateWorkout (ph : Phase) (d : nat) (wk : Q)
    (m : DetailedTrainingMetrics) (rd : RaceDistance) (rpw : nat)
    (td : option (list nat)) :
  isRest (generateWorkout ph d wk m rd rpw td)
  = negb (includes (runDaysOf rpw td) d).
Proof.
  unfold generateWorkout, isRest.
  destruct (includes (runDaysOf rpw td) d); [|reflexivity]. simpl.
  destruct (d =? longRunDayOf (runDaysOf rpw td))%nat; [reflexivity|].
  destruct (isQualityDayOf rpw td d); [destruct ph|]; reflexivity.
Qed.

Lemma isLongRun_generateWorkout (ph : Phase) (d : nat) (wk : Q)
    (m : DetailedTrainingMetrics) (rd : RaceDistance) (rpw : nat)
    (td : option (list nat)) :
  isLongRun (generateWorkout ph d wk m rd rpw td) = isLongDay rpw td d.
Proof.
  unfold generateWorkout, isLongRun, isLongDay.
  destruct (includes (runDaysOf rpw td) d); [|reflexivity]. simpl.
  destruct (d =? longRunDayOf (runDaysOf rpw td))%nat; [reflexivity|].
  destruct (isQualityDayOf rpw td d); [destruct ph|]; reflexivity.
Qed.

Lemma isHigh_generateWorkout (ph : Phase) (d : nat) (wk : Q)
    (m : DetailedTrainingMetrics) (rd : RaceDistance) (rpw : nat)
    (td : option (list nat)) :
  isHigh (generateWorkout ph d wk m rd rpw td)
  = isOtherDay rpw td d && isQualityDayOf rpw td d
    && match ph with build | peak => true | _ => false end.
Proof.
  unfold generateWorkout, isHigh, isOtherDay.
  destruct (includes (runDaysOf rpw td) d); [|reflexivity]. simpl.
  destruct (d =? longRunDayOf (runDaysOf rpw td))%nat;
    [destruct ph; reflexivity|].
  destruct (isQualityDayOf rpw td d); destruct ph; reflexivity.
Qed.

(** On a built-in schedule the run days are [rpw] distinct days of the week
    ending on Sunday. *)
Lemma builtin_counts (rpw : nat) (td : option (list nat)) :
  hasCustomDays td = false -> (2 <= rpw <= 7)%nat ->
  length (filter (includes (runDaysOf rpw td)) (seq 0 7)) = rpw /\
  length (filter (includes (runDaysOf rpw td)) (seq 0 6)) = (rpw - 1)%nat /\
  length (filter (isOtherDay rpw td) (seq 0 7)) = (rpw - 1)%nat /\
  length (filter (isLongDay rpw td) (seq 0 7)) = 1%nat /\
  length (runDaysOf rpw td) = rpw /\
  isLongDay rpw td 6 = true.
Proof.
  intros Hc Hr.
  destruct td as [[|x xs]|]; try discriminate Hc;
    do 8 (try (destruct rpw as [|rpw]; try lia)); repeat split; reflexivity.
Qed.

(** On a built-in schedule for 2 to 7 runs a week, every week has exactly
    that many workouts that are not Rest; outside the race week exactly one
    of them is a Long Run, on Sunday, and in the race week Sunday is the
    Race Day and no Long Run is left. *)
Theorem builtin_schedule_run_days (now n W : Z) (b : Q)
    (m : DetailedTrainingMetrics) (rd : RaceDistance) (rpw : nat)
    (td : option (list nat)) (prev : option Q) (sd : option Z) :
  hasCustomDays td = false -> (2 <= rpw <= 7)%nat ->
  let w := generateWeeklyPlan now n W b m rd rpw td prev sd in
  length (filter (fun x => negb (isRest x)) (workouts w)) = rpw /\
  ((W - n + 1 <> 1)%Z ->
   length (filter isLongRun (workouts w)) = 1%nat /\
   option_map type (nth_error (workouts w) 6) = Some LongRun) /\
  ((W - n + 1 = 1)%Z ->
   length (filter isLongRun (workouts w)) = 0%nat /\
   option_map type (nth_error (workouts w) 6) = Some RaceDay).
Proof.
  intros Hc Hr w.
  destruct (builtin_counts rpw td Hc Hr) as (C7 & C6 & _ & CL & _ & L6).
  unfold w. rewrite week_workouts. unfold weekWorkouts.
  set (wk := assignedWeeklyKilometers n W b rd prev).
  set (gw := fun day => generateWorkout (phaseOf n W) day wk m rd rpw td).
  assert (Hrest : forall l,
             length (filter (fun x => negb (isRest x)) (map gw l))
             = length (filter (includes (runDaysOf rpw td)) l)).
  { intros l. rewrite filter_map_comm, length_map. f_equal.
    apply filter_ext. intros d. unfold gw.
    rewrite isRest_generateWorkout. apply negb_involutive. }
  assert (Hlong : forall l,
             length (filter isLongRun (map gw l))
             = length (filter (isLongDay rpw td) l)).
  { intros l. rewrite filter_map_comm, length_map. f_equal.
    apply filter_ext. intros d. unfold gw.
    apply isLongRun_generateWorkout. }
  destruct (W - n + 1 =? 1)%Z eqn:E.
  - apply Z.eqb_eq in E.
    change (JS.setAt 6 (raceDayWorkout rd) (map gw (seq 0 7)))
      with (map gw (seq 0 6) ++ [raceDayWorkout rd]).
    rewrite !filter_app, !length_app, Hrest, Hlong, C6.
    split; [simpl; lia|]. split; [intros H; lia|]. intros _.
    split; [|reflexivity].
    change (seq 0 7) with (seq 0 6 ++ [6%nat]) in CL.
    rewrite filter_app, length_app in CL. simpl in CL. rewrite L6 in CL.
    simpl in CL. simpl. lia.
  - apply Z.eqb_neq in E. rewrite Hrest, Hlong, C7, CL.
    split; [reflexivity|]. split; [|intros H; lia]. intros _.
    split; [reflexivity|].
    change (nth_error (map gw (seq 0 7)) 6) with (Some (gw 6%nat)).
    simpl. f_equal.
    pose proof (isLongRun_generateWorkout (phaseOf n W) 6 wk m rd rpw td)
      as H6.
    rewrite L6 in H6. unfold isLongRun in H6. fold (gw 6%nat) in H6.
    destruct (type (gw 6%nat)); try discriminate H6. reflexivity.
Qed.

Lemma builtin_schedule_run_days_witness :
  let w := generateWeeklyPlan 0 3 16 12 plainMetrics D10K 4 None (Some 10.6)
                              None in
  length (filter (fun x => negb (isRest x)) (workouts w)) = 4%nat.
Proof.
  intros w.
  destruct (builtin_schedule_run_days 0 3 16 12 plainMetrics D10K 4 None
              (Some 10.6) None) as (H & _); [reflexivity | lia | exact H].
Defined.

(** At most two of the days of a week are quality days. *)
Lemma quality_days_at_most_two (rpw : nat) (td : option (list nat)) :
  (length (filter (isQualityDayOf rpw td) (seq 0 7)) <= 2)%nat.
Proof.
  destruct (hasCustomDays td) eqn:Hc.
  - set (qs := map (fun i => nth_error (runDaysOf rpw td) i)
                   (if (rpw =? 2)%nat then [0%nat]
                    else if (rpw =? 3)%nat then [1%nat]
                    else if (4 <=? rpw)%nat
                         then [(length (runDaysOf rpw td) / 3)%nat;
                               (length (runDaysOf rpw td) * 2 / 3)%nat]
                         else [])).
    assert (Hq : (length qs <= 2)%nat).
    { unfold qs. rewrite length_map.
      destruct (rpw =? 2)%nat; [simpl; lia|].
      destruct (rpw =? 3)%nat; [simpl; lia|].
      destruct (4 <=? rpw)%nat; simpl; lia. }
    eapply Nat.le_trans; [|exact Hq].
    rewrite <- (length_map Some).
    apply NoDup_incl_length.
    + apply Finite.Injective_map_NoDup;
        [intros x y H; injection H; auto
        | apply NoDup_filter, seq_NoDup].
    + intros o Ho. apply in_map_iff in Ho. destruct Ho as (d & <- & Hd).
      apply filter_In in Hd. destruct Hd as [_ Hd].
      unfold isQualityDayOf in Hd. rewrite Hc in Hd.
      fold qs in Hd. apply existsb_exists in Hd.
      destruct Hd as ([x|] & Hin & Hx); [|discriminate Hx].
      apply Nat.eqb_eq in Hx. subst x. exact Hin.
  - assert (E : forall d, isQualityDayOf rpw td d
                          = isQualityDayOf rpw None d).
    { intros d. unfold isQualityDayOf. rewrite Hc. reflexivity. }
    rewrite (filter_ext _ _ E).
    do 4 (destruct rpw as [|rpw]; [simpl; lia|]).
    simpl. lia.
Qed.

Lemma filter_length_le {B : Type} (p q : B -> bool) (l : list B) :
  (forall x, p x = true -> q x = true) ->
  (length (filter p l) <= length (filter q l))%nat.
Proof.
  intros H. induction l as [|x xs IH]; [simpl; lia|]. simpl.
  destruct (p x) eqn:Ep.
  - rewrite (H x Ep). simpl. lia.
  - destruct (q x); simpl; lia.
Qed.

(** A week never holds more than two High-intensity workouts: they are the
    quality days of the build and peak phases; a base-phase week has none,
    the first taper week has none, and the race week has the Race Day
    alone. *)
Theorem hard_workouts_are_limited (now n W : Z) (b : Q)
    (m : DetailedTrainingMetrics) (rd : RaceDistance) (rpw : nat)
    (td : option (list nat)) (prev : option Q) (sd : option Z) :
  let w := generateWeeklyPlan now n W b m rd rpw td prev sd in
  (length (filter isHigh (workouts w)) <= 2)%nat /\
  (phaseIn n W b = base -> length (filter isHigh (workouts w)) = 0%nat) /\
  ((W - n + 1 = 2)%Z -> length (filter isHigh (workouts w)) = 0%nat) /\
  ((W - n + 1 = 1)%Z -> filter isHigh (workouts w) = [raceDayWorkout rd]).
Proof.
  intros w. unfold w. rewrite week_workouts. unfold weekWorkouts.
  set (wk := assignedWeeklyKilometers n W b rd prev).
  set (gw := fun day => generateWorkout (phaseOf n W) day wk m rd rpw td).
  assert (Hup : forall l,
             (length (filter isHigh (map gw l))
              <= length (filter (isQualityDayOf rpw td) l))%nat).
  { intros l. rewrite filter_map_comm, length_map.
    apply filter_length_le. intros d Hd. unfold gw in Hd.
    rewrite isHigh_generateWorkout in Hd.
    apply andb_prop in Hd. destruct Hd as [Hd _].
    apply andb_prop in Hd. tauto. }
  assert (Hlow : forall l,
             match phaseOf n W with build | peak => False | _ => True end ->
             filter isHigh (map gw l) = []).
  { intros l Hph. rewrite filter_map_comm.
    replace (filter (fun x => isHigh (gw x)) l) with (@nil nat);
      [reflexivity|].
    symmetry. apply filter_nil_iff. intros d _. unfold gw.
    rewrite isHigh_generateWorkout.
    destruct (phaseOf n W); try contradiction;
      rewrite andb_false_r; reflexivity. }
  assert (Htaper : (W - n + 1 <= 2)%Z -> phaseOf n W = taper)
    by (apply phaseOf_taper).
  pose proof (quality_days_at_most_two rpw td) as Hq.
  destruct (W - n + 1 =? 1)%Z eqn:E.
  - apply Z.eqb_eq in E.
    change (JS.setAt 6 (raceDayWorkout rd) (map gw (seq 0 7)))
      with (map gw (seq 0 6) ++ [raceDayWorkout rd]).
    rewrite filter_app, Hlow by (rewrite Htaper by lia; exact I).
    simpl. split; [lia|]. split.
    { intros Hb. unfold phaseIn in Hb.
      rewrite classifyPhase_phase, Htaper in Hb by lia. discriminate Hb. }
    split; [intros H; lia | reflexivity].
  - apply Z.eqb_neq in E.
    split; [eapply Nat.le_trans; [apply Hup | exact Hq]|].
    split; [|split; [|intros H; lia]].
    + intros Hb. unfold phaseIn in Hb. rewrite classifyPhase_phase in Hb.
      rewrite Hlow by (rewrite Hb; exact I). reflexivity.
    + intros H2. rewrite Hlow by (rewrite Htaper by lia; exact I).
      reflexivity.
Qed.

Lemma hard_workouts_are_limited_witness :
  let w := generateWeeklyPlan 0 1 16 12 plainMetrics D10K 4 None None None in
  length (filter isHigh (workouts w)) = 0%nat.
Proof.
  intros w.
  destruct (hard_workouts_are_limited 0 1 16 12 plainMetrics D10K 4 None None
              None) as (_ & H & _).
  apply H. reflexivity.
Defined.

End WorkoutKindFacts.

Section SpecialWeekFacts.

Import TrainingPlan.




Lemma assigned_taper (n W : Z) (b : Q) (rd : RaceDistance)
    (prev : option Q) :
  (W - n + 1 <= 2)%Z ->
  assignedWeeklyKilometers n W b rd prev
  = JS.round1 (b * (if (W - n + 1 =? 2)%Z then 0.7 else 0.5)).
Proof.
  intros Hrem. unfold assignedWeeklyKilometers, classifyPhase, isRecoveryWeek.
  replace (W - n + 1 <=? 2)%Z with true by (symmetry; apply Z.leb_le; lia).
  replace (3 <? W - n + 1)%Z with false by (symmetry; apply Z.ltb_ge; lia).
  rewrite andb_false_r. reflexivity.
Qed.

Lemma week_focus_taper (now n W : Z) (b : Q) (m : DetailedTrainingMetrics)
    (rd : RaceDistance) (rpw : nat) (td : option (list nat))
    (prev : option Q) (sd : option Z) :
  (W - n + 1 <= 2)%Z ->
  focus (generateWeeklyPlan now n W b m rd rpw td prev sd)
  = "Taper & Recovery"%string.
Proof.
  intros Hrem. unfold generateWeeklyPlan, classifyPhase, isRecoveryWeek.
  replace (W - n + 1 <=? 2)%Z with true by (symmetry; apply Z.leb_le; lia).
  replace (3 <? W - n + 1)%Z with false by (symmetry; apply Z.ltb_ge; lia).
  rewrite andb_false_r. reflexivity.
Qed.

(** The race week reports the six generated days and the race. *)
Lemma race_week_total (now n W : Z) (b : Q) (m : DetailedTrainingMetrics)
    (rd : RaceDistance) (rpw : nat) (td : option (list nat))
    (prev : option Q) (sd : option Z) :
  (W - n + 1 = 1)%Z ->
  totalKilometers (generateWeeklyPlan now n W b m rd rpw td prev sd)
  == Qsum (map (dayDistance (assignedWeeklyKilometers n W b rd prev) rpw td)
               (seq 0 6))
     + RACE_DISTANCES rd.
Proof.
  intros Hrem.
  rewrite (week_total_is_sum now n W b m rd rpw td prev sd).
  rewrite week_workouts.
  replace (W - n + 1 =? 1)%Z with true by (symmetry; apply Z.eqb_eq; lia).
  rewrite weekWorkouts_race, map_app, Qsum_app, map_map.
  rewrite (map_ext _ (dayDistance (assignedWeeklyKilometers n W b rd prev)
                                  rpw td)
             (fun d => generateWorkout_distance _ d _ m rd rpw td)).
  change (Qsum (map distanceOrZero [raceDayWorkout rd]))
    with (RACE_DISTANCES rd + 0).
  ring.
Qed.

Lemma split_sum_six (wk : Q) (rpw : nat) (td : option (list nat)) :
  0 <= wk ->
  0 <= Qsum (map (dayDistance wk rpw td) (seq 0 6)) /\
  Qsum (map (dayDistance wk rpw td) (seq 0 6)) <= wk + 0.35.
Proof.
  intros Hwk. split; [apply split_sum_nonneg; exact Hwk|].
  pose proof (split_sum_upper wk rpw td Hwk) as H7.
  change (seq 0 7) with (seq 0 6 ++ [6%nat]) in H7.
  rewrite map_app, Qsum_app in H7.
  pose proof (split_sum_nonneg wk rpw td Hwk [6%nat]) as H1. lra.
Qed.



(** The last two weeks are labelled "Taper & Recovery" and their volume
    comes from the base alone, whatever the weeks before reported: the week
    before the race reports at most 70 % of the base plus 0.4 km, and the
    race week reports at least the race distance and at most 50 % of the
    base plus 0.4 km on top of it. *)
Theorem taper_weeks_volume (now : Z) (g : RaceGoal)
    (m : DetailedTrainingMetrics) (ft : option string) (w : WeeklyPlan) :
  let tp := generateTrainingPlan now g m ft in
  let b := baseWeeklyKilometersOf m (goalDistance g) in
  let race := RACE_DISTANCES (goalDistance g) in
  let remaining := (weeksUntilRace tp - weekNumber w + 1)%Z in
  In w (plan tp) ->
  (remaining <= 2)%Z ->
  focus w = "Taper & Recovery"%string /\
  (remaining = 2%Z -> totalKilometers w <= b * 0.7 + 0.4) /\
  (remaining = 1%Z ->
   race <= totalKilometers w /\ totalKilometers w <= race + b * 0.5 + 0.4).
Proof.
  intros tp b race remaining Hin Hrem.
  destruct (plan_In now g m ft w Hin) as (i & prev & Hi & Hw).
  fold tp in Hi, Hw.
  assert (Hn : weekNumber w = Z.of_nat (S i))
    by (rewrite Hw; apply week_number).
  unfold remaining in *. rewrite Hn in *.
  destruct (baseWeeklyKilometersOf_bounds m (goalDistance g)) as [Hb _].
  fold b in Hb.
  pose proof (assigned_taper (Z.of_nat (S i)) (weeksUntilRace tp) b
                (goalDistance g) prev Hrem) as Hvol.
  split; [rewrite Hw; unfold weekAt; apply week_focus_taper; exact Hrem|].
  split.
  - intros H2. rewrite H2 in Hvol.
    change (2 =? 2)%Z with true in Hvol. cbv iota in Hvol.
    assert (Hup : totalKilometers w
                  <= assignedWeeklyKilometers (Z.of_nat (S i))
                       (weeksUntilRace tp) b (goalDistance g) prev + 0.35).
    { rewrite Hw. apply week_total_upper; [lia|].
      rewrite Hvol. apply round1_nonneg. lra. }
    rewrite Hvol in Hup. pose proof (round1_upper (b * 0.7)). lra.
  - intros H1. rewrite H1 in Hvol.
    change (1 =? 2)%Z with false in Hvol. cbv iota in Hvol.
    assert (Ht : totalKilometers w
                 == Qsum (map (dayDistance
                                 (assignedWeeklyKilometers (Z.of_nat (S i))
                                    (weeksUntilRace tp) b (goalDistance g)
                                    prev)
                                 (runsPerWeek g) (trainingDays g))
                              (seq 0 6))
                    + race).
    { rewrite Hw. apply race_week_total. exact H1. }
    rewrite Hvol in Ht.
    destruct (split_sum_six (JS.round1 (b * 0.5)) (runsPerWeek g)
                (trainingDays g)) as [S0 S1];
      [apply round1_nonneg; lra|].
    pose proof (round1_upper (b * 0.5)). split; lra.
Qed.

Lemma taper_weeks_volume_witness :
  let tp := generateTrainingPlan 0 (tenKGoal 16 3) (metricsWithVolume 12) None in
  exists w, nth_error (plan tp) 15 = Some w /\ 10 <= totalKilometers w.
Proof.
  intros tp.
  destruct (nth_error (plan tp) 15) as [w|] eqn:E;
    [|vm_compute in E; discriminate E].
  exists w. split; [reflexivity|].
  destruct (taper_weeks_volume 0 (tenKGoal 16 3) (metricsWithVolume 12) None w)
    as (_ & _ & H).
  - apply (nth_error_In _ _ E).
  - vm_compute in E. injection E as <-. vm_compute. discriminate.
  - apply H. vm_compute in E. injection E as <-. reflexivity.
Defined.



End SpecialWeekFacts.

Section FitnessFacts.

Import TrainingPlan.

Lemma geb_ge (x y : Q) : JS.geb x y = true <-> y <= x.
Proof. unfold JS.geb. apply leb_le. Qed.

Lemma geb_lt (x y : Q) : JS.geb x y = false <-> x < y.
Proof. unfold JS.geb. apply leb_gt. Qed.

Lemma assessFitnessLevel_score (m : DetailedTrainingMetrics)
    (rd : RaceDistance) :
  exists s, s == fitnessScore m rd /\
            assessFitnessLevel m rd = classifyScore s.
Proof.
  unfold assessFitnessLevel, fitnessScore, classifyScore, volumePoints,
    longRunPoints, frequencyPoints, improvementPoints.
  cbv zeta.
  destruct (JS.geb (weeklyKilometers m / RACE_DISTANCES rd) 2.5);
    [|destruct (JS.geb (weeklyKilometers m / RACE_DISTANCES rd) 1.8);
      [|destruct (JS.geb (weeklyKilometers m / RACE_DISTANCES rd) 1.2)]];
    (destruct (JS.geb (avgLongRun m / RACE_DISTANCES rd) 0.7);
     [|destruct (JS.geb (avgLongRun m / RACE_DISTANCES rd) 0.5);
       [|destruct (JS.geb (avgLongRun m / RACE_DISTANCES rd) 0.3)]]);
    (destruct (JS.geb (recentRunCount m) 16);
     [|destruct (JS.geb (recentRunCount m) 12);
       [|destruct (JS.geb (recentRunCount m) 8)]]);
    (eexists; split; [|reflexivity]; ring).
Qed.

Lemma classifyScore_mono (s t : Q) :
  s <= t -> (levelRank (classifyScore s) <= levelRank (classifyScore t))%nat.
Proof.
  intros H. unfold classifyScore.
  destruct (JS.geb s 75) eqn:E1; [apply geb_ge in E1 | apply geb_lt in E1];
    (destruct (JS.geb t 75) eqn:E2; [apply geb_ge in E2 | apply geb_lt in E2]);
    try (destruct (JS.geb s 50) eqn:E3;
         [apply geb_ge in E3 | apply geb_lt in E3]);
    try (destruct (JS.geb t 50) eqn:E4;
         [apply geb_ge in E4 | apply geb_lt in E4]);
    cbv [levelRank String.eqb Ascii.eqb Bool.eqb]; first [lia | exfalso; lra].
Qed.

Ltac split_geb :=
  repeat match goal with
         | |- context [JS.geb ?x ?y] =>
             let E := fresh "E" in
             destruct (JS.geb x y) eqn:E;
             [apply geb_ge in E | apply geb_lt in E]
         end.

Lemma volumePoints_mono (x y : Q) : x <= y -> volumePoints x <= volumePoints y.
Proof. intros H. unfold volumePoints. split_geb; lra. Qed.

Lemma longRunPoints_mono (x y : Q) :
  x <= y -> longRunPoints x <= longRunPoints y.
Proof. intros H. unfold longRunPoints. split_geb; lra. Qed.

Lemma frequencyPoints_mono (x y : Q) :
  x <= y -> frequencyPoints x <= frequencyPoints y.
Proof. intros H. unfold frequencyPoints. split_geb; lra. Qed.

Lemma improvementPoints_mono (x y : Q) :
  x <= y -> improvementPoints x <= improvementPoints y.
Proof.
  intros H. unfold improvementPoints, JS.Math_min.
  destruct (JS.ltb x 10) eqn:Ex; [apply ltb_lt in Ex | apply ltb_ge in Ex];
    (destruct (JS.ltb y 10) eqn:Ey; [apply ltb_lt in Ey | apply ltb_ge in Ey]);
    unfold JS.Math_max;
    repeat match goal with
           | |- context [JS.ltb ?a ?b] =>
               let E := fresh "E" in
               destruct (JS.ltb a b) eqn:E;
               [apply ltb_lt in E | apply ltb_ge in E]
           end; lra.
Qed.

Lemma ratio_mono (x y : Q) (rd : RaceDistance) :
  x <= y -> x / RACE_DISTANCES rd <= y / RACE_DISTANCES rd.
Proof.
  intros H. unfold Qdiv. apply Qmult_le_compat_r; [exact H|].
  destruct rd; discriminate.
Qed.

(** Better metrics never lower the fitness level: when weekly volume,
    average long run, consistency, run count and pace improvement of one
    runner are all at least those of another, the level (Beginner,
    Intermediate, Advanced) is at least the other's. *)
Theorem fitness_level_is_monotone (m1 m2 : DetailedTrainingMetrics)
    (rd : RaceDistance) :
  weeklyKilometers m1 <= weeklyKilometers m2 ->
  avgLongRun m1 <= avgLongRun m2 ->
  consistencyScore m1 <= consistencyScore m2 ->
  recentRunCount m1 <= recentRunCount m2 ->
  recentPaceImprovement m1 <= recentPaceImprovement m2 ->
  (levelRank (assessFitnessLevel m1 rd)
   <= levelRank (assessFitnessLevel m2 rd))%nat.
Proof.
  intros Hv Hl Hc Hr Hi.
  destruct (assessFitnessLevel_score m1 rd) as (s1 & E1 & ->).
  destruct (assessFitnessLevel_score m2 rd) as (s2 & E2 & ->).
  apply classifyScore_mono. rewrite E1, E2. unfold fitnessScore.
  pose proof (volumePoints_mono _ _ (ratio_mono _ _ rd Hv)).
  pose proof (longRunPoints_mono _ _ (ratio_mono _ _ rd Hl)).
  pose proof (frequencyPoints_mono _ _ Hr).
  pose proof (improvementPoints_mono _ _ Hi).
  assert (consistencyScore m1 / 100 * 20 <= consistencyScore m2 / 100 * 20).
  { apply Qmult_le_compat_r; [|discriminate].
    unfold Qdiv. apply Qmult_le_compat_r; [exact Hc | discriminate]. }
  set (c1 := consistencyScore m1 / 100 * 20) in *.
  set (c2 := consistencyScore m2 / 100 * 20) in *.
  lra.
Qed.

Lemma fitness_level_is_monotone_witness :
  (levelRank (assessFitnessLevel (metricsWithVolume 12) D10K)
   <= levelRank (assessFitnessLevel (metricsWithVolume 40) D10K))%nat.
Proof.
  apply fitness_level_is_monotone; vm_compute; discriminate.
Defined.

End FitnessFacts.

Section MetricsFacts.

Import Strava TrainingPlan.

Lemma sumOf_pos {B : Type} (f : B -> Q) (l : list B) :
  l <> [] -> (forall x, In x l -> 0 < f x) -> 0 < JS.sumOf f l.
Proof.
  intros Hne Hpos. rewrite sumOf_Qsum.
  destruct l as [|x xs]; [congruence|].
  assert (Hx : 0 < f x) by (apply Hpos; left; reflexivity).
  assert (Hxs : 0 <= Qsum (map f xs)).
  { clear Hne Hx. induction xs as [|y ys IH]; [apply Qle_refl|].
    cbn [map Qsum fold_right]. fold (Qsum (map f ys)).
    assert (0 < f y) by (apply Hpos; right; left; reflexivity).
    assert (0 <= Qsum (map f ys)).
    { apply IH. intros z [Hz|Hz]; apply Hpos; [left | right; right];
        assumption. }
    lra. }
  cbn [map Qsum fold_right]. fold (Qsum (map f xs)). lra.
Qed.

Lemma metrics_unfold_trend (now : Z) (acts : list Activity)
    (wk avgP lr rc : Q) :
  let recent := recentRunsOf now acts in
  let km := fun r : Activity => Strava.distance r / 1000 in
  weeklyTrend (calculateDetailedMetrics now acts wk avgP lr rc)
  = if JS.gtb (JS.sumOf km (JS.sliceLast (length recent / 4) recent))
              (JS.sumOf km (JS.sliceTo (length recent / 4) recent) * 1.1)
    then increasing
    else if JS.ltb (JS.sumOf km (JS.sliceLast (length recent / 4) recent))
                   (JS.sumOf km (JS.sliceTo (length recent / 4) recent) * 0.9)
         then decreasing else stable.
Proof. reflexivity. Qed.

(** With one, two or three runs in the trailing 4 weeks, all of positive
    distance, the weekly trend is "increasing": the first quarter of the
    runs is empty and the last quarter, [slice(-0)], is all of them. *)
Theorem few_runs_trend_is_increasing (now : Z) (acts : list Activity)
    (wk avgP lr rc : Q) :
  (0 < length (recentRunsOf now acts) < 4)%nat ->
  (forall a, In a (recentRunsOf now acts) -> 0 < Strava.distance a) ->
  weeklyTrend (calculateDetailedMetrics now acts wk avgP lr rc) = increasing.
Proof.
  intros Hlen Hpos. rewrite metrics_unfold_trend. cbv zeta.
  replace (length (recentRunsOf now acts) / 4)%nat with 0%nat
    by (symmetry; apply Nat.div_small; lia).
  cbn [JS.sliceLast JS.sliceTo firstn].
  assert (Hs : 0 < JS.sumOf (fun r : Activity => Strava.distance r / 1000)
                            (recentRunsOf now acts)).
  { apply sumOf_pos.
    - intros H0. rewrite H0 in Hlen. simpl in Hlen. lia.
    - intros a Ha. specialize (Hpos a Ha).
      apply Qlt_shift_div_l; lra. }
  assert (E : JS.gtb (JS.sumOf (fun r : Activity => Strava.distance r / 1000)
                               (recentRunsOf now acts))
                     (JS.sumOf (fun r : Activity => Strava.distance r / 1000) []
                      * 1.1) = true).
  { apply ltb_lt. change (JS.sumOf _ []) with 0. lra. }
  rewrite E. reflexivity.
Qed.

Lemma few_runs_trend_is_increasing_witness :
  weeklyTrend (calculateDetailedMetrics 0 [mkActivity 5000 1500 "Run" 0;
                                           mkActivity 3000 1000 "Run" 0]
                                        8 5 5 2) = increasing.
Proof.
  apply few_runs_trend_is_increasing.
  - simpl. lia.
  - intros a [<-|[<-|[]]]; reflexivity.
Defined.

Lemma filter_none {B : Type} (f : B -> bool) (l : list B) :
  (forall x, In x l -> f x = false) -> filter f l = [].
Proof. apply filter_nil_iff. Qed.

(** Without any activity in the trailing 8 weeks the metrics fall back on
    their arguments: the average pace and the zones come from [avgPace], the
    average long run is [longestRun], the pace improvement is zero and the
    trend is "stable". *)
Theorem metrics_fall_back_without_runs (now : Z) (acts : list Activity)
    (wk avgP lr rc : Q) :
  (forall a, In a acts -> (start_date a < now - 56 * DAY_MS)%Z) ->
  let m := calculateDetailedMetrics now acts wk avgP lr rc in
  avgPace m = avgP /\
  min (easy (paceZones m)) = avgP * 1.15 /\
  avgLongRun m = lr /\
  recentPaceImprovement m == 0 /\
  weeklyTrend m = stable /\
  weeklyKilometers m = wk /\ longestRun m = lr /\ recentRunCount m = rc.
Proof.
  intros Hold m.
  assert (Hr : filter (fun a => (now - 28 * DAY_MS <=? start_date a)%Z) acts
               = []).
  { apply filter_none. intros a Ha. specialize (Hold a Ha).
    apply Z.leb_gt. unfold DAY_MS in *. lia. }
  assert (Ho : filter (fun a => (now - 56 * DAY_MS <=? start_date a)%Z
                                && (start_date a <? now - 28 * DAY_MS)%Z)
                      acts = []).
  { apply filter_none. intros a Ha. specialize (Hold a Ha).
    apply andb_false_iff. left. apply Z.leb_gt. exact Hold. }
  unfold m, calculateDetailedMetrics. rewrite Hr, Ho. cbn [length Nat.ltb Nat.leb].
  repeat split; try reflexivity.
  cbn [recentPaceImprovement].
  destruct (JS.gtb avgP 0) eqn:E; [|reflexivity].
  apply ltb_lt in E. field. lra.
Qed.

Lemma metrics_fall_back_without_runs_witness :
  avgLongRun (calculateDetailedMetrics 6000000000
                [mkActivity 5000 1500 "Run" 0] 8 5 7 2) = 7.
Proof.
  destruct (metrics_fall_back_without_runs 6000000000
              [mkActivity 5000 1500 "Run" 0] 8 5 7 2) as (_ & _ & H & _).
  - intros a [<-|[]]. reflexivity.
  - exact H.
Defined.

End MetricsFacts.

Section RecommendationFacts.

Import TrainingPlan.

Variable now : Z.

Lemma recommendations_unfold (g : RaceGoal) (m : DetailedTrainingMetrics)
    (ft : option string) :
  recommendations (generateTrainingPlan now g m ft)
  = generateRecommendations
      (getWeeksUntilRace now (date g) (startDate g)) m
      (RACE_DISTANCES (goalDistance g))
      (baseWeeklyKilometersOf m (goalDistance g))
      (assessFitnessLevel m (goalDistance g)).
Proof. reflexivity. Qed.

Lemma currentFitness_unfold (g : RaceGoal) (m : DetailedTrainingMetrics)
    (ft : option string) :
  currentFitness (generateTrainingPlan now g m ft)
  = assessFitnessLevel m (goalDistance g).
Proof. reflexivity. Qed.

Ltac split_ifs :=
  repeat match goal with
         | |- context [if ?c then _ else _] =>
             let E := fresh "E" in destruct c eqn:E
         end.





(** Every generated plan ends its recommendations with the two general
    ones (hydration, sleep) preceded by at most seven specific ones; the
    short-notice warning is present exactly when fewer than 8 weeks remain,
    and the fitness remark matches the reported fitness level. *)
Theorem recommendations_shape (g : RaceGoal) (m : DetailedTrainingMetrics)
    (ft : option string) :
  let tp := generateTrainingPlan now g m ft in
  (exists l, recommendations tp = l ++ [StayHydrated; PrioritizeSleep] /\
             (length l <= 7)%nat /\
             ~ In StayHydrated l /\ ~ In PrioritizeSleep l) /\
  (In LessThan8Weeks (recommendations tp) <-> (weeksUntilRace tp < 8)%Z) /\
  (In FitnessExcellent (recommendations tp)
   <-> currentFitness tp = "Advanced"%string) /\
  (In BuildBaseGradually (recommendations tp)
   <-> currentFitness tp = "Beginner"%string) /\
  (In RunMoreOften (recommendations tp) <-> recentRunCount m < 12).
Proof.
  cbv zeta. rewrite recommendations_unfold, currentFitness_unfold.
  rewrite (proj1 (plan_unfold now g m ft)).
  set (W := getWeeksUntilRace now (date g) (startDate g)).
  set (f := assessFitnessLevel m (goalDistance g)).
  set (b := baseWeeklyKilometersOf m (goalDistance g)).
  set (d := RACE_DISTANCES (goalDistance g)).
  unfold generateRecommendations.
  rewrite <- (String.eqb_eq f "Advanced"), <- (String.eqb_eq f "Beginner").
  rewrite <- (Z.ltb_lt W 8), <- (ltb_lt (recentRunCount m) 12).
  split.
  - eexists. split; [rewrite !app_assoc; reflexivity|].
    rewrite !in_app_iff, !length_app.
    split_ifs; simpl; (split; [lia|]); intuition discriminate.
  - rewrite !in_app_iff.
    destruct (String.eqb f "Advanced") eqn:Ea.
    + apply String.eqb_eq in Ea. rewrite Ea. cbn [String.eqb Ascii.eqb Bool.eqb].
      split_ifs; simpl; intuition discriminate.
    + split_ifs; simpl; intuition discriminate.
Qed.

End RecommendationFacts.


(** * Further properties of the predictor *)

Section TrainingLoadFacts.

Import Strava Predictions.

Lemma sumOf_nonneg {B : Type} (f : B -> Q) (l : list B) :
  (forall x, In x l -> 0 <= f x) -> 0 <= JS.sumOf f l.
Proof.
  intros Hpos. rewrite sumOf_Qsum.
  induction l as [|x xs IH]; [apply Qle_refl|].
  cbn [map Qsum fold_right]. fold (Qsum (map f xs)).
  assert (0 <= f x) by (apply Hpos; left; reflexivity).
  assert (0 <= Qsum (map f xs))
    by (apply IH; intros y Hy; apply Hpos; right; exact Hy).
  lra.
Qed.

Lemma weekStartOf_time_of_day (t : Z) :
  timeOfDay (weekStartOf t) = timeOfDay t /\
  getDay (weekStartOf t) = 0%Z /\
  (t - 7 * DAY_MS < weekStartOf t <= t)%Z.
Proof.
  unfold timeOfDay, weekStartOf, getDay, DAY_MS.
  set (D := (24 * 60 * 60 * 1000)%Z).
  assert (HD : (0 < D)%Z) by (unfold D; lia).
  pose proof (Z.mod_pos_bound (t / D + 4) 7 ltac:(lia)) as Hk.
  set (k := ((t / D + 4) mod 7)%Z) in *.
  split; [|split].
  - replace (t - k * D)%Z with (t + (- k) * D)%Z by ring.
    apply Z_mod_plus_full.
  - replace (t - k * D)%Z with (t + (- k) * D)%Z by ring.
    rewrite Z_div_plus_full by lia.
    replace (t / D + - k + 4)%Z with ((t / D + 4) - k)%Z by ring.
    unfold k. rewrite Zminus_mod_idemp_r.
    rewrite Z.sub_diag. reflexivity.
  - nia.
Qed.

Lemma NoDup_map_finer {B C D : Type} (f : B -> C) (g : B -> D)
    (l : list B) :
  (forall x y, f x = f y -> g x = g y) ->
  NoDup (map g l) -> NoDup (map f l).
Proof.
  intros Hfg. induction l as [|x xs IH]; intros Hnd; simpl.
  - constructor.
  - inversion Hnd as [|? ? Hnotin Hrest]; subst. constructor.
    + intros Hin. apply Hnotin. apply in_map_iff in Hin.
      destruct Hin as (y & Hy & Hyin). apply in_map_iff.
      exists y. split; [apply Hfg; exact Hy | exact Hyin].
    + apply IH. exact Hrest.
Qed.

Lemma trainingFrequency_unfold (now : Z) (acts : list Activity) :
  trainingFrequency (analyzeTrainingLoad now acts)
  = inject_Z (Z.of_nat
      (length (nodup Z.eq_dec
                 (map (fun run => weekStartOf (start_date run))
                      (loadRunsOf now acts))))) / 4.
Proof. reflexivity. Qed.

(** The "weeks with runs" of the training load are counted by the instant
    [weekStart.getTime()], which keeps the time of day of the run: runs of
    the trailing 4 weeks that start at pairwise different times of day are
    all counted, whatever their weeks, so the training frequency is then the
    number of runs divided by 4 (and exceeds 1 from five runs on). In all
    cases it is at most that. *)
Theorem training_frequency_counts_start_times (now : Z)
    (acts : list Activity) :
  trainingFrequency (analyzeTrainingLoad now acts)
  <= inject_Z (Z.of_nat (length (loadRunsOf now acts))) / 4 /\
  (NoDup (map (fun a => timeOfDay (start_date a)) (loadRunsOf now acts)) ->
   trainingFrequency (analyzeTrainingLoad now acts)
   = inject_Z (Z.of_nat (length (loadRunsOf now acts))) / 4).
Proof.
  rewrite trainingFrequency_unfold. split.
  - unfold Qdiv. apply Qmult_le_compat_r; [|discriminate].
    rewrite <- Zle_Qle. apply Nat2Z.inj_le.
    erewrite <- (length_map _ (loadRunsOf now acts)).
    apply NoDup_incl_length; [apply NoDup_nodup|].
    intros x Hx. apply nodup_In in Hx. exact Hx.
  - intros Hnd.
    rewrite nodup_fixed_point, length_map; [reflexivity|].
    apply (NoDup_map_finer _ (fun a => timeOfDay (start_date a)));
      [|exact Hnd].
    intros x y Hxy.
    rewrite <- (proj1 (weekStartOf_time_of_day (start_date x))).
    rewrite <- (proj1 (weekStartOf_time_of_day (start_date y))).
    rewrite Hxy. reflexivity.
Qed.

Lemma training_frequency_counts_start_times_witness :
  trainingFrequency
    (analyzeTrainingLoad 864000000
       [mkActivity 5000 1500 "Run" 781200000;
        mkActivity 5000 1500 "Run" 784800000])
  = inject_Z 2 / 4.
Proof.
  apply (proj2 (training_frequency_counts_start_times 864000000
                  [mkActivity 5000 1500 "Run" 781200000;
                   mkActivity 5000 1500 "Run" 784800000])).
  vm_compute. repeat constructor; simpl; intuition discriminate.
Defined.

Lemma load_unfold (now : Z) (acts : list Activity) :
  exists form : Z,
    formTrend (analyzeTrainingLoad now acts) = form /\
    (form = 1 \/ form = 0 \/ form = -1)%Z /\
    trainingStress (analyzeTrainingLoad now acts)
    = JS.Math_min 1.0
        (JS.sumOf (fun run => distance run / 1000) (loadRunsOf now acts) / 4
         / 30
         + trainingFrequency (analyzeTrainingLoad now acts) * 0.2
         + inject_Z form * 0.1).
Proof.
  eexists. split; [reflexivity|]. split; [|reflexivity].
  unfold analyzeTrainingLoad. cbv zeta. cbn [formTrend].
  repeat match goal with
         | |- context [if ?c then _ else _] => destruct c
         end; auto.
Qed.

Lemma training_load_bounds_aux (now : Z) (acts : list Activity) :
  (forall a, In a acts -> 0 <= distance a) ->
  -0.1 <= trainingStress (analyzeTrainingLoad now acts) /\
  trainingStress (analyzeTrainingLoad now acts) <= 1 /\
  (formTrend (analyzeTrainingLoad now acts) = 1
   \/ formTrend (analyzeTrainingLoad now acts) = 0
   \/ formTrend (analyzeTrainingLoad now acts) = -1)%Z.
Proof.
  intros Hpos.
  destruct (load_unfold now acts) as (form & Ef & Hform & Es).
  split; [|split].
  - rewrite Es. apply Math_min_glb; [discriminate|].
    assert (Hs : 0 <= JS.sumOf (fun run => distance run / 1000)
                               (loadRunsOf now acts)).
    { apply sumOf_nonneg. intros a Ha.
      apply filter_In in Ha. destruct Ha as [Ha _].
      specialize (Hpos a Ha). apply Qle_shift_div_l; lra. }
    assert (Hfreq : 0 <= trainingFrequency (analyzeTrainingLoad now acts)).
    { rewrite trainingFrequency_unfold.
      apply Qle_shift_div_l; [reflexivity|].
      rewrite Qmult_0_l. change 0 with (inject_Z 0).
      rewrite <- Zle_Qle. lia. }
    set (s := JS.sumOf _ _) in *.
    set (fq := trainingFrequency _) in *.
    assert (Hdiv : s / 4 / 30 == s * (1 # 120)) by (field).
    rewrite Hdiv. clear Es Ef. clearbody s fq.
    destruct Hform as [ -> | [ -> | -> ] ]; unfold inject_Z; lra.
  - rewrite Es. eapply Qle_trans; [apply Math_min_le_l | discriminate].
  - rewrite Ef. exact Hform.
Qed.

(** The training load's stress score never exceeds 1, and with non-negative
    distances it is at least -0.1; the form trend is -1, 0 or 1, and is 0
    when fewer than 6 runs lie in the trailing 12 weeks. *)
Theorem training_load_is_bounded (now : Z) (acts : list Activity) :
  let load := analyzeTrainingLoad now acts in
  trainingStress load <= 1 /\
  (formTrend load = 1 \/ formTrend load = 0 \/ formTrend load = -1)%Z /\
  ((length (filter (fun a => (now - 84 * DAY_MS <=? start_date a)%Z
                             && isRun a) acts) < 6)%nat ->
   formTrend load = 0%Z) /\
  ((forall a, In a acts -> 0 <= distance a) -> -0.1 <= trainingStress load).
Proof.
  cbv zeta.
  destruct (load_unfold now acts) as (form & Ef & Hform & Es).
  split; [|split; [|split]].
  - rewrite Es. eapply Qle_trans; [apply Math_min_le_l | discriminate].
  - rewrite Ef. exact Hform.
  - intros Hlen. unfold analyzeTrainingLoad. cbv zeta. cbn [formTrend].
    set (longer := filter _ acts) in *.
    destruct (6 <=? length (JS.sliceLast 10 (JS.sortBy _ longer)))%nat eqn:E;
      [|reflexivity].
    exfalso. apply Nat.leb_le in E.
    assert (length (JS.sliceLast 10
                      (JS.sortBy (fun a b : Activity =>
                                    inject_Z (start_date a - start_date b))
                                 longer))
            <= length longer)%nat.
    { unfold JS.sliceLast. rewrite length_skipn, sortBy_length. lia. }
    lia.
  - intros Hpos. apply (training_load_bounds_aux now acts Hpos).
Qed.

Lemma training_load_is_bounded_witness :
  formTrend
    (analyzeTrainingLoad 864000000
       [mkActivity 5000 1500 "Run" 781200000;
        mkActivity 5000 1500 "Run" 784800000]) = 0%Z.
Proof.
  apply (proj1 (proj2 (proj2 (training_load_is_bounded 864000000
                  [mkActivity 5000 1500 "Run" 781200000;
                   mkActivity 5000 1500 "Run" 784800000])))).
  simpl. lia.
Defined.

End TrainingLoadFacts.

Section PredictionFacts.

Import Strava Predictions.

Variable now : Z.
Variable Math_pow : Q -> Q -> Q.
Variable Math_log : Q -> Q.

(** [reduce] with "take the current one when its key is smaller" returns an
    element of the array with the least key. *)
Lemma fold_pick_least {B : Type} (key : B -> Q) (xs : list B) (x : B) :
  let r := fold_left (fun best current =>
                        if JS.ltb (key current) (key best)
                        then current else best) xs x in
  In r (x :: xs) /\ forall y, In y (x :: xs) -> key r <= key y.
Proof.
  revert x. induction xs as [|z zs IH]; intros x; cbn [fold_left].
  - split; [left; reflexivity|]. intros y [<-|[]]. apply Qle_refl.
  - destruct (IH (if JS.ltb (key z) (key x) then z else x)) as [Hin Hle].
    split.
    + destruct Hin as [Hin|Hin]; [|right; right; exact Hin].
      rewrite <- Hin. destruct (JS.ltb (key z) (key x));
        [right; left | left]; reflexivity.
    + intros y Hy.
      assert (Hpick : key (if JS.ltb (key z) (key x) then z else x) <= key x
                      /\ key (if JS.ltb (key z) (key x) then z else x)
                         <= key z).
      { destruct (JS.ltb (key z) (key x)) eqn:E.
        - apply ltb_lt in E. split; [lra | apply Qle_refl].
        - apply ltb_ge in E. split; [apply Qle_refl | exact E]. }
      destruct Hy as [<-|[<-|Hy]].
      * eapply Qle_trans; [apply Hle; left; reflexivity | apply Hpick].
      * eapply Qle_trans; [apply Hle; left; reflexivity | apply Hpick].
      * apply Hle. right. exact Hy.
Qed.

Lemma similar_range_pos (d : Q) :
  0 < d -> 0 < fst (getSimilarDistanceRange d)
           /\ fst (getSimilarDistanceRange d) <= d
           /\ d <= snd (getSimilarDistanceRange d).
Proof.
  intros Hd. unfold getSimilarDistanceRange.
  destruct (JS.leb d 5); [|destruct (JS.leb d 10); [|destruct (JS.leb d 21.1)]];
    cbn [fst snd]; repeat split; lra.
Qed.

Lemma isSimilar_pace_pos (d : Q) (a : Activity) :
  0 < d -> isSimilar d a = true ->
  0 < distance a /\ 0 < moving_time a /\ 0 < paceOf a /\
  paceOf a == moving_time a / (distance a / 1000) / 60.
Proof.
  intros Hd Hs. unfold isSimilar in Hs.
  apply andb_prop in Hs. destruct Hs as [Hs Ht].
  apply andb_prop in Hs. destruct Hs as [Hlo _].
  apply geb_ge in Hlo. apply ltb_lt in Ht.
  destruct (similar_range_pos d Hd) as (Hpos & _).
  assert (Hdist : 0 < distance a) by lra.
  split; [exact Hdist|]. split; [exact Ht|]. split.
  - unfold paceOf. apply Qlt_shift_div_l.
    + apply Qlt_shift_div_l; lra.
    + rewrite Qmult_0_l. apply Qlt_shift_div_l; lra.
  - unfold paceOf. field. lra.
Qed.

Lemma calculateDistancePrediction_shape (acts : list Activity) (d : Q) :
  exists p,
    calculateDistancePrediction now Math_pow Math_log acts d = Returned p /\
    (p = insufficientData \/ exists q, p = fullPrediction d q).
Proof.
  unfold calculateDistancePrediction.
  set (similarRuns := filter _ acts).
  match goal with
  | |- context [bind ?m _] =>
      assert (Hm : exists o, m = Returned o)
  end.
  { destruct (0 <? length similarRuns)%nat eqn:E.
    - apply bind_returns; [|intros b; eexists; reflexivity].
      apply reduceOrThrow_returns.
      intros H0. rewrite H0 in E. discriminate E.
    - destruct (estimatePaceFromTraining_cases now Math_pow Math_log acts d)
        as [[_ Er]|(_ & _ & _ & _ & _ & q & Er)];
        rewrite Er; eexists; reflexivity. }
  destruct Hm as (o & ->). cbn [bind].
  destruct o as [q|]; [destruct (Qeq_bool q 0)|];
    eexists; (split; [reflexivity|]);
    try (left; reflexivity).
  right. eexists. reflexivity.
Qed.

Lemma figuresAgree_full (d q : Q) : figuresAgree d (fullPrediction d q).
Proof. unfold figuresAgree. cbn. repeat split. Qed.

Lemma figuresAgree_setAvailable (d : Q) (p : Prediction) :
  figuresAgree d p -> figuresAgree d (setAvailable p).
Proof.
  unfold figuresAgree. cbn.
  destruct (time p), (pace p); tauto.
Qed.

Lemma figuresAgree_setReason (d : Q) (r : string) (p : Prediction) :
  figuresAgree d p -> figuresAgree d (setReason r p).
Proof.
  unfold figuresAgree. cbn. destruct (time p), (pace p); tauto.
Qed.

Lemma figuresAgree_callee (acts : list Activity) (d : Q) :
  exists p,
    calculateDistancePrediction now Math_pow Math_log acts d = Returned p /\
    figuresAgree d p.
Proof.
  destruct (calculateDistancePrediction_shape acts d) as (p & E & [->|(q & ->)]).
  - eexists. split; [exact E|]. split; reflexivity.
  - eexists. split; [exact E|]. apply figuresAgree_full.
Qed.

(** The predictor never throws, and each of the four predictions it returns
    is coherent in its figures: either time, pace and both formatted strings
    are all absent, or the time is the pace times the race distance, both
    strings are the formatted figures and the prediction is flagged
    available. *)
Theorem predictions_return_coherent_figures (acts : list Activity) :
  exists ps,
    calculateRacePredictions now Math_pow Math_log acts = Returned ps /\
    figuresAgree 5 (_5K ps) /\ figuresAgree 10 (_10K ps) /\
    figuresAgree 21.1 (halfMarathon ps) /\ figuresAgree 42.2 (marathon ps).
Proof.
  unfold calculateRacePredictions. cbv zeta.
  destruct (length (recentActivitiesOf now acts) <? 5)%nat.
  - eexists. split; [reflexivity|]. repeat split.
  - destruct (figuresAgree_callee (recentActivitiesOf now acts) 5)
      as (p5 & -> & H5).
    destruct (figuresAgree_callee (recentActivitiesOf now acts) 10)
      as (p10 & -> & H10).
    destruct (figuresAgree_callee (recentActivitiesOf now acts) 21.1)
      as (pH & -> & HH).
    destruct (figuresAgree_callee (recentActivitiesOf now acts) 42.2)
      as (pF & -> & HF).
    cbn [bind].
    destruct (5 <=? length (recentActivitiesOf now acts))%nat,
             (10 <=? length (recentActivitiesOf now acts))%nat,
             (20 <=? length (recentActivitiesOf now acts))%nat;
      eexists; (split; [reflexivity|]); cbn [_5K _10K halfMarathon marathon];
      repeat split;
      first [apply figuresAgree_setAvailable | apply figuresAgree_setReason];
      assumption.
Qed.

(** With a run of similar distance among the activities (all of
    non-negative distance), the prediction for a positive distance is
    available with an empty reason, its time is its pace times the distance,
    and its pace is the pace of the fastest similar run scaled by the
    training and form adjustments, which keep it between 0.9506 and 1.0455
    times that pace; so it is never more than 4.55 % slower than any similar
    run. *)
Theorem direct_prediction_follows_fastest_similar_run (acts : list Activity)
    (d : Q) :
  0 < d ->
  (forall a, In a acts -> 0 <= distance a) ->
  (exists a, In a acts /\ isSimilar d a = true) ->
  exists best q,
    calculateDistancePrediction now Math_pow Math_log acts d
    = Returned (fullPrediction d q) /\
    In best acts /\ isSimilar d best = true /\
    (forall a, In a acts -> isSimilar d a = true ->
               paceOf best <= paceOf a /\ q <= 1.0455 * paceOf a) /\
    0.9506 * paceOf best <= q <= 1.0455 * paceOf best.
Proof.
  intros Hd Hpos (a0 & Ha0 & Hs0).
  unfold calculateDistancePrediction. cbv zeta.
  change (filter _ acts) with (filter (isSimilar d) acts).
  destruct (filter (isSimilar d) acts) as [|x xs] eqn:Ef.
  { exfalso. assert (Hin : In a0 (filter (isSimilar d) acts))
      by (apply filter_In; split; assumption).
    rewrite Ef in Hin. exact Hin. }
  cbn [length Nat.ltb Nat.leb reduceOrThrow JS.reduce1 bind].
  set (key := fun a : Activity => moving_time a / (distance a / 1000)).
  destruct (fold_pick_least key xs x) as [Hin Hleast].
  set (best := fold_left _ xs x) in *.
  rewrite <- Ef in Hin, Hleast.
  apply filter_In in Hin. destruct Hin as [Hbin Hbs].
  destruct (isSimilar_pace_pos d best Hd Hbs) as (_ & _ & Hbpos & Hbkey).
  assert (Hne : Qeq_bool (paceOf best) 0 = false).
  { destruct (Qeq_bool (paceOf best) 0) eqn:E; [|reflexivity].
    apply Qeq_bool_iff in E. lra. }
  rewrite Hne.
  destruct (training_load_bounds_aux now acts Hpos) as (Hlo & Hhi & Hform).
  set (stress := trainingStress (analyzeTrainingLoad now acts)) in *.
  set (formAdj := if (formTrend (analyzeTrainingLoad now acts) =? 1)%Z
                  then 0.98
                  else if (formTrend (analyzeTrainingLoad now acts) =? -1)%Z
                       then 1.02 else 1.0) in *.
  assert (Hfa : 0.98 <= formAdj <= 1.02).
  { unfold formAdj. destruct Hform as [ -> | [ -> | -> ] ]; cbn; lra. }
  exists best. eexists. split; [reflexivity|].
  split; [exact Hbin|]. split; [exact Hbs|].
  clearbody stress formAdj.
  set (p := paceOf best) in *. clearbody p.
  assert (Hq : 0.9506 * p <= p * (1 + (stress - 0.5) * 0.05) * formAdj
               <= 1.0455 * p).
  { set (t := 1 + (stress - 0.5) * 0.05).
    assert (Ht : 0.97 <= t <= 1.025) by (unfold t; lra).
    clearbody t.
    assert (Hu : 0.97 * p <= p * t <= 1.025 * p) by (split; nra).
    set (u := p * t) in *. clearbody u.
    assert (Hu0 : 0 <= u) by lra.
    assert (Huf : 0.98 * u <= u * formAdj <= 1.02 * u) by (split; nra).
    lra. }
  split; [|exact Hq].
  intros a Ha Hsa.
  assert (Hle : p <= paceOf a).
  { destruct (isSimilar_pace_pos d a Hd Hsa) as (_ & _ & _ & Hakey).
    assert (Hk : key best <= key a)
      by (apply Hleast; apply filter_In; split; assumption).
    unfold key in Hk.
    assert (Hp : p == key best / 60) by (unfold key; exact Hbkey).
    unfold key in Hp. rewrite Hp, Hakey.
    unfold Qdiv at 1 3. apply Qmult_le_compat_r; [exact Hk | discriminate]. }
  split; [exact Hle|]. lra.
Qed.

End PredictionFacts.

Lemma direct_prediction_follows_fastest_similar_run_witness :
  exists best q,
    Predictions.calculateDistancePrediction 864000000 (fun _ _ => 1) (fun _ => 0)
      [Strava.mkActivity 5000 1500 "Run" 781200000;
       Strava.mkActivity 5200 1500 "Run" 784800000] 5
    = Predictions.Returned (fullPrediction 5 q) /\
    In best [Strava.mkActivity 5000 1500 "Run" 781200000;
             Strava.mkActivity 5200 1500 "Run" 784800000] /\
    0.9506 * Strava.paceOf best <= q <= 1.0455 * Strava.paceOf best.
Proof.
  destruct (direct_prediction_follows_fastest_similar_run
              864000000 (fun _ _ => 1) (fun _ => 0)
              [Strava.mkActivity 5000 1500 "Run" 781200000;
               Strava.mkActivity 5200 1500 "Run" 784800000] 5)
    as (best & q & E & Hin & _ & _ & Hq).
  - reflexivity.
  - intros a [<-|[<-|[]]]; discriminate.
  - eexists. split; [left; reflexivity | reflexivity].
  - exists best, q. split; [|split]; assumption.
Defined.

(** * Further properties of the pacing strategy *)

Section SplitTableFacts.

Import Pacing.

Lemma Qsum_snoc (l : list Q) (x : Q) : Qsum (l ++ [x]) == Qsum l + x.
Proof. rewrite Qsum_app. simpl. ring. Qed.

(** What the loop maintains: after [k] iterations the running totals are
    the sums over the splits pushed so far, and the split at index [i] was
    built by iteration [i + 1]. *)
Lemma fold_pushSplit_invariant (d p : Q) (s : Strategy) (n : nat) :
  forall (k : nat) (cd ct : Q) (sp : list Split.PacingSplit),
    length sp = k ->
    cd == Qsum (map Split.distance sp) ->
    ct == Qsum (map Split.targetTime sp) ->
    (forall i x, nth_error sp i = Some x ->
       Split.splitNumber x = S i /\
       Split.distance x = splitDistanceOf d (S i) /\
       Split.targetPace x = fst (splitPaceOf d p s (S i)) /\
       Split.targetTime x = Split.targetPace x * Split.distance x /\
       Split.cumulativeDistance x
       == Qsum (map Split.distance (firstn (S i) sp)) /\
       Split.cumulativeTime x
       == Qsum (map Split.targetTime (firstn (S i) sp)) /\
       Split.paceFormatted x
       = Utils.formatPaceFromMinKm (Split.targetPace x) /\
       Split.splitTimeFormatted x
       = Utils.formatRaceTime (Split.targetTime x) /\
       Split.cumulativeTimeFormatted x
       = Utils.formatRaceTime (Split.cumulativeTime x)) ->
    let sp' := snd (fold_left (pushSplit d p s) (seq (S k) n) (cd, ct, sp)) in
    length sp' = (k + n)%nat /\
    (forall i x, nth_error sp' i = Some x ->
       Split.splitNumber x = S i /\
       Split.distance x = splitDistanceOf d (S i) /\
       Split.targetPace x = fst (splitPaceOf d p s (S i)) /\
       Split.targetTime x = Split.targetPace x * Split.distance x /\
       Split.cumulativeDistance x
       == Qsum (map Split.distance (firstn (S i) sp')) /\
       Split.cumulativeTime x
       == Qsum (map Split.targetTime (firstn (S i) sp')) /\
       Split.paceFormatted x
       = Utils.formatPaceFromMinKm (Split.targetPace x) /\
       Split.splitTimeFormatted x
       = Utils.formatRaceTime (Split.targetTime x) /\
       Split.cumulativeTimeFormatted x
       = Utils.formatRaceTime (Split.cumulativeTime x)).
Proof.
  induction n as [|n IH]; intros k cd ct sp Hlen Hcd Hct Hsp; cbv zeta.
  - cbn [seq fold_left snd]. split; [lia | exact Hsp].
  - cbn [seq fold_left].
    destruct (splitPaceOf d p s (S k)) as [tp note] eqn:Epace.
    destruct (pushSplit d p s (cd, ct, sp) (S k)) as [[cd' ct'] sp']
      eqn:Estep.
    unfold pushSplit in Estep. rewrite Epace in Estep.
    inversion Estep. clear Estep.
    replace (k + S n)%nat with (S k + n)%nat by lia.
    apply IH.
    + rewrite length_app. simpl. lia.
    + rewrite map_app. cbn [map Split.distance].
      rewrite Qsum_snoc, Hcd. reflexivity.
    + rewrite map_app. cbn [map Split.targetTime].
      rewrite Qsum_snoc, Hct. reflexivity.
    + intros i x Hx.
      destruct (Nat.lt_ge_cases i (length sp)) as [Hi|Hi].
      * rewrite nth_error_app1 in Hx by exact Hi.
        destruct (Hsp i x Hx) as (G1 & G2 & G3 & G4 & G5 & G6 & G7).
        rewrite firstn_app.
        replace (S i - length sp)%nat with 0%nat by lia.
        cbn [firstn]. rewrite app_nil_r. tauto.
      * rewrite nth_error_app2 in Hx by exact Hi.
        destruct (i - length sp)%nat as [|m] eqn:Em;
          [|destruct m; discriminate Hx].
        assert (i = k) by lia. subst i.
        cbn [nth_error] in Hx. inversion Hx. subst x. clear Hx.
        cbn [Split.splitNumber Split.distance Split.targetPace
             Split.targetTime Split.cumulativeDistance Split.cumulativeTime
             Split.paceFormatted Split.splitTimeFormatted
             Split.cumulativeTimeFormatted].
        rewrite Epace. cbn [fst].
        rewrite firstn_all2 by (rewrite length_app; simpl; lia).
        rewrite !map_app.
        cbn [map Split.distance Split.targetTime].
        repeat split; try reflexivity.
        -- rewrite Qsum_snoc, Hcd. reflexivity.
        -- rewrite Qsum_snoc, Hct. reflexivity.
Qed.

Lemma splits_table (d p : Q) (s : Strategy) :
  let sp := splits (generatePacingStrategy d p s) in
  length sp = Z.to_nat (JS.Math_ceil d) /\
  (forall i x, nth_error sp i = Some x ->
     Split.splitNumber x = S i /\
     Split.distance x = splitDistanceOf d (S i) /\
     Split.targetPace x = fst (splitPaceOf d p s (S i)) /\
     Split.targetTime x = Split.targetPace x * Split.distance x /\
     Split.cumulativeDistance x
     == Qsum (map Split.distance (firstn (S i) sp)) /\
     Split.cumulativeTime x
     == Qsum (map Split.targetTime (firstn (S i) sp)) /\
     Split.paceFormatted x
     = Utils.formatPaceFromMinKm (Split.targetPace x) /\
     Split.splitTimeFormatted x
     = Utils.formatRaceTime (Split.targetTime x) /\
     Split.cumulativeTimeFormatted x
     = Utils.formatRaceTime (Split.cumulativeTime x)).
Proof.
  cbv zeta. rewrite splits_unfold.
  apply (fold_pushSplit_invariant d p s (Z.to_nat (JS.Math_ceil d))
           0 0 0 []).
  - reflexivity.
  - reflexivity.
  - reflexivity.
  - intros i x Hx. destruct i; discriminate Hx.
Qed.

(** The split table of a pacing strategy has one row per started
    kilometre, numbered from 1; each row's time is its pace times its
    distance, its cumulative distance and time are the sums over the rows up
    to it, and its three strings are the formatted pace, time and
    cumulative time. *)
Theorem splits_are_numbered_and_cumulative (d p : Q) (s : Strategy)
    (i : nat) (x : Split.PacingSplit) :
  let sp := splits (generatePacingStrategy d p s) in
  nth_error sp i = Some x ->
  length sp = Z.to_nat (JS.Math_ceil d) /\
  Split.splitNumber x = S i /\
  Split.targetTime x = Split.targetPace x * Split.distance x /\
  Split.cumulativeDistance x == Qsum (map Split.distance (firstn (S i) sp)) /\
  Split.cumulativeTime x == Qsum (map Split.targetTime (firstn (S i) sp)) /\
  Split.paceFormatted x = Utils.formatPaceFromMinKm (Split.targetPace x) /\
  Split.splitTimeFormatted x = Utils.formatRaceTime (Split.targetTime x) /\
  Split.cumulativeTimeFormatted x
  = Utils.formatRaceTime (Split.cumulativeTime x).
Proof.
  cbv zeta. intros Hx.
  destruct (splits_table d p s) as [Hlen Hrows].
  destruct (Hrows i x Hx) as (H1 & H2 & H3 & H4 & H5 & H6 & H7).
  tauto.
Qed.

Lemma splits_are_numbered_and_cumulative_witness :
  exists x,
    nth_error (splits (generatePacingStrategy 5 5 even)) 2 = Some x /\
    Split.splitNumber x = 3%nat /\
    Split.cumulativeDistance x
    == Qsum (map Split.distance
               (firstn 3 (splits (generatePacingStrategy 5 5 even)))).
Proof.
  eexists. split; [vm_compute; reflexivity|].
  split;
    eapply (splits_are_numbered_and_cumulative 5 5 even 2);
    vm_compute; reflexivity.
Defined.

Lemma splits_In (d p : Q) (s : Strategy) (x : Split.PacingSplit) :
  In x (splits (generatePacingStrategy d p s)) ->
  (1 <= Z.of_nat (Split.splitNumber x) <= JS.Math_ceil d)%Z /\
  Split.targetPace x = fst (splitPaceOf d p s (Split.splitNumber x)).
Proof.
  intros Hin. apply In_nth_error in Hin. destruct Hin as (i & Hi).
  destruct (splits_table d p s) as [Hlen Hrows].
  destruct (Hrows i x Hi) as (H1 & _ & H3 & _).
  assert (Hlt : (i < length (splits (generatePacingStrategy d p s)))%nat)
    by (apply nth_error_Some; rewrite Hi; discriminate).
  rewrite Hlen in Hlt. rewrite H1. split; [lia | exact H3].
Qed.

Lemma ratio_first_half (c : Z) (i : nat) :
  (0 < c)%Z -> (2 * Z.of_nat i <= c)%Z ->
  inject_Z (Z.of_nat i) / inject_Z c <= 0.5.
Proof.
  intros Hc Hi.
  assert (Hq : 0 < inject_Z c)
    by (change 0 with (inject_Z 0); rewrite <- Zlt_Qlt; exact Hc).
  apply Qle_shift_div_r; [exact Hq|].
  rewrite Zle_Qle, inject_Z_mult in Hi.
  change (inject_Z 2) with 2 in Hi. lra.
Qed.

Lemma ratio_second_half (c : Z) (i : nat) :
  (0 < c)%Z -> (c < 2 * Z.of_nat i)%Z ->
  0.5 < inject_Z (Z.of_nat i) / inject_Z c.
Proof.
  intros Hc Hi.
  assert (Hq : 0 < inject_Z c)
    by (change 0 with (inject_Z 0); rewrite <- Zlt_Qlt; exact Hc).
  apply Qlt_shift_div_l; [exact Hq|].
  rewrite Zlt_Qlt, inject_Z_mult in Hi.
  change (inject_Z 2) with 2 in Hi. lra.
Qed.

Lemma halves_of_split_pace (d p : Q) (i : nat) :
  0 < p -> (0 < JS.Math_ceil d)%Z -> (Z.of_nat i <= JS.Math_ceil d)%Z ->
  ((2 * Z.of_nat i <= JS.Math_ceil d)%Z ->
   fst (splitPaceOf d p negative i) = p * 1.02 /\
   fst (splitPaceOf d p positive i) = p * 0.98) /\
  ((JS.Math_ceil d < 2 * Z.of_nat i)%Z ->
   0.98 * p <= fst (splitPaceOf d p negative i) <= 0.9898 * p /\
   1.02 * p <= fst (splitPaceOf d p positive i) <= 1.0302 * p).
Proof.
  intros Hp Hc Hi. unfold splitPaceOf.
  pose proof (progressRatio_le_1 _ _ Hc Hi) as Hr.
  split; intros Hhalf.
  - pose proof (ratio_first_half _ _ Hc Hhalf) as Hlow.
    set (r := inject_Z (Z.of_nat i) / inject_Z (JS.Math_ceil d)) in *.
    assert (E1 : JS.leb r 0.5 = true) by (apply leb_le; exact Hlow).
    assert (E2 : JS.gtb r 0.75 = false) by (apply ltb_ge; lra).
    rewrite E1, E2. destruct (JS.geb d 21.1); split; reflexivity.
  - pose proof (ratio_second_half _ _ Hc Hhalf) as Hhigh.
    set (r := inject_Z (Z.of_nat i) / inject_Z (JS.Math_ceil d)) in *.
    assert (E1 : JS.leb r 0.5 = false) by (apply leb_gt; exact Hhigh).
    rewrite E1.
    destruct (JS.geb d 21.1); [destruct (JS.gtb r 0.75) eqn:E2|];
      cbn [fst]; try (split; split; lra).
    apply ltb_lt in E2.
    destruct (fatigue_bounds (p * 0.98) r ltac:(lra) E2 Hr) as [Ha Hb].
    destruct (fatigue_bounds (p * 1.02) r ltac:(lra) E2 Hr) as [Hc' Hd].
    split; split; lra.
Qed.

(** The negative split runs its second half faster than its first, and the
    positive split the reverse: a row of the first half (twice its number at
    most the number of rows) is paced at 1.02 (negative) or 0.98 (positive)
    times the base pace, and a row of the second half between 0.98 and
    0.9898 (negative) or between 1.02 and 1.0302 (positive) times it. *)
Theorem split_strategies_order_the_halves (d p : Q)
    (x y : Split.PacingSplit) :
  0 < p ->
  (2 * Z.of_nat (Split.splitNumber x) <= JS.Math_ceil d)%Z ->
  (JS.Math_ceil d < 2 * Z.of_nat (Split.splitNumber y))%Z ->
  (In x (splits (generatePacingStrategy d p negative)) ->
   In y (splits (generatePacingStrategy d p negative)) ->
   Split.targetPace x = p * 1.02 /\
   0.98 * p <= Split.targetPace y <= 0.9898 * p /\
   Split.targetPace y < Split.targetPace x) /\
  (In x (splits (generatePacingStrategy d p positive)) ->
   In y (splits (generatePacingStrategy d p positive)) ->
   Split.targetPace x = p * 0.98 /\
   1.02 * p <= Split.targetPace y <= 1.0302 * p /\
   Split.targetPace x < Split.targetPace y).
Proof.
  intros Hp Hx Hy.
  split; intros Hinx Hiny;
    destruct (splits_In _ _ _ _ Hinx) as [Hnx Epx];
    destruct (splits_In _ _ _ _ Hiny) as [Hny Epy];
    destruct (halves_of_split_pace d p (Split.splitNumber x) Hp
                ltac:(lia) ltac:(lia)) as [Hfirst _];
    destruct (halves_of_split_pace d p (Split.splitNumber y) Hp
                ltac:(lia) ltac:(lia)) as [_ Hsecond];
    destruct (Hfirst Hx) as [Fn Fp];
    destruct (Hsecond Hy) as [Sn Sp];
    rewrite Epx, Epy.
  - rewrite Fn. split; [reflexivity|]. split; [exact Sn | lra].
  - rewrite Fp. split; [reflexivity|]. split; [exact Sp | lra].
Qed.

End SplitTableFacts.

Lemma split_strategies_order_the_halves_witness :
  exists x y,
    nth_error (Pacing.splits
                 (Pacing.generatePacingStrategy 5 5 Pacing.negative)) 1
    = Some x /\
    nth_error (Pacing.splits
                 (Pacing.generatePacingStrategy 5 5 Pacing.negative)) 2
    = Some y /\
    Pacing.Split.targetPace y < Pacing.Split.targetPace x.
Proof.
  eexists. eexists.
  split; [vm_compute; reflexivity|].
  split; [vm_compute; reflexivity|].
  refine (proj2 (proj2 (proj1
            (split_strategies_order_the_halves 5 5 _ _ _ _ _) _ _))).
  - reflexivity.
  - vm_compute. discriminate.
  - vm_compute. reflexivity.
  - vm_compute. auto 10.
  - vm_compute. auto 10.
Defined.

(** * Properties of the formatters *)

Section FormatFacts.

Import Utils Format.

Lemma Qfloor_unique (x : Q) (z : Z) :
  inject_Z z <= x -> x < inject_Z (z + 1) -> Qfloor x = z.
Proof.
  intros Hlo Hhi.
  assert (H1 : (z <= Qfloor x)%Z).
  { rewrite <- (Qfloor_Z z). apply Qfloor_resp_le. exact Hlo. }
  assert (H2 : (Qfloor x < z + 1)%Z).
  { rewrite Zlt_Qlt. pose proof (Qfloor_le x). lra. }
  lia.
Qed.

Lemma rem_nonneg (x y : Q) :
  0 <= x -> 0 < y -> JS.rem x y == x - y * inject_Z (Qfloor (x / y)).
Proof.
  intros Hx Hy. unfold JS.rem, JS.trunc.
  assert (H : JS.ltb (x / y) 0 = false).
  { apply ltb_ge. apply Qle_shift_div_l; [exact Hy | lra]. }
  rewrite H. reflexivity.
Qed.

Lemma rem_1_nonneg (x : Q) :
  0 <= x -> JS.rem x 1 == x - inject_Z (Qfloor x).
Proof.
  intros Hx. rewrite rem_nonneg by lra.
  assert (E : x / 1 == x) by field.
  rewrite (Qfloor_comp _ _ E). ring.
Qed.

Lemma string_append_assoc (a b c : string) :
  ((a ++ b) ++ c)%string = (a ++ (b ++ c))%string.
Proof.
  induction a as [|ch a IH]; simpl; [reflexivity|].
  rewrite IH. reflexivity.
Qed.

Lemma Math_round_comp (x y : Q) : x == y -> JS.Math_round x = JS.Math_round y.
Proof.
  intros H. unfold JS.Math_round. apply Qfloor_comp. rewrite H. reflexivity.
Qed.

(** On a non-negative pace the two pace formatters print the same minutes
    and seconds: [formatPaceFromMinKm] gives what [formatSingle] (of
    [formatPaceRange]) gives, followed by the unit. *)
Theorem pace_formatters_agree (pace : Q) :
  0 <= pace ->
  formatPaceFromMinKm pace = (formatSingle pace ++ " min/km")%string.
Proof.
  intros Hp.
  unfold formatPaceFromMinKm, formatSingle. cbv zeta.
  assert (E : JS.Math_round ((pace - inject_Z (JS.Math_floor pace)) * 60)
              = JS.Math_round (JS.rem pace 1 * 60)).
  { apply Math_round_comp. rewrite rem_1_nonneg by exact Hp.
    reflexivity. }
  rewrite E.
  rewrite string_append_assoc. reflexivity.
Qed.

Lemma pace_formatters_agree_witness :
  formatPaceFromMinKm 5.5 = (formatSingle 5.5 ++ " min/km")%string.
Proof. apply pace_formatters_agree. discriminate. Defined.

(** The seconds printed by [formatPaceFromMinKm] lie between 0 and 60, and
    60 is reached: when the fractional minute is at least 119/120 the
    rounding gives 60 and no minute is carried, so the pace prints as
    "m:60 min/km". *)
Theorem pace_seconds_reach_60 (pace : Q) :
  let secs :=
    JS.Math_round ((pace - inject_Z (JS.Math_floor pace)) * 60) in
  (0 <= secs <= 60)%Z /\
  (119 # 120 <= pace - inject_Z (Qfloor pace) ->
   formatPaceFromMinKm pace
   = (JS.showInt (Qfloor pace) ++ ":60 min/km")%string) /\
  (pace - inject_Z (Qfloor pace) < 119 # 120 -> (secs < 60)%Z).
Proof.
  cbv zeta. unfold JS.Math_floor.
  pose proof (Qfloor_le pace) as Hlo. pose proof (Qlt_floor pace) as Hhi.
  rewrite inject_Z_plus in Hhi. change (inject_Z 1) with 1 in Hhi.
  set (f := pace - inject_Z (Qfloor pace)) in *.
  assert (Hf : 0 <= f < 1) by (unfold f; split; lra).
  pose proof (Qfloor_le (f * 60 + 0.5)) as Rlo.
  pose proof (Qlt_floor (f * 60 + 0.5)) as Rhi.
  rewrite inject_Z_plus in Rhi. change (inject_Z 1) with 1 in Rhi.
  unfold JS.Math_round.
  split; [|split].
  - split.
    + assert (H : (-1 < Qfloor (f * 60 + 0.5))%Z)
        by (rewrite Zlt_Qlt; change (inject_Z (-1)) with (-1); lra).
      lia.
    + assert (H : (Qfloor (f * 60 + 0.5) < 61)%Z)
        by (rewrite Zlt_Qlt; change (inject_Z 61) with 61; lra).
      lia.
  - intros H60.
    assert (E : Qfloor (f * 60 + 0.5) = 60%Z).
    { apply Qfloor_unique.
      - change (inject_Z 60) with 60. lra.
      - change (inject_Z (60 + 1)) with 61. lra. }
    unfold formatPaceFromMinKm, JS.Math_floor, JS.Math_round. cbv zeta.
    fold f. rewrite E. reflexivity.
  - intros Hlt.
    assert (H : (Qfloor (f * 60 + 0.5) < 60)%Z)
      by (rewrite Zlt_Qlt; change (inject_Z 60) with 60; lra).
    exact H.
Qed.

Lemma pace_seconds_reach_60_witness :
  formatPaceFromMinKm (5999 # 1000) = "5:60 min/km"%string.
Proof.
  apply (proj1 (proj2 (pace_seconds_reach_60 (5999 # 1000)))).
  vm_compute. discriminate.
Defined.

(** A race time of [h] hours, [m] minutes and [s] whole seconds prints as
    h:mm:ss, and as m:ss when it is under an hour. *)
Theorem race_time_prints_its_parts (h m s : Z) :
  (0 <= h)%Z -> (0 <= m < 60)%Z -> (0 <= s < 60)%Z ->
  formatRaceTime (inject_Z (60 * h + m) + inject_Z s / 60)
  = if (0 <? h)%Z
    then (JS.showInt h ++ ":" ++ JS.padStart2 (JS.showInt m)
          ++ ":" ++ JS.padStart2 (JS.showInt s))%string
    else (JS.showInt m ++ ":" ++ JS.padStart2 (JS.showInt s))%string.
Proof.
  intros Hh Hm Hs.
  set (t := inject_Z (60 * h + m) + inject_Z s / 60).
  assert (Qh : 0 <= inject_Z h)
    by (change 0 with (inject_Z 0); rewrite <- Zle_Qle; lia).
  assert (Qm : 0 <= inject_Z m /\ inject_Z m <= 59).
  { change 0 with (inject_Z 0). change 59 with (inject_Z 59).
    rewrite <- !Zle_Qle. lia. }
  assert (Qs : 0 <= inject_Z s /\ inject_Z s <= 59).
  { change 0 with (inject_Z 0). change 59 with (inject_Z 59).
    rewrite <- !Zle_Qle. lia. }
  assert (Et : t == 60 * inject_Z h + inject_Z m + inject_Z s / 60).
  { unfold t. rewrite inject_Z_plus, inject_Z_mult.
    change (inject_Z 60) with 60. reflexivity. }
  assert (Hs60 : inject_Z s / 60 == inject_Z s * (1 # 60)) by field.
  assert (Ht0 : 0 <= t) by (rewrite Et, Hs60; lra).
  assert (Ehours : Qfloor (t / 60) = h).
  { apply Qfloor_unique.
    - apply Qle_shift_div_l; [reflexivity|]. rewrite Et, Hs60. lra.
    - apply Qlt_shift_div_r; [reflexivity|].
      rewrite inject_Z_plus. change (inject_Z 1) with 1.
      rewrite Et, Hs60. lra. }
  assert (Erem60 : JS.rem t 60 == inject_Z m + inject_Z s / 60).
  { rewrite rem_nonneg by (try exact Ht0; reflexivity).
    rewrite Ehours, Et. ring. }
  assert (Eminutes : Qfloor (JS.rem t 60) = m).
  { apply Qfloor_unique.
    - rewrite Erem60, Hs60. lra.
    - rewrite inject_Z_plus. change (inject_Z 1) with 1.
      rewrite Erem60, Hs60. lra. }
  assert (Efloor : Qfloor t = (60 * h + m)%Z).
  { apply Qfloor_unique.
    - unfold t. rewrite Hs60. lra.
    - rewrite inject_Z_plus. change (inject_Z 1) with 1.
      unfold t. rewrite Hs60. lra. }
  assert (Eseconds : JS.Math_round (JS.rem t 1 * 60) = s).
  { unfold JS.Math_round. apply Qfloor_unique.
    - rewrite rem_1_nonneg by exact Ht0. rewrite Efloor. unfold t.
      rewrite Hs60. lra.
    - rewrite inject_Z_plus. change (inject_Z 1) with 1.
      rewrite rem_1_nonneg by exact Ht0. rewrite Efloor. unfold t.
      rewrite Hs60. lra. }
  unfold formatRaceTime, JS.Math_floor. cbv zeta.
  rewrite Ehours, Eminutes, Eseconds. reflexivity.
Qed.

Lemma race_time_prints_its_parts_witness :
  formatRaceTime (inject_Z (60 * 1 + 23) + inject_Z 45 / 60)
  = "1:23:45"%string.
Proof.
  apply (race_time_prints_its_parts 1 23 45); lia.
Defined.

End FormatFacts.

(** * Properties of the historical trend *)

Section OutlierFacts.

Import History.

Lemma onlyClears_refl (p : DataPoint) : onlyClears p p.
Proof. split; [reflexivity|]. intros k. left. reflexivity. Qed.

Lemma onlyClears_trans (p q r : DataPoint) :
  onlyClears p q -> onlyClears q r -> onlyClears p r.
Proof.
  intros [Hd1 Ht1] [Hd2 Ht2]. split; [congruence|].
  intros k. destruct (Ht2 k) as [E|E]; [|right; exact E].
  rewrite E. apply Ht1.
Qed.

Lemma clearTime_onlyClears (k : DistanceKey) (p : DataPoint) :
  onlyClears p (clearTime k p).
Proof.
  split; [reflexivity|]. intros k'. destruct k, k'; cbn; auto.
Qed.

Lemma Forall2_map_r {B C : Type} (R : B -> C -> Prop) (f : B -> C)
    (l : list B) :
  (forall x, R x (f x)) -> Forall2 R l (map f l).
Proof.
  intros H. induction l as [|x xs IH]; simpl; constructor; auto.
Qed.

Lemma Forall2_onlyClears_trans (l1 l2 l3 : list DataPoint) :
  Forall2 onlyClears l1 l2 -> Forall2 onlyClears l2 l3 ->
  Forall2 onlyClears l1 l3.
Proof.
  intros H12. revert l3. induction H12 as [|x y xs ys Hxy _ IH];
    intros l3 H23; inversion H23; subst; constructor.
  - eapply onlyClears_trans; eassumption.
  - apply IH. assumption.
Qed.

Lemma filterDistance_onlyClears (data : list DataPoint) (k : DistanceKey) :
  Forall2 onlyClears data (filterDistance data k).
Proof.
  unfold filterDistance. cbv zeta.
  destruct (length _ <? 3)%nat.
  - pose proof (Forall2_map_r onlyClears (fun x => x) data onlyClears_refl)
      as H. rewrite map_id in H. exact H.
  - apply Forall2_map_r. intros p.
    destruct (getTime k p); [|apply onlyClears_refl].
    destruct (_ || _); [apply clearTime_onlyClears | apply onlyClears_refl].
Qed.

Lemma filterOutliers_onlyClears (data : list DataPoint) :
  Forall2 onlyClears data (filterOutliers data).
Proof.
  assert (Hrefl : Forall2 onlyClears data data).
  { pose proof (Forall2_map_r onlyClears (fun x => x) data onlyClears_refl)
      as H. rewrite map_id in H. exact H. }
  unfold filterOutliers. destruct (length data <? 3)%nat; [exact Hrefl|].
  cbn [fold_left].
  repeat (eapply Forall2_onlyClears_trans;
          [|apply filterDistance_onlyClears]).
  exact Hrefl.
Qed.

Lemma Forall2_nth_error {B C : Type} (R : B -> C -> Prop) (l : list B)
    (l' : list C) :
  Forall2 R l l' ->
  forall i x, nth_error l i = Some x ->
              exists y, nth_error l' i = Some y /\ R x y.
Proof.
  induction 1 as [|a b l l' Hab _ IH]; intros i x Hx.
  - destruct i; discriminate.
  - destruct i as [|i]; simpl in *.
    + inversion Hx; subst. eauto.
    + apply IH. exact Hx.
Qed.

(** The outlier filter of the trend never moves, adds or drops a data
    point and never changes a date or a time: the point at each index keeps
    its date, and each of its four times is either kept or set to null.
    With fewer than three points nothing changes. *)
Theorem outlier_filter_only_clears (data : list DataPoint) (i : nat)
    (p : DataPoint) :
  nth_error data i = Some p ->
  length (filterOutliers data) = length data /\
  (exists p', nth_error (filterOutliers data) i = Some p' /\
              onlyClears p p') /\
  ((length data < 3)%nat -> filterOutliers data = data).
Proof.
  intros Hp. pose proof (filterOutliers_onlyClears data) as HF.
  split; [symmetry; eapply Forall2_length; exact HF|].
  split; [eapply Forall2_nth_error; eassumption|].
  intros Hlen. unfold filterOutliers.
  apply Nat.ltb_lt in Hlen. rewrite Hlen. reflexivity.
Qed.

Lemma outlier_filter_only_clears_witness :
  exists p',
    nth_error
      (filterOutliers
         [mkPoint 4 (mkTimes (Some 1) None None None);
          mkPoint 3 (mkTimes (Some 100) None None None);
          mkPoint 2 (mkTimes (Some 101) None None None);
          mkPoint 1 (mkTimes (Some 102) None None None)]) 0 = Some p' /\
    onlyClears (mkPoint 4 (mkTimes (Some 1) None None None)) p'.
Proof.
  apply (outlier_filter_only_clears
           [mkPoint 4 (mkTimes (Some 1) None None None);
            mkPoint 3 (mkTimes (Some 100) None None None);
            mkPoint 2 (mkTimes (Some 101) None None None);
            mkPoint 1 (mkTimes (Some 102) None None None)] 0).
  reflexivity.
Defined.

End OutlierFacts.

Section TrendFacts.

Import Strava Predictions History.

Variable now : Z.
Variable Math_pow : Q -> Q -> Q.
Variable Math_log : Q -> Q.

Lemma boundedTime_None (p : Prediction) (lo hi : Q) :
  time p = None -> boundedTime p lo hi = None.
Proof. intros H. unfold boundedTime. rewrite H. reflexivity. Qed.

Lemma cutoff_day (weeks : Z) :
  ((now - weeks * WEEK_MS) / DAY_MS = today now - 7 * weeks)%Z.
Proof.
  unfold today, WEEK_MS, DAY_MS.
  replace (now - weeks * (7 * 24 * 60 * 60 * 1000))%Z
    with (now + (- (7 * weeks)) * (24 * 60 * 60 * 1000))%Z by ring.
  rewrite Z.div_add by lia. ring.
Qed.

(** The runs the predictor keeps are those of the 24 weeks before the real
    clock; an activity window that ends more than 24 weeks back has none. *)
Lemma old_window_has_no_recent_runs (acts : list Activity) (weeks : Z) :
  (24 < weeks)%Z ->
  recentActivitiesOf now
    (filter (fun a => (start_date a <=? now - weeks * WEEK_MS)%Z
                      && (now - weeks * WEEK_MS - 24 * WEEK_MS
                          <=? start_date a)%Z) acts) = [].
Proof.
  intros Hw. unfold recentActivitiesOf. cbv zeta.
  apply filter_nil_iff. intros a Ha.
  apply filter_In in Ha. destruct Ha as [_ Ha].
  apply andb_prop in Ha. destruct Ha as [Ha _]. apply Z.leb_le in Ha.
  apply andb_false_iff. left. apply Z.leb_gt.
  unfold WEEK_MS in Ha. lia.
Qed.

Lemma pushDataPoint_spec (acts : list Activity) (raw : list DataPoint)
    (weeks : Z) :
  exists raw',
    pushDataPoint now Math_pow Math_log acts (Returned raw) weeks
    = Returned raw' /\
    (raw' = raw \/
     exists pt, raw' = raw ++ [pt] /\
                date pt = (today now - 7 * weeks)%Z /\
                ((24 < weeks)%Z -> predictions pt = noTimes)).
Proof.
  unfold pushDataPoint. cbn [bind].
  set (atTime := filter _ acts).
  destruct (10 <=? length atTime)%nat; [|eexists; split; [reflexivity|]; auto].
  destruct (calculateRacePredictions_returns now Math_pow Math_log atTime)
    as (ps & Eps).
  rewrite Eps. cbn [bind].
  eexists. split; [reflexivity|]. right.
  eexists. split; [reflexivity|]. cbn [date predictions].
  split; [apply cutoff_day|].
  intros Hw.
  pose proof (old_window_has_no_recent_runs acts weeks Hw) as Hnone.
  fold atTime in Hnone.
  unfold calculateRacePredictions in Eps. cbv zeta in Eps.
  rewrite Hnone in Eps. cbn [length Nat.ltb Nat.leb] in Eps.
  inversion Eps. reflexivity.
Qed.

Lemma fold_pushDataPoint (acts : list Activity) (ws : list Z) :
  forall raw,
    Forall (fun pt => (date pt < today now - 168)%Z ->
                      predictions pt = noTimes) raw ->
    exists raw',
      fold_left (pushDataPoint now Math_pow Math_log acts) ws (Returned raw)
      = Returned raw' /\
      (length raw' <= length raw + length ws)%nat /\
      Forall (fun pt => (date pt < today now - 168)%Z ->
                        predictions pt = noTimes) raw'.
Proof.
  induction ws as [|w ws IH]; intros raw Hraw; cbn [fold_left].
  - exists raw. split; [reflexivity|]. split; [simpl; lia | exact Hraw].
  - destruct (pushDataPoint_spec acts raw w)
      as (raw1 & -> & [->|(pt & -> & Hdate & Hnone)]).
    + destruct (IH raw Hraw) as (raw' & E & Hlen & HF).
      exists raw'. split; [exact E|]. split; [simpl; lia | exact HF].
    + destruct (IH (raw ++ [pt])) as (raw' & E & Hlen & HF).
      * apply Forall_app. split; [exact Hraw|].
        constructor; [|constructor].
        intros Hold. apply Hnone. lia.
      * exists raw'. split; [exact E|]. split; [|exact HF].
        rewrite length_app in Hlen. simpl in *. lia.
Qed.

Lemma onlyClears_noTimes (p p' : DataPoint) :
  onlyClears p p' -> predictions p = noTimes -> predictions p' = noTimes.
Proof.
  intros [_ Ht] Hp.
  pose proof (Ht K5) as H5. pose proof (Ht K10) as H10.
  pose proof (Ht KHalf) as HH. pose proof (Ht KFull) as HF.
  unfold getTime in *. rewrite Hp in *. cbn in *.
  destruct (predictions p') as [a b c e]. cbn in *.
  unfold noTimes.
  assert (a = None) by tauto. assert (b = None) by tauto.
  assert (c = None) by tauto. assert (e = None) by tauto.
  subst. reflexivity.
Qed.

Lemma weeksBack_length (maxWeeksBack : Z) :
  (maxWeeksBack <= 52)%Z -> (length (weeksBack maxWeeksBack) <= 27)%nat.
Proof.
  intros H. unfold weeksBack.
  destruct (maxWeeksBack <? 0)%Z eqn:E; [simpl; lia|].
  apply Z.ltb_ge in E.
  rewrite length_map, length_seq.
  assert (maxWeeksBack / 2 <= 26)%Z
    by (apply Z.div_le_upper_bound; lia).
  assert (0 <= maxWeeksBack / 2)%Z by (apply Z.div_pos; lia).
  lia.
Qed.

(** The trend computation never throws and returns at most 27 data points;
    every point dated more than 168 days (24 weeks) before today has no
    time at all, because the predictor it calls keeps only the runs of the
    24 weeks before the real clock, not before the point's own cutoff. *)
Theorem trend_has_no_times_beyond_24_weeks (acts : list Activity) :
  exists result,
    computeHistory now Math_pow Math_log acts = Returned result /\
    (length result <= 27)%nat /\
    forall pt, In pt result ->
               (date pt < today now - 168)%Z -> predictions pt = noTimes.
Proof.
  unfold computeHistory. cbv zeta.
  set (maxWeeksBack := Z.min 52 _).
  destruct (fold_pushDataPoint acts (weeksBack maxWeeksBack) [])
    as (raw & -> & Hlen & HF); [constructor|].
  cbn [bind]. eexists. split; [reflexivity|].
  pose proof (filterOutliers_onlyClears raw) as H2.
  split.
  - rewrite length_rev, <- (Forall2_length H2).
    pose proof (weeksBack_length maxWeeksBack) as Hw.
    assert (maxWeeksBack <= 52)%Z by (unfold maxWeeksBack; lia).
    simpl in Hlen. lia.
  - intros pt Hin Hold. apply in_rev in Hin.
    apply In_nth_error in Hin. destruct Hin as (i & Hi).
    assert (Hsym : exists p0, nth_error raw i = Some p0 /\ onlyClears p0 pt).
    { clear -H2 Hi. revert i Hi.
      induction H2 as [|a b l l' Hab _ IH]; intros i Hi.
      - destruct i; discriminate.
      - destruct i as [|i]; simpl in *.
        + inversion Hi; subst. eauto.
        + apply IH. exact Hi. }
    destruct Hsym as (p0 & Hp0 & Hclr).
    apply (onlyClears_noTimes p0 pt Hclr).
    rewrite Forall_forall in HF. apply HF.
    + eapply nth_error_In. exact Hp0.
    + destruct Hclr as [Hd _]. rewrite <- Hd. exact Hold.
Qed.


End TrendFacts.


(** * Properties of the activity sync *)

Section SyncFacts.

Import Predictions StravaSync.

Context {A : Type}.
Variable idOf : A -> Z.

Lemma seen_has (x : Z) (seen : list Z) :
  existsb (Z.eqb x) seen = true <-> In x seen.
Proof.
  rewrite existsb_exists. split.
  - intros (y & Hy & E). apply Z.eqb_eq in E. subst. exact Hy.
  - intros H. exists x. split; [exact H | apply Z.eqb_refl].
Qed.

Lemma dedupe_spec (l : list A) :
  forall seen,
    NoDup (map idOf (dedupe idOf seen l)) /\
    (forall a, In a (dedupe idOf seen l) ->
               In a l /\ ~ In (idOf a) seen) /\
    (forall a, In a l -> ~ In (idOf a) seen ->
               In (idOf a) (map idOf (dedupe idOf seen l))).
Proof.
  induction l as [|x xs IH]; intros seen; cbn [dedupe].
  - split; [constructor|]. split; intros a [].
  - destruct (existsb (Z.eqb (idOf x)) seen) eqn:E.
    + apply seen_has in E.
      destruct (IH seen) as (Hnd & Hin & Hall).
      split; [exact Hnd|]. split.
      * intros a Ha. destruct (Hin a Ha). split; [right|]; assumption.
      * intros a [<-|Ha] Hns; [contradiction|]. apply Hall; assumption.
    + assert (Hx : ~ In (idOf x) seen).
      { intros H. apply seen_has in H. congruence. }
      destruct (IH (idOf x :: seen)) as (Hnd & Hin & Hall).
      split; [|split].
      * cbn [map]. constructor; [|exact Hnd].
        intros H. apply in_map_iff in H. destruct H as (a & Ea & Ha).
        destruct (Hin a Ha) as [_ Hns]. apply Hns. left. symmetry. exact Ea.
      * intros a [<-|Ha]; [split; [left; reflexivity | exact Hx]|].
        destruct (Hin a Ha) as [Hl Hns].
        split; [right; exact Hl|]. intros H. apply Hns. right. exact H.
      * intros a Ha Hns. cbn [map].
        destruct (Z.eq_dec (idOf x) (idOf a)) as [Eq|Ne]; [left; exact Eq|].
        right. destruct Ha as [<-|Ha]; [congruence|].
        apply Hall; [exact Ha|]. intros [H|H]; [congruence | contradiction].
Qed.

Variable getActivities : nat -> Outcome (list A).

Lemma fetchPages_from (remaining : nat) :
  forall page acc l,
    fetchPages getActivities page remaining acc = Returned l ->
    forall a, In a l ->
      In a acc \/
      exists p batch, (page <= p < page + remaining)%nat /\
                      getActivities p = Returned batch /\ In a batch.
Proof.
  induction remaining as [|r IH]; intros page acc l Hl a Ha; cbn in Hl.
  - inversion Hl; subst. left. exact Ha.
  - destruct (getActivities page) as [batch|] eqn:Eb; [|discriminate Hl].
    cbn [bind] in Hl.
    destruct (length batch =? 0)%nat.
    + inversion Hl; subst. left. exact Ha.
    + destruct (IH _ _ _ Hl a Ha) as [Hacc|(p & b & Hp & Eg & Hin)].
      * apply in_app_or in Hacc. destruct Hacc as [Hacc|Hb];
          [left; exact Hacc|].
        right. exists page, batch. split; [lia|]. split; assumption.
      * right. exists p, b. split; [lia|]. split; assumption.
Qed.

(** The synced list holds every activity id at most once, and each of its
    activities was returned by one of the pages 1 .. maxPages. *)
Theorem synced_activities_have_unique_ids (maxPages : nat) (l : list A) :
  getAllActivities idOf getActivities maxPages = Returned l ->
  NoDup (map idOf l) /\
  forall a, In a l ->
    exists page batch, (1 <= page <= maxPages)%nat /\
                       getActivities page = Returned batch /\ In a batch.
Proof.
  unfold getAllActivities. intros H.
  destruct (fetchPages getActivities 1 maxPages []) as [all|] eqn:Ef;
    [|discriminate H].
  cbn [bind] in H. inversion H; subst. clear H.
  destruct (dedupe_spec all []) as (Hnd & Hin & _).
  split; [exact Hnd|]. intros a Ha.
  destruct (Hin a Ha) as [Hall _].
  destruct (fetchPages_from _ _ _ _ Ef a Hall) as [[]|(p & b & Hp & Eg & Hb)].
  exists p, b. split; [lia|]. split; assumption.
Qed.

End SyncFacts.

Section SyncStopFacts.

Import Predictions StravaSync.

Context {A : Type}.
Variable idOf : A -> Z.

Lemma fetchPages_stops (g1 g2 : nat -> Outcome (list A)) (stop : nat)
    (remaining : nat) :
  g1 stop = Returned [] ->
  (forall q, (1 <= q <= stop)%nat -> g1 q = g2 q) ->
  forall page acc,
    (1 <= page <= stop)%nat ->
    fetchPages g1 page remaining acc = fetchPages g2 page remaining acc.
Proof.
  intros Hstop Hagree.
  induction remaining as [|r IH]; intros page acc Hpage; cbn [fetchPages].
  - reflexivity.
  - rewrite <- (Hagree page Hpage).
    destruct (Nat.eq_dec page stop) as [->|Hne].
    + rewrite Hstop. reflexivity.
    + destruct (g1 page) as [batch|]; [|reflexivity]. cbn [bind].
      destruct (length batch =? 0)%nat; [reflexivity|].
      apply IH. lia.
Qed.

(** The sync stops at the first empty page: two page sources that agree on
    the pages 1 .. stop, the last of which is empty, give the same outcome,
    whatever they would answer (or throw) for the later pages. *)
Theorem sync_stops_at_first_empty_page (g1 g2 : nat -> Outcome (list A))
    (stop maxPages : nat) :
  (1 <= stop)%nat ->
  g1 stop = Returned [] ->
  (forall q, (1 <= q <= stop)%nat -> g1 q = g2 q) ->
  getAllActivities idOf g1 maxPages = getAllActivities idOf g2 maxPages.
Proof.
  intros H1 Hstop Hagree. unfold getAllActivities.
  rewrite (fetchPages_stops g1 g2 stop maxPages Hstop Hagree 1 []
             (conj (le_n 1) H1)).
  reflexivity.
Qed.

End SyncStopFacts.

Lemma synced_activities_have_unique_ids_witness :
  StravaSync.getAllActivities (fun z : Z => z)
    (fun page => match page with
                 | 1%nat => Predictions.Returned [1; 2; 1]%Z
                 | 2%nat => Predictions.Returned [2; 3]%Z
                 | _ => Predictions.Returned []
                 end) 5
  = Predictions.Returned [1; 2; 3]%Z /\
  NoDup (map (fun z : Z => z) [1; 2; 3]%Z).
Proof.
  split; [reflexivity|].
  apply (synced_activities_have_unique_ids (fun z : Z => z)
           (fun page => match page with
                        | 1%nat => Predictions.Returned [1; 2; 1]%Z
                        | 2%nat => Predictions.Returned [2; 3]%Z
                        | _ => Predictions.Returned []
                        end) 5 [1; 2; 3]%Z).
  reflexivity.
Defined.

Lemma sync_stops_at_first_empty_page_witness :
  StravaSync.getAllActivities (fun z : Z => z)
    (fun page => match page with
                 | 1%nat => Predictions.Returned [1; 2; 1]%Z
                 | _ => Predictions.Returned []
                 end) 5
  = StravaSync.getAllActivities (fun z : Z => z)
      (fun page => match page with
                   | 1%nat => Predictions.Returned [1; 2; 1]%Z
                   | 2%nat => Predictions.Returned []
                   | 3%nat => Predictions.Returned [7]%Z
                   | _ => Predictions.Threw
                   end) 5.
Proof.
  apply (sync_stops_at_first_empty_page (fun z : Z => z) _ _ 2 5).
  - lia.
  - reflexivity.
  - intros q Hq. destruct q as [|[|[|q]]]; [lia | reflexivity .. | lia].
Defined.

(** * Properties of the daily regeneration *)

Section RegenerationFacts.

Import TrainingPlan Regeneration.

(** A stored plan is regenerated exactly when the calendar day has changed
    since it was generated: on the day of generation the test is false, and
    from 24 hours after the generation on it is true. Without a stored date
    the plan is always regenerated. *)
Theorem plan_is_regenerated_once_per_day (now later : Z) (g : RaceGoal)
    (m : DetailedTrainingMetrics) (ft : option string) :
  (now <= later)%Z ->
  let stored := Some (generatedDate (generateTrainingPlan now g m ft)) in
  shouldRegeneratePlan now stored = false /\
  (shouldRegeneratePlan later stored = false <-> today later = today now) /\
  ((now + Strava.DAY_MS <= later)%Z ->
   shouldRegeneratePlan later stored = true) /\
  shouldRegeneratePlan later None = true.
Proof.
  intros Hle. cbv zeta.
  change (generatedDate (generateTrainingPlan now g m ft))
    with (today now).
  unfold shouldRegeneratePlan. cbv zeta. fold (today later) (today now).
  split; [rewrite Z.eqb_refl; reflexivity|].
  split; [|split; [|reflexivity]].
  - rewrite negb_false_iff. apply Z.eqb_eq.
  - intros Hday. rewrite negb_true_iff. apply Z.eqb_neq.
    unfold today, Strava.DAY_MS in *.
    assert (H : (now / (24 * 60 * 60 * 1000) + 1
                 <= later / (24 * 60 * 60 * 1000))%Z).
    { replace (now / (24 * 60 * 60 * 1000) + 1)%Z
        with ((now + 1 * (24 * 60 * 60 * 1000)) / (24 * 60 * 60 * 1000))%Z
        by (rewrite Z.div_add by lia; reflexivity).
      apply Z.div_le_mono; lia. }
    lia.
Qed.

End RegenerationFacts.

Lemma plan_is_regenerated_once_per_day_witness :
  Regeneration.shouldRegeneratePlan 86400000
    (Some (TrainingPlan.generatedDate
             (TrainingPlan.generateTrainingPlan 0 (tenKGoal 16 3)
                (metricsWithVolume 12) None))) = true.
Proof.
  refine (proj1 (proj2 (proj2
            (plan_is_regenerated_once_per_day 0 86400000 (tenKGoal 16 3)
               (metricsWithVolume 12) None _))) _).
  - lia.
  - vm_compute. discriminate.
Defined.
